(** * lk_checkin: a shallow embedding of the LK daily check-in script

    The development follows [lk_checkin.py].  Values that travel through
    the script are JSON values handled dynamically, so they are modelled
    by one inductive type together with the handful of Python operations
    the script applies to them (subscript, [.get], truth value,
    comparison with an integer); an operation that raises in Python
    returns [Raise] here.  The outside world (the remote API, the cache
    file) is a record threaded through a state-and-exception monad; every
    HTTP attempt, every client operation and every cache access is an
    event of the run's trace, which is what the theorems talk about. *)

From Stdlib Require Import ZArith NArith List String Ascii Bool Lia DecimalString.
Import ListNotations.
Set Warnings "-register-all".
Local Open Scope string_scope.
Local Open Scope Z_scope.
Local Open Scope list_scope.

(** ** JSON values and the Python operations applied to them *)

(** Numbers are integers: every numeric field the script reads (code,
    status, coin, exp, uid, aid) is integral. *)
Inductive json : Type :=
| JNull
| JBool (b : bool)
| JInt (z : Z)
| JStr (s : string)
| JList (items : list json)
| JDict (fields : list (string * json)).

(** A Python [dict] with string keys, in insertion order. *)
Definition pydict : Type := list (string * json).

Inductive exn : Type := ValueError | KeyError | TypeError | AttributeError.

Inductive res (A : Type) : Type :=
| Ok (a : A)
| Raise (e : exn).
Arguments Ok {A} a.
Arguments Raise {A} e.

Fixpoint lookup (k : string) (d : pydict) : option json :=
  match d with
  | [] => None
  | (k', v) :: rest => if String.eqb k k' then Some v else lookup k rest
  end.

(** [d[k] = v]: an existing key keeps its place, a new one goes last. *)
Fixpoint store (k : string) (v : json) (d : pydict) : pydict :=
  match d with
  | [] => [(k, v)]
  | (k', v') :: rest =>
      if String.eqb k k' then (k, v) :: rest else (k', v') :: store k v rest
  end.

(** [d.get(k, default)] on a dict. *)
Definition get (d : pydict) (k : string) (default : json) : json :=
  match lookup k d with Some v => v | None => default end.

(** [bool(v)]. *)
Definition truthy (v : json) : bool :=
  match v with
  | JNull => false
  | JBool b => b
  | JInt z => negb (z =? 0)
  | JStr s => negb (String.eqb s "")
  | JList l => match l with [] => false | _ => true end
  | JDict d => match d with [] => false | _ => true end
  end.

(** [v[k]] with a string key: [KeyError] on a dict without it, [TypeError]
    on anything that is not a dict. *)
Definition subscript (v : json) (k : string) : res json :=
  match v with
  | JDict d => match lookup k d with Some x => Ok x | None => Raise KeyError end
  | _ => Raise TypeError
  end.

(** [v.get(k, default)]: only a dict has the method. *)
Definition dict_get (v : json) (k : string) (default : json) : res json :=
  match v with
  | JDict d => Ok (get d k default)
  | _ => Raise AttributeError
  end.

(** The integer a value compares as ([bool] is a subclass of [int]). *)
Definition as_int (v : json) : option Z :=
  match v with
  | JInt z => Some z
  | JBool b => Some (if b then 1 else 0)
  | _ => None
  end.

(** [v == n] for an integer [n]. *)
Definition eq_int (v : json) (n : Z) : bool :=
  match as_int v with Some z => z =? n | None => false end.

(** [v < n] and [v >= n] for an integer [n]; ordering a non-number against
    an integer is a [TypeError]. *)
Definition lt_int (v : json) (n : Z) : res bool :=
  match as_int v with Some z => Ok (z <? n) | None => Raise TypeError end.

Definition ge_int (v : json) (n : Z) : res bool :=
  match as_int v with Some z => Ok (n <=? z) | None => Raise TypeError end.

Definition hashable (v : json) : bool :=
  match v with JList _ | JDict _ => false | _ => true end.

Definition chars (s : string) : list json :=
  map (fun c => JStr (String c EmptyString)) (list_ascii_of_string s).

(** What a [for] loop (or [list.extend]) draws from a value. *)
Definition py_iter (v : json) : res (list json) :=
  match v with
  | JList l => Ok l
  | JDict d => Ok (map (fun kv => JStr (fst kv)) d)
  | JStr s => Ok (chars s)
  | _ => Raise TypeError
  end.

(** [len(v)]. *)
Definition py_len (v : json) : res nat :=
  match v with
  | JList l => Ok (List.length l)
  | JDict d => Ok (List.length d)
  | JStr s => Ok (String.length s)
  | _ => Raise TypeError
  end.

(** [v[:30]] as evaluated for a log line: strings and lists slice, a dict
    rejects the slice as a key, the rest is not subscriptable. *)
Definition py_slice (v : json) : res unit :=
  match v with
  | JStr _ | JList _ => Ok tt
  | _ => Raise TypeError
  end.

(** ** [str.split(":")] and [int(str)] *)

Fixpoint split_on (sep : ascii) (s : string) : list string :=
  match s with
  | EmptyString => [EmptyString]
  | String c rest =>
      if Ascii.eqb c sep then EmptyString :: split_on sep rest
      else match split_on sep rest with
           | [] => [String c EmptyString]
           | part :: parts => String c part :: parts
           end
  end.

Definition is_space (c : ascii) : bool :=
  let n := nat_of_ascii c in
  ((9 <=? n) && (n <=? 13))%nat || ((28 <=? n) && (n <=? 32))%nat.

Definition digit_of (c : ascii) : option Z :=
  let n := Z.of_nat (nat_of_ascii c) in
  if (48 <=? n) && (n <=? 57) then Some (n - 48) else None.

Fixpoint lstrip (l : list ascii) : list ascii :=
  match l with
  | c :: rest => if is_space c then lstrip rest else l
  | [] => []
  end.

Definition strip (l : list ascii) : list ascii := rev (lstrip (rev (lstrip l))).

(** Digits with single underscores between them, as [int] accepts;
    [after_digit] says whether the previous character was a digit. *)
Fixpoint digits (l : list ascii) (acc : Z) (after_digit : bool) : option Z :=
  match l with
  | [] => if after_digit then Some acc else None
  | c :: rest =>
      match digit_of c with
      | Some d => digits rest (10 * acc + d) true
      | None =>
          if Ascii.eqb c "_"%char && after_digit
          then match rest with
               | [] => None
               | c' :: _ => match digit_of c' with
                            | Some _ => digits rest acc false
                            | None => None
                            end
               end
          else None
      end
  end.

(** [int(s)] in base ten on an ASCII string: surrounding white space
    stripped, an optional sign, then digits.  [None] is [ValueError]. *)
Definition py_int (s : string) : option Z :=
  match strip (list_ascii_of_string s) with
  | [] => None
  | c :: rest =>
      if Ascii.eqb c "-"%char then option_map Z.opp (digits rest 0 false)
      else if Ascii.eqb c "+"%char then digits rest 0 false
      else digits (c :: rest) 0 false
  end.

(** ** The world outside the script *)

(** What one HTTP POST comes back with: [requests] raised (timeout,
    connection error), or a response arrived. *)
Inductive http_outcome : Type :=
| NetFailure
| Response (status : Z) (content : string).

(** The client operations; each is logged by the method that performs it. *)
Inductive operation : Type :=
| OpLogin (username : string)
| OpUserInfo
| OpTaskList
| OpArticleList (page : Z)
| OpArticleDetail (aid : json)
| OpAddHistory (aid : json)
| OpAddCollection (aid : json)
| OpDelCollection (aid : json)
| OpLike (aid : json)
| OpUseCoin (aid : json) (number : Z)
| OpClaim (task_id : Z).

(** The trace of a run: the log lines with which a method announces
    itself and reports how it went, and the effects on the outside. *)
Inductive event : Type :=
| EvCall (op : operation)                    (* the line logged on entering a method *)
| EvResult (op : operation) (ok : bool)      (* the line reporting success or failure *)
| EvBalance (coin : json)                    (* the balance line of the coin task *)
| EvRequest (path : string) (body : json)    (* one HTTP POST was sent *)
| EvCacheLoad                                (* load_cache was called *)
| EvCacheSave (cache : json).                (* save_cache wrote the file *)

Record World : Type := mkWorld {
  net : list http_outcome;       (* what the next HTTP attempts come back with *)
  cache_file : option string;    (* .lk_cache.json: absent, or its content *)
  cache_writable : bool          (* whether writing the cache file succeeds *)
}.

(** ** State, exceptions and the trace *)

(** A computation runs in a world and yields a result or an exception,
    the world it leaves, and the events it produced, in order. *)
Definition M (A : Type) : Type := World -> res A * World * list event.

Definition result_of {A} (o : res A * World * list event) : res A := fst (fst o).
Definition world_of {A} (o : res A * World * list event) : World := snd (fst o).
Definition events_of {A} (o : res A * World * list event) : list event := snd o.

Definition ret {A} (a : A) : M A := fun w => (Ok a, w, []).

Definition raise {A} (e : exn) : M A := fun w => (Raise e, w, []).

Definition bind {A B} (m : M A) (k : A -> M B) : M B :=
  fun w => match m w with
           | (Ok a, w1, t1) =>
               match k a w1 with (r, w2, t2) => (r, w2, t1 ++ t2) end
           | (Raise e, w1, t1) => (Raise e, w1, t1)
           end.

Definition lift {A} (r : res A) : M A := fun w => (r, w, []).

Definition log (e : event) : M unit := fun w => (Ok tt, w, [e]).

Notation "x <- m ;; k" := (bind m (fun x => k))
  (at level 61, m at next level, right associativity).
Notation "m ;;; k" := (bind m (fun _ => k))
  (at level 61, right associativity).

(** [for x in xs: body], stopping at the first exception. *)
Fixpoint for_each {A} (xs : list A) (body : A -> M unit) : M unit :=
  match xs with
  | [] => ret tt
  | x :: rest => body x ;;; for_each rest body
  end.

(** ** The libraries the script calls *)

(** [base64], [zlib], [json], [random.shuffle] and the clock are not part
    of the script; a decoder returns [None] where the Python function
    raises. *)
Record PyLib : Type := mkPyLib {
  b64encode : string -> string;
  b64decode : string -> option string;
  zlib_compress : string -> string;
  zlib_decompress : string -> option string;
  json_dumps : json -> string;
  json_loads : string -> option json;
  shuffle : list json -> list json;
  now_iso : string
}.

Section Script.

Variable lib : PyLib.

(** ** Utility functions (lines 79-113) *)

(** base64 decode, zlib decompress, JSON parse: the three steps that
    [decode_response], [login] and [_post] each chain inside one [try]. *)
Definition gz_decode (raw : string) : option json :=
  match b64decode lib raw with
  | Some compressed =>
      match zlib_decompress lib compressed with
      | Some decompressed => json_loads lib decompressed
      | None => None
      end
  | None => None
  end.

Definition decode_response (data : json) : json :=
  match data with
  | JStr s =>
      match gz_decode s with
      | Some v => v
      | None => data        (* except Exception: return data *)
      end
  | _ => data
  end.

(** [body["d"].update(extra_data)]. *)
Definition update (d extra : pydict) : pydict :=
  fold_left (fun acc kv => store (fst kv) (snd kv) acc) extra d.

Definition build_request_body (security_key : json) (extra_data : option pydict) : json :=
  let d := [("security_key", security_key)] in
  let d := match extra_data with
           | Some extra => match extra with [] => d | _ => update d extra end
           | None => d
           end in
  JDict [("platform", JStr "android"); ("client", JStr "app"); ("sign", JStr "");
         ("ver_name", JStr "0.11.53"); ("ver_code", JInt 193);
         ("d", JDict d); ("gz", JInt 1)].

(** ** Cache management (lines 121-159) *)

Definition load_cache : M json := fun w =>
  match cache_file w with
  | None => (Ok (JDict []), w, [EvCacheLoad])
  | Some content =>
      match json_loads lib content with
      | Some cache => (Ok cache, w, [EvCacheLoad])
      | None => (Ok (JDict []), w, [EvCacheLoad])      (* except Exception: return {} *)
      end
  end.

Definition save_cache (cache : json) : M bool := fun w =>
  if cache_writable w
  then (Ok true, mkWorld (net w) (Some (json_dumps lib cache)) (cache_writable w),
        [EvCacheSave cache])
  else (Ok false, w, [EvCacheSave cache]).

Definition get_cached_security_key (username : string) : M json :=
  cache <- load_cache ;;
  entry <- lift (dict_get cache username (JDict [])) ;;
  lift (dict_get entry "security_key" JNull).

(** [cache[username] = entry]: only a dict takes a string key. *)
Definition set_item (cache : json) (k : string) (v : json) : res json :=
  match cache with
  | JDict d => Ok (JDict (store k v d))
  | _ => Raise TypeError
  end.

Definition cache_security_key (username : string) (security_key : json) : M unit :=
  cache <- load_cache ;;
  cache <- lift (set_item cache username
            (JDict [("security_key", security_key); ("cached_at", JStr (now_iso lib))])) ;;
  save_cache cache ;;;
  ret tt.

(** ** HTTP *)

(** One POST ([requests.post] or [session.post]): the request is recorded
    and the world says what comes back; a world with nothing left to say
    is a remote that no longer answers. *)
Definition next_outcome (w : World) : http_outcome :=
  match net w with
  | [] => NetFailure
  | o :: _ => o
  end.

Definition advance (w : World) : World :=
  mkWorld (tl (net w)) (cache_file w) (cache_writable w).

Definition send (path : string) (body : json) : M http_outcome := fun w =>
  (Ok (next_outcome w), advance w, [EvRequest path body]).

(** [resp.raise_for_status()] raises on a 4xx or 5xx status. *)
Definition is_http_error (status : Z) : bool := (400 <=? status) && (status <? 600).

(** ** Login (lines 162-209) *)

Definition login_body (username password : string) : json :=
  JDict [("platform", JStr "android"); ("client", JStr "app"); ("sign", JStr "");
         ("ver_name", JStr "0.11.53"); ("ver_code", JInt 193); ("is_encrypted", JInt 0);
         ("d", JDict [("username", JStr username); ("password", JStr password)]);
         ("gz", JInt 1)].

(** What [login] makes of a response body; [None] covers both the
    explicit [return None] and every exception, which the function's
    [except Exception] turns into [None]. *)
Definition login_result (content : string) : option json :=
  let result := match gz_decode content with
                | Some r => Some r
                | None => json_loads lib content      (* result = resp.json() *)
                end in
  match result with
  | Some (JDict r) =>
      if eq_int (get r "code" JNull) 0
      then match lookup "data" r with
           | Some (JDict data) => Some (get data "security_key" (JStr ""))
           | _ => None
           end
      else None
  | _ => None
  end.

(** What [login] returns for the outcome of its POST. *)
Definition login_key (o : http_outcome) : option json :=
  match o with
  | NetFailure => None
  | Response status content =>
      if is_http_error status then None else login_result content
  end.

Definition login (username password : string) : M (option json) :=
  log (EvCall (OpLogin username)) ;;;
  o <- send "/api/user/login" (login_body username password) ;;
  log (EvResult (OpLogin username) (match login_key o with Some _ => true | None => false end)) ;;;
  ret (login_key o).

(** ** The API client (lines 214-482) *)

Record LKClient : Type := mkClient {
  security_key : json;
  uid : json;
  nickname : json;
  coin : json;
  exp : json
}.

(** [LKClient(security_key)]. *)
Definition new_client (key : json) : LKClient := mkClient key JNull JNull (JInt 0) (JInt 0).

(** The two handlers of [_post]'s [try]. *)
Inductive failure : Type := RequestException | OtherException.

(** Lines 242-262: what the [try] makes of a response body.  A result
    that is not a dict makes [result.get] (or ["data" in result]) raise,
    in either decoding branch. *)
Definition decode_body (content : string) : failure + pydict :=
  match gz_decode content with
  | Some (JDict result) => inr result
  | _ =>
      (* except Exception as decode_err: result = resp.json() *)
      match json_loads lib content with
      | Some (JDict result) =>
          match lookup "data" result with
          | Some (JStr s) => inr (store "data" (decode_response (JStr s)) result)
          | _ => inr result
          end
      | _ => inl OtherException     (* raise json_err *)
      end
  end.

(** What the [try] makes of one POST. *)
Definition interpret (o : http_outcome) : failure + pydict :=
  match o with
  | NetFailure => inl RequestException
  | Response status content =>
      if is_http_error status then inl RequestException else decode_body content
  end.

(** The body of the [try] in one pass of [_post]'s loop. *)
Definition attempt (path : string) (body : json) : M (failure + pydict) :=
  o <- send path body ;;
  ret (interpret o).

(** [for attempt in range(retry)], with [left] passes still to go. *)
Fixpoint post_loop (path : string) (body : json) (retry left attempt_no : nat)
  : M (option pydict) :=
  match left with
  | O => ret None
  | S left' =>
      r <- attempt path body ;;
      match r with
      | inr result => ret (Some result)
      | inl RequestException =>
          if (attempt_no =? retry - 1)%nat then ret None
          else post_loop path body retry left' (S attempt_no)
      | inl OtherException =>
          if (attempt_no =? retry - 1)%nat then ret None
          else post_loop path body retry left' (S attempt_no)
      end
  end.

Definition _post (c : LKClient) (path : string) (extra_data : option pydict) (retry : nat)
  : M (option pydict) :=
  post_loop path (build_request_body (security_key c) extra_data) retry retry 0.

(** [result and result.get("code") == 0], as a truth value. *)
Definition succeeded (result : option pydict) : bool :=
  match result with
  | Some (f :: r) => eq_int (get (f :: r) "code" JNull) 0
  | _ => false
  end.

(** [int(parts[1])]. *)
Definition parse_uid (part : string) : res Z :=
  match py_int part with Some n => Ok n | None => Raise ValueError end.

(** [self.security_key.split(":")]: only a string has the method. *)
Definition key_parts (key : json) : res (list string) :=
  match key with
  | JStr s => Ok (split_on ":"%char s)
  | _ => Raise AttributeError
  end.

(** Returns the truth value and the client with its fields refreshed. *)
Definition get_user_info (c : LKClient) : M (bool * LKClient) :=
  log (EvCall OpUserInfo) ;;;
  parts <- lift (key_parts (security_key c)) ;;
  match parts with
  | _ :: part :: _ =>
      uid <- lift (parse_uid part) ;;
      result <- _post c "/api/user/info" (Some [("uid", JInt uid)]) 3 ;;
      match result with
      | Some r =>
          if succeeded result then
            data <- lift (subscript (JDict r) "data") ;;
            uid <- lift (subscript data "uid") ;;
            nickname <- lift (subscript data "nickname") ;;
            balance <- lift (subscript data "balance") ;;
            coin <- lift (subscript balance "coin") ;;
            level <- lift (subscript data "level") ;;
            exp <- lift (subscript level "exp") ;;
            log (EvResult OpUserInfo true) ;;;
            ret (true, mkClient (security_key c) uid nickname coin exp)
          else log (EvResult OpUserInfo false) ;;; ret (false, c)
      | None => log (EvResult OpUserInfo false) ;;; ret (false, c)
      end
  | _ => log (EvResult OpUserInfo false) ;;; ret (false, c)       (* len(parts) < 2 *)
  end.

(** The body of the logging loop of [get_task_list]: the two subscripts,
    then the two table look-ups, which need hashable keys. *)
Definition describe_item (item : json) : M unit :=
  task_id <- lift (subscript item "id") ;;
  status <- lift (subscript item "status") ;;
  if hashable status
  then (if hashable task_id then ret tt else raise TypeError)
  else raise TypeError.

Definition get_task_list (c : LKClient) : M (option json) :=
  log (EvCall OpTaskList) ;;;
  result <- _post c "/api/task/list" None 3 ;;
  match result with
  | Some r =>
      if succeeded result then
        data <- lift (subscript (JDict r) "data") ;;
        log (EvResult OpTaskList true) ;;;
        items <- lift (dict_get data "items" (JList [])) ;;
        items <- lift (py_iter items) ;;
        for_each items describe_item ;;;
        ret (Some data)
      else log (EvResult OpTaskList false) ;;; ret None
  | None => log (EvResult OpTaskList false) ;;; ret None
  end.

Definition get_article_list (c : LKClient) (page : Z) : M (option json) :=
  log (EvCall (OpArticleList page)) ;;;
  result <- _post c "/api/category/get-article-by-cate"
              (Some [("parent_gid", JInt 3); ("gid", JInt 106);
                     ("page", JInt page); ("pageSize", JInt 40)]) 3 ;;
  match result with
  | Some r =>
      if succeeded result then
        data <- lift (subscript (JDict r) "data") ;;
        articles <- lift (subscript data "list") ;;
        _ <- lift (py_len articles) ;;
        log (EvResult (OpArticleList page) true) ;;;
        ret (Some articles)
      else log (EvResult (OpArticleList page) false) ;;; ret None
  | None => log (EvResult (OpArticleList page) false) ;;; ret None
  end.

Definition get_article_detail (c : LKClient) (aid : json) : M (option json) :=
  log (EvCall (OpArticleDetail aid)) ;;;
  result <- _post c "/api/article/get-detail" (Some [("aid", aid); ("simple", JInt 1)]) 3 ;;
  match result with
  | Some r =>
      if succeeded result then
        data <- lift (subscript (JDict r) "data") ;;
        ret (Some data)
      else log (EvResult (OpArticleDetail aid) false) ;;; ret None
  | None => log (EvResult (OpArticleDetail aid) false) ;;; ret None
  end.

(** Step 1 of [find_valid_article]: the loop over the pages. *)
Fixpoint collect_articles (c : LKClient) (pages : list Z) (all_articles : list json)
  : M (list json) :=
  match pages with
  | [] => ret all_articles
  | page :: rest =>
      articles <- get_article_list c page ;;
      match articles with
      | Some a =>
          if truthy a then
            more <- lift (py_iter a) ;;
            collect_articles c rest (all_articles ++ more)
          else collect_articles c rest all_articles
      | None => collect_articles c rest all_articles
      end
  end.

(** Step 2: the loop that checks the shuffled articles one by one. *)
Fixpoint probe_articles (c : LKClient) (articles : list json) : M (option json) :=
  match articles with
  | [] => ret None
  | article :: rest =>
      aid <- lift (subscript article "aid") ;;
      detail <- get_article_detail c aid ;;
      match detail with
      | Some d =>
          if truthy d then
            already_like <- lift (dict_get d "already_like" (JInt 1)) ;;
            already_fav <- lift (dict_get d "already_fav" (JInt 1)) ;;
            already_coin <- lift (dict_get d "already_coin" (JInt 1)) ;;
            if eq_int already_like 0 && eq_int already_fav 0 && eq_int already_coin 0
            then
              title <- lift (dict_get d "title" (JStr "")) ;;
              lift (py_slice title) ;;;
              ret (Some aid)
            else probe_articles c rest
          else probe_articles c rest
      | None => probe_articles c rest
      end
  end.

Definition find_valid_article (c : LKClient) (max_pages : nat) : M (option json) :=
  all_articles <- collect_articles c (map Z.of_nat (seq 1 max_pages)) [] ;;
  match all_articles with
  | [] => ret None
  | _ => probe_articles c (shuffle lib all_articles)
  end.

Definition add_history (c : LKClient) (aid : json) : M bool :=
  log (EvCall (OpAddHistory aid)) ;;;
  result <- _post c "/api/history/add-history" (Some [("fid", aid); ("class", JInt 1)]) 3 ;;
  log (EvResult (OpAddHistory aid) (succeeded result)) ;;;
  ret (succeeded result).

Definition add_collection (c : LKClient) (aid : json) : M bool :=
  log (EvCall (OpAddCollection aid)) ;;;
  result <- _post c "/api/history/add-collection" (Some [("fid", aid); ("class", JInt 1)]) 3 ;;
  log (EvResult (OpAddCollection aid) (succeeded result)) ;;;
  ret (succeeded result).

Definition del_collection (c : LKClient) (aid : json) : M bool :=
  log (EvCall (OpDelCollection aid)) ;;;
  result <- _post c "/api/history/del-collection" (Some [("fid", aid); ("class", JInt 1)]) 3 ;;
  log (EvResult (OpDelCollection aid) (succeeded result)) ;;;
  ret (succeeded result).

Definition like_article (c : LKClient) (aid : json) : M bool :=
  log (EvCall (OpLike aid)) ;;;
  result <- _post c "/api/article/like" (Some [("aid", aid)]) 3 ;;
  log (EvResult (OpLike aid) (succeeded result)) ;;;
  ret (succeeded result).

Definition use_coin (c : LKClient) (aid : json) (number : Z) : M bool :=
  log (EvCall (OpUseCoin aid number)) ;;;
  result <- _post c "/api/coin/use"
              (Some [("goods_id", JInt 2); ("params", aid); ("price", JInt 1);
                     ("number", JInt number); ("total_price", JInt number)]) 3 ;;
  log (EvResult (OpUseCoin aid number) (succeeded result)) ;;;
  ret (succeeded result).

(** The reward is the pair (coin, exp) of the returned dict. *)
Definition claim_reward (c : LKClient) (task_id : Z) : M (option (json * json)) :=
  log (EvCall (OpClaim task_id)) ;;;
  result <- _post c "/api/task/complete" (Some [("id", JInt task_id)]) 3 ;;
  match result with
  | Some r =>
      if succeeded result then
        coin <- lift (dict_get (get r "data" (JDict [])) "coin" (JInt 0)) ;;
        exp <- lift (dict_get (get r "data" (JDict [])) "exp" (JInt 0)) ;;
        log (EvResult (OpClaim task_id) true) ;;;
        ret (Some (coin, exp))
      else log (EvResult (OpClaim task_id) false) ;;; ret None
  | None => log (EvResult (OpClaim task_id) false) ;;; ret None
  end.

(** ** The check-in (lines 576-795) *)

Record Config : Type := mkConfig {
  lk_security_key : string;
  lk_username : string;
  lk_password : string
}.

Inductive outcome : Type := New | Done | Skip | Fail.

(** (task_id, coin, exp, status_code). *)
Definition task_result : Type := (Z * json * json * outcome)%type.

(** The reasons [do_checkin] gives to [build_failure_message]. *)
Inductive reason : Type :=
| LoginFailed | NoCredentials | UserInfoFailed | ReloginFailed
| TaskListFailed | NoArticle.

(** The message is kept as the arguments it is built from. *)
Inductive report : Type :=
| FailureMessage (nickname : json) (why : reason)
| SuccessMessage (nickname : json) (task_results : list task_result)
    (total_coin total_exp : Z) (final_coin final_exp : json).

Definition nonempty (s : string) : bool := negb (String.eqb s "").

(** Lines 591-608: the key from the configuration, from the cache, or
    from a login. *)
Definition resolve_key (cfg : Config) : M (reason + json) :=
  if nonempty (lk_security_key cfg) then ret (inr (JStr (lk_security_key cfg)))
  else if nonempty (lk_username cfg) && nonempty (lk_password cfg) then
    cached_key <- get_cached_security_key (lk_username cfg) ;;
    if truthy cached_key then ret (inr cached_key)
    else
      key <- login (lk_username cfg) (lk_password cfg) ;;
      match key with
      | Some k =>
          if truthy k
          then cache_security_key (lk_username cfg) k ;;; ret (inr k)
          else ret (inl LoginFailed)
      | None => ret (inl LoginFailed)
      end
  else ret (inl NoCredentials).

(** Lines 615-627: the key did not pass; one new login when a username
    and a password are there, and the check again on the key it returns. *)
Definition relogin (cfg : Config) : M (reason + LKClient) :=
  if nonempty (lk_username cfg) && nonempty (lk_password cfg) then
    key <- login (lk_username cfg) (lk_password cfg) ;;
    match key with
    | Some k =>
        if truthy k then
          cache_security_key (lk_username cfg) k ;;;
          checked <- get_user_info (new_client k) ;;
          if fst checked then ret (inr (snd checked))
          else ret (inl UserInfoFailed)
        else ret (inl ReloginFailed)
    | None => ret (inl ReloginFailed)
    end
  else ret (inl UserInfoFailed).

(** Lines 610-627: the client, its key checked by fetching the profile. *)
Definition validate (cfg : Config) (key : json) : M (reason + LKClient) :=
  checked <- get_user_info (new_client key) ;;
  if fst checked then ret (inr (snd checked)) else relogin cfg.

(** [task_status]: the (id, status) pairs in the order they were assigned. *)
Definition status_table : Type := list (json * json).

(** [task_status.get(k, 2)]: the last assignment to a key equal to [k]. *)
Definition status_get (k : Z) (task_status : status_table) : json :=
  fold_left (fun found kv => if eq_int (fst kv) k then snd kv else found)
            task_status (JInt 2).

(** Lines 640-642. *)
Fixpoint parse_statuses (items : list json) (task_status : status_table) : res status_table :=
  match items with
  | [] => Ok task_status
  | item :: rest =>
      match subscript item "status" with
      | Ok status =>
          match subscript item "id" with
          | Ok task_id =>
              if hashable task_id
              then parse_statuses rest (task_status ++ [(task_id, status)])
              else Raise TypeError
          | Raise e => Raise e
          end
      | Raise e => Raise e
      end
  end.

Definition zero : json := JInt 0.

(** Task 8 (lines 655-662). *)
Definition task_login (c : LKClient) (task_results : list task_result)
  : M (list task_result) :=
  reward <- claim_reward c 8 ;;
  match reward with
  | Some (coin, exp) => ret (task_results ++ [(8, coin, exp, New)])
  | None => ret (task_results ++ [(8, zero, zero, Done)])
  end.

(** Task 1 (lines 664-676). *)
Definition task_read (c : LKClient) (task_status : status_table) (aid : json)
  (task_results : list task_result) : M (list task_result) :=
  let status := status_get 1 task_status in
  todo <- lift (lt_int status 2) ;;
  if todo then
    (if eq_int status 0 then add_history c aid ;;; ret tt else ret tt) ;;;
    reward <- claim_reward c 1 ;;
    match reward with
    | Some (coin, exp) => ret (task_results ++ [(1, coin, exp, New)])
    | None => ret task_results
    end
  else ret (task_results ++ [(1, zero, zero, Done)]).

(** Task 2 (lines 678-691); also yields [collected]. *)
Definition task_favorite (c : LKClient) (task_status : status_table) (aid : json)
  (task_results : list task_result) : M (list task_result * bool) :=
  let status := status_get 2 task_status in
  todo <- lift (lt_int status 2) ;;
  if todo then
    collected <- (if eq_int status 0 then add_collection c aid else ret false) ;;
    reward <- claim_reward c 2 ;;
    match reward with
    | Some (coin, exp) => ret (task_results ++ [(2, coin, exp, New)], collected)
    | None => ret (task_results, collected)
    end
  else ret (task_results ++ [(2, zero, zero, Done)], false).

(** Task 3 (lines 693-705). *)
Definition task_like (c : LKClient) (task_status : status_table) (aid : json)
  (task_results : list task_result) : M (list task_result) :=
  let status := status_get 3 task_status in
  todo <- lift (lt_int status 2) ;;
  if todo then
    (if eq_int status 0 then like_article c aid ;;; ret tt else ret tt) ;;;
    reward <- claim_reward c 3 ;;
    match reward with
    | Some (coin, exp) => ret (task_results ++ [(3, coin, exp, New)])
    | None => ret task_results
    end
  else ret (task_results ++ [(3, zero, zero, Done)]).

(** Task 5 (lines 707-717). *)
Definition task_share (c : LKClient) (task_status : status_table)
  (task_results : list task_result) : M (list task_result) :=
  let status := status_get 5 task_status in
  todo <- lift (lt_int status 2) ;;
  if todo then
    reward <- claim_reward c 5 ;;
    match reward with
    | Some (coin, exp) => ret (task_results ++ [(5, coin, exp, New)])
    | None => ret task_results
    end
  else ret (task_results ++ [(5, zero, zero, Done)]).

(** Task 6 (lines 719-742); the client comes back refreshed. *)
Definition task_coin (c : LKClient) (task_status : status_table) (aid : json)
  (task_results : list task_result) : M (list task_result * LKClient) :=
  let status := status_get 6 task_status in
  todo <- lift (lt_int status 2) ;;
  if todo then
    refreshed <- get_user_info c ;;
    let c := snd refreshed in
    log (EvBalance (coin c)) ;;;
    enough <- lift (ge_int (coin c) 10) ;;
    if enough then
      (if eq_int status 0 then use_coin c aid 10 ;;; ret tt else ret tt) ;;;
      reward <- claim_reward c 6 ;;
      match reward with
      | Some (coin, exp) => ret (task_results ++ [(6, coin, exp, New)], c)
      | None => ret (task_results ++ [(6, zero, zero, Fail)], c)
      end
    else ret (task_results ++ [(6, zero, zero, Skip)], c)
  else ret (task_results ++ [(6, zero, zero, Done)], c).

(** [task_data.get("status", 2) if task_data else 2]. *)
Definition overall_status (task_data : option json) : res json :=
  match task_data with
  | Some d => if truthy d then dict_get d "status" (JInt 2) else Ok (JInt 2)
  | None => Ok (JInt 2)
  end.

(** Task 7 (lines 744-759). *)
Definition task_all (c : LKClient) (task_results : list task_result)
  : M (list task_result) :=
  task_data <- get_task_list c ;;
  main_status <- lift (overall_status task_data) ;;
  todo <- lift (lt_int main_status 2) ;;
  if todo then
    reward <- claim_reward c 7 ;;
    match reward with
    | Some (coin, exp) => ret (task_results ++ [(7, coin, exp, New)])
    | None => ret (task_results ++ [(7, zero, zero, Fail)])
    end
  else ret (task_results ++ [(7, zero, zero, Done)]).

(** Lines 653-742: the login task and the five tasks read from the
    snapshot, in the order of the source. *)
Definition first_tasks (c : LKClient) (task_status : status_table) (aid : json)
  : M (list task_result * bool * LKClient) :=
  r <- task_login c [] ;;
  r <- task_read c task_status aid r ;;
  rc <- task_favorite c task_status aid r ;;
  r <- task_like c task_status aid (fst rc) ;;
  r <- task_share c task_status r ;;
  rk <- task_coin c task_status aid r ;;
  ret (fst rk, snd rc, snd rk).

(** Lines 653-759. *)
Definition run_tasks (c : LKClient) (task_status : status_table) (aid : json)
  : M (list task_result * bool * LKClient) :=
  six <- first_tasks c task_status aid ;;
  r <- task_all (snd six) (fst (fst six)) ;;
  ret (r, snd (fst six), snd six).

(** Lines 761-767. *)
Definition cleanup (c : LKClient) (aid : json) (collected : bool) : M unit :=
  if collected then del_collection c aid ;;; ret tt else ret tt.

(** [sum(r[i] for r in task_results if r[3] == "new")] over the chosen
    column: adding a non-number to an integer is a [TypeError]. *)
Fixpoint py_sum (column : task_result -> json) (task_results : list task_result) (acc : Z)
  : res Z :=
  match task_results with
  | [] => Ok acc
  | r :: rest =>
      match snd r with
      | New => match as_int (column r) with
               | Some n => py_sum column rest (acc + n)
               | None => Raise TypeError
               end
      | _ => py_sum column rest acc
      end
  end.

Definition coin_of (r : task_result) : json := snd (fst (fst r)).
Definition exp_of (r : task_result) : json := snd (fst r).

(** Lines 769-795. *)
Definition summary (c : LKClient) (task_results : list task_result) : M (bool * report) :=
  refreshed <- get_user_info c ;;
  let c := snd refreshed in
  total_coin <- lift (py_sum coin_of task_results 0) ;;
  total_exp <- lift (py_sum exp_of task_results 0) ;;
  ret (true, SuccessMessage (nickname c) task_results total_coin total_exp (coin c) (exp c)).

(** [if not aid]. *)
Definition found (aid : option json) : bool :=
  match aid with Some a => truthy a | None => false end.

(** Lines 629-795: the check-in once the client holds a working key. *)
Definition checkin_with (client : LKClient) : M (bool * report) :=
  task_data <- get_task_list client ;;
  if found task_data then
    items <- lift (dict_get (match task_data with Some d => d | None => JNull end)
                     "items" (JList [])) ;;
    items <- lift (py_iter items) ;;
    task_status <- lift (parse_statuses items []) ;;
    aid <- find_valid_article client 5 ;;
    match aid with
    | Some a =>
        if truthy a then
          done <- run_tasks client task_status a ;;
          cleanup (snd done) a (snd (fst done)) ;;;
          summary (snd done) (fst (fst done))
        else ret (false, FailureMessage (nickname client) NoArticle)
    | None => ret (false, FailureMessage (nickname client) NoArticle)
    end
  else ret (false, FailureMessage (nickname client) TaskListFailed).

Definition do_checkin (cfg : Config) : M (bool * report) :=
  key <- resolve_key cfg ;;
  match key with
  | inl why => ret (false, FailureMessage JNull why)
  | inr key =>
      client <- validate cfg key ;;
      match client with
      | inl why => ret (false, FailureMessage JNull why)
      | inr client => checkin_with client
      end
  end.

End Script.

(** ** The messages (lines 53-61 and 519-573) *)

(** A message is kept as the parts its text is made of: the formatting
    of the amounts and the clock are left to Python. *)

Definition TASK_INFO : list (Z * string) :=
  [(8, "登录签到"); (1, "阅读帖子"); (2, "收藏帖子"); (3, "点赞帖子");
   (5, "分享帖子"); (6, "投币帖子"); (7, "全部完成")].

(** [TASK_INFO.get(task_id, default)]. *)
Definition task_info_get (task_id : Z) (default : string) : string :=
  match find (fun kv => fst kv =? task_id) TASK_INFO with
  | Some kv => snd kv
  | None => default
  end.

(** [str(n)] for an integer. *)
Definition str_int (n : Z) : string := NilZero.string_of_int (Z.to_int n).

Definition task_order : list Z := [8; 1; 2; 3; 5; 6; 7].

Definition id_of (r : task_result) : Z := fst (fst (fst r)).

(** [task_dict = {r[0]: r for r in task_results}], read at [task_id]:
    the last result recorded under that id. *)
Definition task_dict (task_results : list task_result) (task_id : Z) : option task_result :=
  fold_left (fun found r => if id_of r =? task_id then Some r else found)
            task_results None.

(** What follows the task's name on its line. *)
Inductive line_text : Type :=
| Gained (coin exp : json)     (* +{coin}, +{exp} *)
| Completed                    (* "done" *)
| Skipped                      (* "skip" *)
| Failed.                      (* "fail" *)

Definition text_of (r : task_result) : line_text :=
  match snd r with
  | New => Gained (coin_of r) (exp_of r)
  | Done => Completed
  | Skip => Skipped
  | Fail => Failed
  end.

(** [TASK_INFO.get(task_id, f"任务{task_id}")]. *)
Definition task_name (task_id : Z) : string :=
  task_info_get task_id ("任务" ++ str_int task_id).

(** The loop over [task_order] (lines 532-543). *)
Definition task_lines (task_results : list task_result) : list (string * line_text) :=
  flat_map (fun task_id =>
              match task_dict task_results task_id with
              | Some r => [(task_name task_id, text_of r)]
              | None => []
              end)
           task_order.

(** [task_detail]: the lines, or the placeholder when there is none. *)
Inductive detail : Type :=
| TaskLines (task_lines : list (string * line_text))
| NoTaskRecord.

Definition task_detail (task_results : list task_result) : detail :=
  match task_lines task_results with
  | [] => NoTaskRecord
  | l => TaskLines l
  end.

Record success_message : Type := mkSuccess {
  shown_user : json;
  shown_detail : detail;
  shown_total : Z * Z;
  shown_final : json * json
}.

Definition build_success_message (nickname : json) (task_results : list task_result)
  (total_coin total_exp : Z) (final_coin final_exp : json) : success_message :=
  mkSuccess nickname (task_detail task_results) (total_coin, total_exp)
            (final_coin, final_exp).

(** [nickname or "未知"], and the reason. *)
Definition build_failure_message (nickname : json) (why : reason) : json * reason :=
  (if truthy nickname then nickname else JStr "未知", why).

(** The message [do_checkin] returns, built from the arguments it passes. *)
Definition message_of (r : report) : (json * reason) + success_message :=
  match r with
  | FailureMessage nickname why => inl (build_failure_message nickname why)
  | SuccessMessage nickname task_results total_coin total_exp final_coin final_exp =>
      inr (build_success_message nickname task_results total_coin total_exp
             final_coin final_exp)
  end.

(** ** A reference instance of the libraries

    The theorems below hold for any [PyLib]; concrete runs need one.  This
    instance has base64 as RFC 4648 defines it (standard alphabet, padded),
    a one-byte framing in place of zlib's deflate stream, and a tagged
    prefix notation in place of JSON text.  Each decoder inverts its
    encoder and rejects what the encoder cannot have produced at the
    point it checks, which is all the script relies on. *)
Module Ref.

(** *** base64 *)

Definition alphabet (i : N) : ascii :=
  if (i <? 26)%N then ascii_of_N (65 + i)
  else if (i <? 52)%N then ascii_of_N (97 + (i - 26))
  else if (i <? 62)%N then ascii_of_N (48 + (i - 52))
  else if (i =? 62)%N then "+"%char
  else "/"%char.

Definition sextet (c : ascii) : option N :=
  let n := N_of_ascii c in
  if ((65 <=? n) && (n <=? 90))%N then Some (n - 65)%N
  else if ((97 <=? n) && (n <=? 122))%N then Some (n - 97 + 26)%N
  else if ((48 <=? n) && (n <=? 57))%N then Some (n - 48 + 52)%N
  else if (n =? 43)%N then Some 62%N
  else if (n =? 47)%N then Some 63%N
  else None.

Definition pad : ascii := "="%char.

(** Three bytes as one 24-bit number, and back. *)
Definition pack (a b c : N) : N := (a * 65536 + b * 256 + c)%N.

Definition byte1 (n : N) : ascii := ascii_of_N (n / 65536).
Definition byte2 (n : N) : ascii := ascii_of_N ((n / 256) mod 256).
Definition byte3 (n : N) : ascii := ascii_of_N (n mod 256).

(** Four sextets as one 24-bit number, and back. *)
Definition join (x y z t : N) : N := (x * 262144 + y * 4096 + z * 64 + t)%N.

Definition char1 (n : N) : ascii := alphabet (n / 262144).
Definition char2 (n : N) : ascii := alphabet ((n / 4096) mod 64).
Definition char3 (n : N) : ascii := alphabet ((n / 64) mod 64).
Definition char4 (n : N) : ascii := alphabet (n mod 64).

Fixpoint encode_bytes (l : list ascii) : list ascii :=
  match l with
  | [] => []
  | [a] =>
      let n := pack (N_of_ascii a) 0 0 in
      [char1 n; char2 n; pad; pad]
  | [a; b] =>
      let n := pack (N_of_ascii a) (N_of_ascii b) 0 in
      [char1 n; char2 n; char3 n; pad]
  | a :: b :: c :: rest =>
      let n := pack (N_of_ascii a) (N_of_ascii b) (N_of_ascii c) in
      char1 n :: char2 n :: char3 n :: char4 n :: encode_bytes rest
  end.

Fixpoint decode_chars (fuel : nat) (l : list ascii) : option (list ascii) :=
  match fuel with
  | O => None
  | S fuel =>
      match l with
      | [] => Some []
      | [p; q; r; s] =>
          match sextet p, sextet q with
          | Some x, Some y =>
              if Ascii.eqb s pad then
                if Ascii.eqb r pad then Some [byte1 (join x y 0 0)]
                else
                  match sextet r with
                  | Some z => Some [byte1 (join x y z 0); byte2 (join x y z 0)]
                  | None => None
                  end
              else
                match sextet r, sextet s with
                | Some z, Some t =>
                    Some [byte1 (join x y z t); byte2 (join x y z t); byte3 (join x y z t)]
                | _, _ => None
                end
          | _, _ => None
          end
      | p :: q :: r :: s :: rest =>
          match sextet p, sextet q, sextet r, sextet s, decode_chars fuel rest with
          | Some x, Some y, Some z, Some t, Some bytes =>
              Some (byte1 (join x y z t) :: byte2 (join x y z t)
                      :: byte3 (join x y z t) :: bytes)
          | _, _, _, _, _ => None
          end
      | _ => None
      end
  end.

Definition b64encode (s : string) : string :=
  string_of_list_ascii (encode_bytes (list_ascii_of_string s)).

Definition b64decode (s : string) : option string :=
  option_map string_of_list_ascii
    (decode_chars (S (String.length s)) (list_ascii_of_string s)).

(** *** The compression frame *)

Definition frame : ascii := "x"%char.

Definition compress (s : string) : string := String frame s.

Definition decompress (s : string) : option string :=
  match s with
  | String c rest => if Ascii.eqb c frame then Some rest else None
  | EmptyString => None
  end.

(** *** The notation for JSON values *)

Fixpoint write_bits (p : positive) : list ascii :=
  match p with
  | xH => ["."%char]
  | xO q => "0"%char :: write_bits q
  | xI q => "1"%char :: write_bits q
  end.

Definition write_int (z : Z) : list ascii :=
  match z with
  | Z0 => ["0"%char]
  | Zpos p => "+"%char :: write_bits p
  | Zneg p => "-"%char :: write_bits p
  end.

Fixpoint write_text (s : string) : list ascii :=
  match s with
  | EmptyString => ["."%char]
  | String c rest => "c"%char :: c :: write_text rest
  end.

Fixpoint write (v : json) : list ascii :=
  match v with
  | JNull => ["n"%char]
  | JBool true => ["t"%char]
  | JBool false => ["f"%char]
  | JInt z => "i"%char :: write_int z
  | JStr s => "s"%char :: write_text s
  | JList l => "["%char :: flat_map write l ++ ["]"%char]
  | JDict d =>
      "{"%char :: flat_map (fun kv => write_text (fst kv) ++ write (snd kv)) d ++ ["}"%char]
  end.

Definition write_field (kv : string * json) : list ascii :=
  write_text (fst kv) ++ write (snd kv).

Fixpoint read_bits (l : list ascii) : option (positive * list ascii) :=
  match l with
  | c :: rest =>
      if Ascii.eqb c "."%char then Some (xH, rest)
      else if Ascii.eqb c "0"%char
      then match read_bits rest with Some (p, r) => Some (xO p, r) | None => None end
      else if Ascii.eqb c "1"%char
      then match read_bits rest with Some (p, r) => Some (xI p, r) | None => None end
      else None
  | [] => None
  end.

Definition read_int (l : list ascii) : option (Z * list ascii) :=
  match l with
  | c :: rest =>
      if Ascii.eqb c "0"%char then Some (Z0, rest)
      else if Ascii.eqb c "+"%char
      then match read_bits rest with Some (p, r) => Some (Zpos p, r) | None => None end
      else if Ascii.eqb c "-"%char
      then match read_bits rest with Some (p, r) => Some (Zneg p, r) | None => None end
      else None
  | [] => None
  end.

Fixpoint read_text (l : list ascii) : option (string * list ascii) :=
  match l with
  | c :: rest =>
      if Ascii.eqb c "."%char then Some (EmptyString, rest)
      else if Ascii.eqb c "c"%char
      then match rest with
           | x :: rest' =>
               match read_text rest' with
               | Some (s, r) => Some (String x s, r)
               | None => None
               end
           | [] => None
           end
      else None
  | [] => None
  end.

Fixpoint read (fuel : nat) (l : list ascii) : option (json * list ascii) :=
  match fuel with
  | O => None
  | S fuel =>
      match l with
      | [] => None
      | c :: rest =>
          if Ascii.eqb c "n"%char then Some (JNull, rest)
          else if Ascii.eqb c "t"%char then Some (JBool true, rest)
          else if Ascii.eqb c "f"%char then Some (JBool false, rest)
          else if Ascii.eqb c "i"%char
          then match read_int rest with Some (z, r) => Some (JInt z, r) | None => None end
          else if Ascii.eqb c "s"%char
          then match read_text rest with Some (s, r) => Some (JStr s, r) | None => None end
          else if Ascii.eqb c "["%char
          then match read_items fuel rest with
               | Some (vs, r) => Some (JList vs, r)
               | None => None
               end
          else if Ascii.eqb c "{"%char
          then match read_fields fuel rest with
               | Some (d, r) => Some (JDict d, r)
               | None => None
               end
          else None
      end
  end
with read_items (fuel : nat) (l : list ascii) : option (list json * list ascii) :=
  match fuel with
  | O => None
  | S fuel =>
      match l with
      | [] => None
      | c :: rest =>
          if Ascii.eqb c "]"%char then Some ([], rest)
          else match read fuel l with
               | Some (v, r) =>
                   match read_items fuel r with
                   | Some (vs, r') => Some (v :: vs, r')
                   | None => None
                   end
               | None => None
               end
      end
  end
with read_fields (fuel : nat) (l : list ascii) : option (pydict * list ascii) :=
  match fuel with
  | O => None
  | S fuel =>
      match l with
      | [] => None
      | c :: rest =>
          if Ascii.eqb c "}"%char then Some ([], rest)
          else match read_text l with
               | Some (k, r) =>
                   match read fuel r with
                   | Some (v, r') =>
                       match read_fields fuel r' with
                       | Some (d, r'') => Some ((k, v) :: d, r'')
                       | None => None
                       end
                   | None => None
                   end
               | None => None
               end
      end
  end.

Definition dumps (v : json) : string := string_of_list_ascii (write v).

Definition loads (s : string) : option json :=
  match read (S (String.length s)) (list_ascii_of_string s) with
  | Some (v, []) => Some v
  | _ => None
  end.

Definition lib : PyLib :=
  mkPyLib b64encode b64decode compress decompress dumps loads (fun l => l)
          "2024-01-01T00:00:00".

(** A response body as the remote sends it when [gz] is 1. *)
Definition envelope (v : json) : string := b64encode (compress (dumps v)).

(** A 200 response carrying [{"code": code, "data": data}]. *)
Definition reply (code : Z) (data : json) : http_outcome :=
  Response 200 (envelope (JDict [("code", JInt code); ("data", data)])).

End Ref.

(** ** Reading a trace *)

(** The methods entered, in order. *)
Definition calls (t : list event) : list operation :=
  flat_map (fun e => match e with EvCall op => [op] | _ => [] end) t.

Definition is_call (e : event) : bool :=
  match e with EvCall _ => true | _ => false end.

Definition is_request (e : event) : bool :=
  match e with EvRequest _ _ => true | _ => false end.

(** The log lines: the trace without the HTTP attempts. *)
Definition marks (t : list event) : list event :=
  filter (fun e => negb (is_request e)) t.

(** How many HTTP POSTs were sent. *)
Definition requests (t : list event) : nat := List.length (filter is_request t).

Definition is_save (e : event) : bool :=
  match e with EvCacheSave _ => true | _ => false end.

(** How many times the cache file was written. *)
Definition saves (t : list event) : nat := List.length (filter is_save t).

Definition is_login (e : event) : bool :=
  match e with EvCall (OpLogin _) => true | _ => false end.

(** How many logins were attempted. *)
Definition logins (t : list event) : nat := List.length (filter is_login t).

Definition is_login_success (e : event) : bool :=
  match e with EvResult (OpLogin _) true => true | _ => false end.

(** How many logins returned a key. *)
Definition login_successes (t : list event) : nat :=
  List.length (filter is_login_success t).

Definition returned_key (key : option json) : bool :=
  match key with Some _ => true | None => false end.

(** [if security_key] on what [login] returned. *)
Definition usable (key : option json) : bool :=
  match key with Some k => truthy k | None => false end.

(** Whether the configuration holds a username and a password. *)
Definition has_credentials (cfg : Config) : bool :=
  nonempty (lk_username cfg) && nonempty (lk_password cfg).

Definition is_user_info (e : event) : bool :=
  match e with EvCall OpUserInfo => true | _ => false end.

(** How many times the profile was fetched. *)
Definition profile_checks (t : list event) : nat := List.length (filter is_user_info t).

(** An event of the authentication phase: the cache, or a login. *)
Definition is_auth (e : event) : bool :=
  match e with
  | EvCacheLoad | EvCacheSave _ | EvCall (OpLogin _) | EvResult (OpLogin _) _ => true
  | _ => false
  end.

Definition is_favorite (e : event) : bool :=
  match e with EvCall (OpAddCollection _) => true | _ => false end.

Definition is_favorite_success (e : event) : bool :=
  match e with EvResult (OpAddCollection _) true => true | _ => false end.

Definition is_unfavorite (e : event) : bool :=
  match e with EvCall (OpDelCollection _) => true | _ => false end.

(** An event of the tasks or of the clean-up: a prerequisite, a claim,
    the removal of the favourite, the balance line. *)
Definition is_task_event (e : event) : bool :=
  match e with
  | EvCall op | EvResult op _ =>
      match op with
      | OpAddHistory _ | OpAddCollection _ | OpDelCollection _ | OpLike _
      | OpUseCoin _ _ | OpClaim _ => true
      | _ => false
      end
  | EvBalance _ => true
  | _ => false
  end.

(** The operations that belong to a task: its claim, and its prerequisite. *)
Definition about (id : Z) (op : operation) : bool :=
  match op with
  | OpClaim k => k =? id
  | OpAddHistory _ => id =? 1
  | OpAddCollection _ => id =? 2
  | OpLike _ => id =? 3
  | OpUseCoin _ _ => id =? 6
  | _ => false
  end.

Definition task_ops (id : Z) (ops : list operation) : list operation :=
  filter (about id) ops.

(** The operations of a task in a log. *)
Definition ops_about (id : Z) (l : list event) : list operation := task_ops id (calls l).

Definition is_prerequisite (op : operation) : bool :=
  match op with
  | OpAddHistory _ | OpAddCollection _ | OpLike _ | OpUseCoin _ _ => true
  | _ => false
  end.

Definition is_claim (op : operation) : bool :=
  match op with OpClaim _ => true | _ => false end.

(** The three statuses of a task. *)
Definition incomplete : json := JInt 0.
Definition claimable : json := JInt 1.
Definition claimed : json := JInt 2.

(** Gating by the snapshot, as the specification words it for a task:
    nothing when claimed, one prerequisite then one claim when
    incomplete, one claim alone when claimable. *)
Definition gated_by_status (status : json) (id : Z) (ops : list operation) : Prop :=
  (status = claimed -> task_ops id ops = []) /\
  (status = incomplete ->
     exists p, is_prerequisite p = true /\ task_ops id ops = [p; OpClaim id]) /\
  (status = claimable -> task_ops id ops = [OpClaim id]).

(** The prerequisite of the three tasks that have one and no other gate. *)
Definition prerequisite (id : Z) (aid : json) : operation :=
  if id =? 1 then OpAddHistory aid
  else if id =? 2 then OpAddCollection aid
  else OpLike aid.

(** The entry a task leaves in [task_results], if any. *)
Definition entry_of (id : Z) (task_results : list task_result) : option task_result :=
  find (fun r => fst (fst (fst r)) =? id) task_results.

(** The test helper of the envelope property: base64 of zlib of JSON. *)
Definition encode_envelope (lib : PyLib) (v : json) : string :=
  b64encode lib (zlib_compress lib (json_dumps lib v)).

(** The outcomes of the next [n] HTTP attempts, and the world after them. *)
Fixpoint peek (n : nat) (w : World) : list http_outcome :=
  match n with
  | O => []
  | S n => next_outcome w :: peek n (advance w)
  end.

Fixpoint advance_by (n : nat) (w : World) : World :=
  match n with
  | O => w
  | S n => advance_by n (advance w)
  end.

(** The first attempt that went through, and how many attempts that took. *)
Fixpoint first_ok (l : list (failure + pydict)) : option pydict :=
  match l with
  | [] => None
  | inr d :: _ => Some d
  | inl _ :: rest => first_ok rest
  end.

Fixpoint used (l : list (failure + pydict)) : nat :=
  match l with
  | [] => O
  | inr _ :: _ => 1%nat
  | inl _ :: rest => S (used rest)
  end.

Definition failed (r : failure + pydict) : bool :=
  match r with inl _ => true | inr _ => false end.

(** The two log lines of a method that went through to its report. *)
Definition lines (op : operation) (ok : bool) : list event :=
  [EvCall op; EvResult op ok].

(** The log of a task gated by its status alone: the prerequisite (when
    there is one and the status is 0), then the claim. *)
Definition steps (pre : option operation) (id : Z) (status : json) (did claimed_ok : bool)
  : list event :=
  match lt_int status 2 with
  | Ok true =>
      (if eq_int status 0
       then match pre with Some p => lines p did | None => [] end
       else [])
      ++ lines (OpClaim id) claimed_ok
  | _ => []
  end.

(** The log of the coin task: the profile, the balance, and when the
    balance allows it the steps of a task with a prerequisite. *)
Definition coin_steps (aid : json) (status : json) (fetched : bool) (balance : json)
  (did claimed_ok : bool) : list event :=
  match lt_int status 2 with
  | Ok true =>
      lines OpUserInfo fetched ++ [EvBalance balance]
      ++ match ge_int balance 10 with
         | Ok true =>
             (if eq_int status 0 then lines (OpUseCoin aid 10) did else [])
             ++ lines (OpClaim 6) claimed_ok
         | _ => []
         end
  | _ => []
  end.

(** The log of the last task: the list fetched again, then the claim
    when the overall status read from that fetch allows it. *)
Definition all_steps (fetched : option json) (claimed_ok : bool) : list event :=
  lines OpTaskList (match fetched with Some _ => true | None => false end)
  ++ match overall_status fetched with
     | Ok main_status =>
         match lt_int main_status 2 with
         | Ok true => lines (OpClaim 7) claimed_ok
         | _ => []
         end
     | Raise _ => []
     end.

Definition granted (reward : option (json * json)) : bool :=
  match reward with Some _ => true | None => false end.

(** What a task gated by its status alone appends to [task_results]. *)
Definition recorded (id : Z) (status : json) (reward : option (json * json))
  : list task_result :=
  match lt_int status 2 with
  | Ok true =>
      match reward with
      | Some (coin, exp) => [(id, coin, exp, New)]
      | None => []
      end
  | _ => [(id, zero, zero, Done)]
  end.

(** What the coin task appends. *)
Definition recorded_coin (status balance : json) (reward : option (json * json))
  : list task_result :=
  match lt_int status 2 with
  | Ok true =>
      match ge_int balance 10 with
      | Ok true =>
          match reward with
          | Some (coin, exp) => [(6, coin, exp, New)]
          | None => [(6, zero, zero, Fail)]
          end
      | _ => [(6, zero, zero, Skip)]
      end
  | _ => [(6, zero, zero, Done)]
  end.

(** What the last task appends. *)
Definition recorded_all (fetched : option json) (reward : option (json * json))
  : list task_result :=
  match overall_status fetched with
  | Ok main_status =>
      match lt_int main_status 2 with
      | Ok true =>
          match reward with
          | Some (coin, exp) => [(7, coin, exp, New)]
          | None => [(7, zero, zero, Fail)]
          end
      | _ => [(7, zero, zero, Done)]
      end
  | Raise _ => []
  end.

(** What the remote answered along the tasks of one run: whether each
    prerequisite went through, the reward of each claim (if granted), and
    for the coin task whether the profile came back and the balance the
    client then held. *)
Record Answers : Type := mkAnswers {
  login_reward : option (json * json);
  read_done : bool;
  read_reward : option (json * json);
  favorite_done : bool;
  favorite_reward : option (json * json);
  like_done : bool;
  like_reward : option (json * json);
  share_reward : option (json * json);
  profile_fetched : bool;
  balance : json;
  coin_done : bool;
  coin_reward : option (json * json);
  list_again : option json;
  all_reward : option (json * json)
}.

(** The log of the tasks read from the snapshot, for given answers. *)
Definition first_log (aid : json) (ts : status_table) (a : Answers) : list event :=
  lines (OpClaim 8) (granted (login_reward a))
  ++ steps (Some (OpAddHistory aid)) 1 (status_get 1 ts) (read_done a) (granted (read_reward a))
  ++ steps (Some (OpAddCollection aid)) 2 (status_get 2 ts) (favorite_done a)
       (granted (favorite_reward a))
  ++ steps (Some (OpLike aid)) 3 (status_get 3 ts) (like_done a) (granted (like_reward a))
  ++ steps None 5 (status_get 5 ts) false (granted (share_reward a))
  ++ coin_steps aid (status_get 6 ts) (profile_fetched a) (balance a) (coin_done a)
       (granted (coin_reward a)).

(** The log of all the tasks. *)
Definition tasks_log (aid : json) (ts : status_table) (a : Answers) : list event :=
  first_log aid ts a ++ all_steps (list_again a) (granted (all_reward a)).

Definition first_results (ts : status_table) (a : Answers) : list task_result :=
  [match login_reward a with
   | Some (coin, exp) => (8, coin, exp, New)
   | None => (8, zero, zero, Done)
   end]
  ++ recorded 1 (status_get 1 ts) (read_reward a)
  ++ recorded 2 (status_get 2 ts) (favorite_reward a)
  ++ recorded 3 (status_get 3 ts) (like_reward a)
  ++ recorded 5 (status_get 5 ts) (share_reward a)
  ++ recorded_coin (status_get 6 ts) (balance a) (coin_reward a).

Definition tasks_results (ts : status_table) (a : Answers) : list task_result :=
  first_results ts a ++ recorded_all (list_again a) (all_reward a).

(** [collected] at the end of the tasks. *)
Definition favorited (ts : status_table) (a : Answers) : bool :=
  match lt_int (status_get 2 ts) 2 with
  | Ok true => eq_int (status_get 2 ts) 0 && favorite_done a
  | _ => false
  end.

(** The log of the clean-up. *)
Definition cleanup_log (aid : json) (collected undone : bool) : list event :=
  if collected then lines (OpDelCollection aid) undone else [].

(** The transport, as the specification words it: a request is sent
    again only after a network-level failure. *)
Definition retries_only_on_network_failure (lib : PyLib) (c : LKClient) (path : string)
  (extra : option pydict) (w : World) : Prop :=
  (1 < requests (events_of (_post lib c path extra 3 w)))%nat -> next_outcome w = NetFailure.

(** ** Computations that produce only events of one kind *)

Definition only {A} (P : event -> Prop) (m : M A) : Prop :=
  forall w, Forall P (events_of (m w)).


(** A computation of the phase after authentication: no login, no access
    to the cache. *)
Definition quiet {A} (m : M A) : Prop := only (fun e => is_auth e = false) m.

(** A computation that produces no event of the tasks. *)
Definition idle {A} (m : M A) : Prop := only (fun e => is_task_event e = false) m.

(** The cache is written only after a login that returned a key, and at
    most [n] logins are attempted. *)
Definition within (n : nat) (t : list event) : Prop :=
  (saves t <= login_successes t)%nat
  /\ (login_successes t <= logins t)%nat
  /\ (logins t <= n)%nat.

(** The claim on the cache, as the specification words it. *)
Definition written_at_most_once (lib : PyLib) (cfg : Config) (w : World) : Prop :=
  (saves (events_of (do_checkin lib cfg w)) <= 1)%nat.

(** ** Sample runs

    Concrete remotes against the reference libraries; the properties
    below are instantiated on them. *)
Module Sample.

Import Ref.

Definition profile (coins : Z) : json :=
  JDict [("uid", JInt 123); ("nickname", JStr "reader");
         ("balance", JDict [("coin", JInt coins)]); ("level", JDict [("exp", JInt 7)])].

(** The payload of the task list: the (id, status) items and the overall status. *)
Definition task_list (items : list (Z * Z)) (overall : Z) : json :=
  JDict [("items",
          JList (map (fun p => JDict [("id", JInt (fst p)); ("status", JInt (snd p))]) items));
         ("status", JInt overall)].

Definition reward (coins experience : Z) : json :=
  JDict [("coin", JInt coins); ("exp", JInt experience)].

Definition fresh_article : json :=
  JDict [("already_like", JInt 0); ("already_fav", JInt 0); ("already_coin", JInt 0);
         ("title", JStr "a title")].

Definition accepted : http_outcome := reply 0 JNull.
Definition refused : http_outcome := reply 1 JNull.

Definition key : json := JStr "secret:123:0".

Definition client : LKClient := mkClient key (JInt 123) (JStr "reader") (JInt 20) (JInt 7).

Definition article : json := JInt 101.

(** A snapshot: the login task claimed, read, favourite, share and coin
    incomplete, like claimable. *)
Definition snapshot : status_table :=
  [(JInt 8, claimed); (JInt 1, incomplete); (JInt 2, incomplete);
   (JInt 3, claimable); (JInt 5, incomplete); (JInt 6, incomplete)].

(** The remote during the tasks: the claim of task 8 refused, the read
    marked and its claim refused, the favourite refused and its claim
    granted, the like and share claims granted, a balance of 20, the
    coins spent and the claim granted, the list again, the last claim. *)
Definition remote : World :=
  mkWorld [refused;
           accepted; refused;
           refused; reply 0 (reward 1 2);
           reply 0 (reward 3 4);
           reply 0 (reward 5 6);
           reply 0 (profile 20); accepted; reply 0 (reward 7 8);
           reply 0 (task_list [(7, 0)] 0); reply 0 (reward 9 10)]
          None true.

(** The same remote with every prerequisite accepted. *)
Definition obliging : World :=
  mkWorld [refused;
           accepted; reply 0 (reward 1 2);
           accepted; reply 0 (reward 1 2);
           reply 0 (reward 3 4);
           reply 0 (reward 5 6);
           reply 0 (profile 20); accepted; reply 0 (reward 7 8);
           reply 0 (task_list [(7, 0)] 0); reply 0 (reward 9 10);
           accepted]
          None true.

(** The remote at the coin task, with a balance of 9 and of 10. *)
Definition poor : World := mkWorld [reply 0 (profile 9)] None true.
Definition rich : World :=
  mkWorld [reply 0 (profile 10); accepted; reply 0 (reward 7 8)] None true.

(** A whole run with the key given in the configuration: the profile,
    the task list, one page with one article and four empty pages, the
    article's detail, the tasks as in [remote], and the profile again. *)
Definition config : Config := mkConfig "secret:123:0" "" "".

Definition day : World :=
  mkWorld ([reply 0 (profile 20);
            reply 0 (task_list [(8, 2); (1, 0); (2, 0); (3, 1); (5, 0); (6, 0)] 0);
            reply 0 (JDict [("list", JList [JDict [("aid", article)]])]);
            refused; refused; refused; refused;
            reply 0 fresh_article]
           ++ net remote ++ [reply 0 (profile 40)])
          None true.

(** A remote that first answers with a page that is no envelope. *)
Definition busy : World :=
  mkWorld [Response 200 "<html>busy</html>"; accepted] None true.

(** A remote that answers every attempt with a server error. *)
Definition broken : World :=
  mkWorld [Response 502 ""; Response 502 ""; Response 502 ""; accepted] None true.

(** A run that logs in with a username and a password, nothing cached:
    the login returns a key, the profile check on it is refused, the
    second login returns another key, which passes; the task list is
    then refused, which ends the run. *)
Definition account : Config := mkConfig "" "reader" "password".

Definition granted_key (k : string) : http_outcome :=
  reply 0 (JDict [("security_key", JStr k); ("uid", JInt 123)]).

Definition twice : World :=
  mkWorld [granted_key "stale:123:0"; refused; granted_key "fresh:123:0";
           reply 0 (profile 20); refused]
          None true.

(** A run with a key in the configuration that the remote rejects, and a
    username and a password to fall back on. *)
Definition expired : Config := mkConfig "stale:123:0" "reader" "password".

Definition renewal : World :=
  mkWorld [refused; granted_key "fresh:123:0"; reply 0 (profile 20); refused] None true.

End Sample.

(** ** Reading the world and the results *)

(** What [load_cache] makes of the cache file: a missing file and a file
    that does not parse both count as an empty cache. *)
Definition cache_content (lib : PyLib) (file : option string) : json :=
  match file with
  | None => JDict []
  | Some content =>
      match json_loads lib content with
      | Some cache => cache
      | None => JDict []
      end
  end.

Definition is_dict (v : json) : bool :=
  match v with JDict _ => true | _ => false end.

(** The entry [cache_security_key] stores under a username. *)
Definition cache_entry (lib : PyLib) (security_key : json) : json :=
  JDict [("security_key", security_key); ("cached_at", JStr (now_iso lib))].

(** Whether [task_results] holds an entry for a task. *)
Definition has_entry (id : Z) (task_results : list task_result) : bool :=
  existsb (fun r => id_of r =? id) task_results.

Definition is_new (r : task_result) : bool :=
  match snd r with New => true | _ => false end.

(** The amount an entry adds to a total. *)
Definition amount (column : task_result -> json) (r : task_result) : Z :=
  match as_int (column r) with Some n => n | None => 0 end.

(** The sum of a column over the entries claimed in this run. *)
Definition gained (column : task_result -> json) (task_results : list task_result) : Z :=
  fold_right Z.add 0 (map (amount column) (filter is_new task_results)).

(** The line of the message for an entry. *)
Definition line_of (r : task_result) : string * line_text :=
  (task_name (id_of r), text_of r).

(** What a task leaves in [task_results]: nothing, or one entry of its own. *)
Definition slot (id : Z) (l : list task_result) : Prop :=
  l = [] \/ exists coin exp status, l = [(id, coin, exp, status)].

(** An entry that is not new carries no amount. *)
Definition plain (r : task_result) : Prop :=
  snd r = New \/ (coin_of r = zero /\ exp_of r = zero).

(** ** Invariants of a trace *)

(** [m] keeps the trace invariant [I] in every world, and what it
    returns satisfies [Q]. *)
Definition holds {A} (I : list event -> Prop) (m : M A) (Q : A -> Prop) : Prop :=
  forall w, I (events_of (m w)) /\ forall a, result_of (m w) = Ok a -> Q a.

(** Extra data that does not name a security key of its own. *)
Definition no_key (extra_data : option pydict) : bool :=
  match extra_data with
  | Some extra => match lookup "security_key" extra with None => true | Some _ => false end
  | None => true
  end.

(** A request made with the key [k]. *)
Definition keyed (k : json) (e : event) : Prop :=
  match e with
  | EvRequest _ body =>
      exists extra, body = build_request_body k extra /\ no_key extra = true
  | _ => True
  end.

(** At most three requests for each operation entered. *)
Definition thrifty (t : list event) : Prop :=
  (requests t <= 3 * List.length (calls t))%nat.

(** [m] sends at most [n] requests, in every world. *)
Definition at_most {A} (n : nat) (m : M A) : Prop :=
  forall w, (requests (events_of (m w)) <= n)%nat.

(** ** The kinds of operation, by phase *)

(** The operations of the authentication: a login, a profile check. *)
Definition is_auth_op (op : operation) : bool :=
  match op with OpLogin _ | OpUserInfo => true | _ => false end.

(** The operations that may follow the search of an article: anything
    but a login and the fetches of the search. *)
Definition after_search (op : operation) : bool :=
  match op with OpLogin _ | OpArticleList _ | OpArticleDetail _ => false | _ => true end.

(** An event that enters no operation but one of the authentication. *)
Definition auth_call (e : event) : Prop :=
  match e with EvCall op => is_auth_op op = true | _ => True end.

(** More sample worlds. *)
Module Cases.

Import Ref.


(** A remote that never answers. *)
Definition silent : World := mkWorld [] None true.

End Cases.

(** * Properties *)

(** ** The monad *)

Lemma bind_inv {A B} (m : M A) (k : A -> M B) w b w' t :
  bind m k w = (Ok b, w', t) ->
  exists a w1 t1 t2, m w = (Ok a, w1, t1) /\ k a w1 = (Ok b, w', t2) /\ t = t1 ++ t2.
Proof.
  unfold bind. destruct (m w) as [[[a | e] w1] t1]; [ | discriminate ].
  destruct (k a w1) as [[r w2] t2] eqn:K. intros H. inversion H; subst.
  exists a, w1, t1, t2. auto.
Qed.

Lemma bind_ok {A B} (m : M A) (k : A -> M B) w a w1 t1 :
  m w = (Ok a, w1, t1) ->
  bind m k w = (result_of (k a w1), world_of (k a w1), t1 ++ events_of (k a w1)).
Proof.
  intros E. unfold bind. rewrite E. destruct (k a w1) as [[r w2] t2]. reflexivity.
Qed.

Lemma bind_raise {A B} (m : M A) (k : A -> M B) w e w1 t1 :
  m w = (Raise e, w1, t1) -> bind m k w = (Raise e, w1, t1).
Proof. intros E. unfold bind. rewrite E. reflexivity. Qed.

Lemma triple_eta {A} (o : res A * World * list event) :
  o = (result_of o, world_of o, events_of o).
Proof. destruct o as [[r w] t]. reflexivity. Qed.

Lemma events_bind {A B} (m : M A) (k : A -> M B) w :
  events_of (bind m k w) =
  events_of (m w) ++ match result_of (m w) with
                     | Ok a => events_of (k a (world_of (m w)))
                     | Raise _ => []
                     end.
Proof.
  unfold bind, result_of, world_of, events_of.
  destruct (m w) as [[[a | e] w1] t1]; simpl.
  - destruct (k a w1) as [[r w2] t2]. reflexivity.
  - rewrite app_nil_r. reflexivity.
Qed.

(** ** Reading a trace *)

Lemma marks_app t1 t2 : marks (t1 ++ t2) = marks t1 ++ marks t2.
Proof. apply filter_app. Qed.

Lemma marks_cons e t :
  marks (e :: t) = (if is_request e then [] else [e]) ++ marks t.
Proof. unfold marks. simpl. destruct (is_request e); reflexivity. Qed.

Lemma calls_app t1 t2 : calls (t1 ++ t2) = calls t1 ++ calls t2.
Proof. apply flat_map_app. Qed.

Lemma calls_marks t : calls (marks t) = calls t.
Proof.
  induction t as [ | e t IH ]; [ reflexivity | ].
  destruct e; simpl; rewrite ?IH; reflexivity.
Qed.

Lemma calls_none t : Forall (fun e => is_call e = false) t -> calls t = [].
Proof.
  induction 1 as [ | e t He _ IH ]; [ reflexivity | ].
  destruct e; simpl in *; try discriminate; exact IH.
Qed.

Lemma requests_app t1 t2 : requests (t1 ++ t2) = (requests t1 + requests t2)%nat.
Proof. unfold requests. rewrite filter_app, length_app. reflexivity. Qed.

Lemma saves_app t1 t2 : saves (t1 ++ t2) = (saves t1 + saves t2)%nat.
Proof. unfold saves. rewrite filter_app, length_app. reflexivity. Qed.

Lemma logins_app t1 t2 : logins (t1 ++ t2) = (logins t1 + logins t2)%nat.
Proof. unfold logins. rewrite filter_app, length_app. reflexivity. Qed.

Lemma profile_checks_app t1 t2 :
  profile_checks (t1 ++ t2) = (profile_checks t1 + profile_checks t2)%nat.
Proof. unfold profile_checks. rewrite filter_app, length_app. reflexivity. Qed.

Lemma task_ops_app id l1 l2 : task_ops id (l1 ++ l2) = task_ops id l1 ++ task_ops id l2.
Proof. apply filter_app. Qed.

(** A trace made of HTTP attempts only leaves no log line. *)
Lemma marks_requests t : Forall (fun e => is_request e = true) t -> marks t = [].
Proof.
  induction 1 as [ | e t He _ IH ]; [ reflexivity | ].
  unfold marks in *. simpl. rewrite He. simpl. exact IH.
Qed.

(** A trace without any event of the authentication phase has no login
    and no write of the cache. *)
Lemma no_auth_counts t :
  Forall (fun e => is_auth e = false) t ->
  saves t = 0%nat /\ login_successes t = 0%nat /\ logins t = 0%nat.
Proof.
  induction 1 as [ | e t He _ (IH1 & IH2 & IH3) ]; [ repeat split; reflexivity | ].
  unfold saves, login_successes, logins in *. simpl.
  destruct e as [ [ ] | [ ] [ ] | | | | ]; simpl in *; try discriminate; auto.
Qed.

Lemma login_successes_app t1 t2 :
  login_successes (t1 ++ t2) = (login_successes t1 + login_successes t2)%nat.
Proof. unfold login_successes. rewrite filter_app, length_app. reflexivity. Qed.

(** ** Computations that produce only events of one kind *)

Lemma only_ret {A} P (a : A) : only P (ret a).
Proof. intros w. constructor. Qed.

Lemma only_raise {A} P e : only P (@raise A e).
Proof. intros w. constructor. Qed.

Lemma only_lift {A} P (r : res A) : only P (lift r).
Proof. intros w. constructor. Qed.

Lemma only_log (P : event -> Prop) e : P e -> only P (log e).
Proof. intros H w. constructor; [ exact H | constructor ]. Qed.

Lemma only_send (P : event -> Prop) path body :
  P (EvRequest path body) -> only P (send path body).
Proof. intros H w. constructor; [ exact H | constructor ]. Qed.

Lemma only_bind {A B} P (m : M A) (k : A -> M B) :
  only P m -> (forall a, only P (k a)) -> only P (bind m k).
Proof.
  intros Hm Hk w. rewrite events_bind. apply Forall_app. split; [ apply Hm | ].
  destruct (result_of (m w)); [ apply Hk | constructor ].
Qed.

Lemma only_for_each {A} P (xs : list A) (body : A -> M unit) :
  (forall x, only P (body x)) -> only P (for_each xs body).
Proof.
  intros H. induction xs as [ | x xs IH ]; simpl.
  - apply only_ret.
  - apply only_bind; [ apply H | intros _; exact IH ].
Qed.

(** A method is entered once: its own line, then no other entry. *)
Lemma op_calls {A} op (m : M A) w :
  only (fun e => is_call e = false) m ->
  calls (events_of ((log (EvCall op) ;;; m) w)) = [op].
Proof.
  intros H. rewrite events_bind, calls_app.
  change (result_of (log (EvCall op) w)) with (Ok tt).
  change (world_of (log (EvCall op) w)) with w.
  cbv beta iota. rewrite (calls_none _ (H w)). reflexivity.
Qed.

Lemma only_events {A} P (m : M A) w r w' t : only P m -> m w = (r, w', t) -> Forall P t.
Proof. intros H E. specialize (H w). rewrite E in H. exact H. Qed.

Create HintDb only_db.
#[local] Hint Resolve only_ret only_raise only_lift only_for_each : only_db.

(** Breaks a computation down to its binds and case distinctions. *)
Ltac only_steps :=
  repeat first
    [ apply only_ret | apply only_raise | apply only_lift
    | apply only_log; solve [ auto | reflexivity ]
    | apply only_bind; [ | intros ]
    | match goal with
      | |- only _ (match ?x with _ => _ end) => destruct x
      | |- only _ (let _ := _ in _) => cbv zeta
      end
    | solve [ auto with only_db ] ].


Section Transport.

Variable lib : PyLib.

(** ** The transport *)

Lemma attempt_run path body w :
  attempt lib path body w
  = (Ok (interpret lib (next_outcome w)), advance w, [EvRequest path body]).
Proof. reflexivity. Qed.

(** [_post] returns the first attempt that went through among the next
    [retry] ones, having sent one request per attempt up to that one. *)
Lemma post_loop_run path body retry : forall left n w,
  (left + n = retry)%nat ->
  post_loop lib path body retry left n w
  = (Ok (first_ok (map (interpret lib) (peek left w))),
     advance_by (used (map (interpret lib) (peek left w))) w,
     repeat (EvRequest path body) (used (map (interpret lib) (peek left w)))).
Proof.
  induction left as [ | left IH ]; intros n w Hn; [ reflexivity | ].
  cbn [post_loop peek map].
  rewrite (bind_ok _ _ _ _ _ _ (attempt_run path body w)).
  destruct (interpret lib (next_outcome w)) as [ f | d ] eqn:I; cbn [first_ok used].
  - assert (E : (n =? retry - 1)%nat = (left =? 0)%nat).
    { destruct left; [ apply Nat.eqb_eq | apply Nat.eqb_neq ]; lia. }
    assert (G : (if (n =? retry - 1)%nat then ret None
                 else post_loop lib path body retry left (S n)) (advance w)
                = post_loop lib path body retry left (S n) (advance w)).
    { rewrite E. destruct left; reflexivity. }
    destruct f; rewrite G, IH by lia; reflexivity.
  - reflexivity.
Qed.

Lemma post_run c path extra retry w :
  let body := build_request_body (security_key c) extra in
  let os := map (interpret lib) (peek retry w) in
  _post lib c path extra retry w
  = (Ok (first_ok os), advance_by (used os) w, repeat (EvRequest path body) (used os)).
Proof. apply post_loop_run. lia. Qed.

Lemma used_le l : (used l <= List.length l)%nat.
Proof. induction l as [ | [ f | d ] l IH ]; simpl; lia. Qed.

Lemma peek_length n : forall w, List.length (peek n w) = n.
Proof. induction n; intros w; simpl; [ | rewrite IHn ]; reflexivity. Qed.

Lemma requests_repeat path body n : requests (repeat (EvRequest path body) n) = n.
Proof. induction n; [ reflexivity | ]. unfold requests in *. simpl. rewrite IHn. reflexivity. Qed.

Lemma repeat_requests path body n :
  Forall (fun e => is_request e = true) (repeat (EvRequest path body) n).
Proof. induction n; constructor; auto. Qed.

(** [_post] never raises, and all it leaves in the trace is requests. *)
Lemma post_total c path extra retry w :
  exists r w' t, _post lib c path extra retry w = (Ok r, w', t)
                 /\ Forall (fun e => is_request e = true) t.
Proof.
  rewrite post_run. eexists _, _, _. split; [ reflexivity | apply repeat_requests ].
Qed.

Lemma post_only (P : event -> Prop) c path extra retry :
  (forall p b, P (EvRequest p b)) -> only P (_post lib c path extra retry).
Proof.
  intros H w. rewrite post_run. cbn. generalize (used (map (interpret lib) (peek retry w))).
  induction n; constructor; auto.
Qed.

End Transport.

Ltac marks_simpl :=
  rewrite ?marks_cons, ?marks_app, ?(marks_requests _ (repeat_requests _ _ _));
  repeat match goal with F : marks _ = [] |- _ => rewrite F end;
  cbn [is_request app].

(** Reads off [E : _post ... = (Ok r, w, t)]: [t] leaves no log line. *)
Ltac inv_post E :=
  lazymatch type of E with
  | _post ?l ?c ?p ?x ?n ?w = _ =>
      let E' := fresh "E" in
      let F := fresh "F" in
      destruct (post_total l c p x n w) as (? & ? & ? & E' & F);
      rewrite E' in E; inversion E; subst; clear E E';
      apply marks_requests in F
  end.

(** Splits [H : (x <- m ;; k) w = (Ok _, _, _)] into the run of [m] and
    the run of [k], and reads off a primitive [m]. *)
Ltac inv_prim E :=
  lazymatch type of E with
  | log _ _ = _ => unfold log in E; inversion E; subst; clear E
  | lift _ _ = _ => unfold lift in E; inversion E; subst; clear E
  | ret _ _ = _ => unfold ret in E; inversion E; subst; clear E
  | raise _ _ = _ => discriminate E
  | _post _ _ _ _ _ _ = _ => inv_post E
  | _ => idtac
  end.

Tactic Notation "inv_bind" hyp(H) :=
  let E := fresh "E" in
  apply bind_inv in H; destruct H as (? & ? & ? & ? & E & H & ->);
  inv_prim E.

Tactic Notation "inv_bind" hyp(H) "as" simple_intropattern(a) :=
  let E := fresh "E" in
  apply bind_inv in H; destruct H as (a & ? & ? & ? & E & H & ->);
  inv_prim E.

Ltac quiet_steps :=
  repeat first [ apply post_only; intros; reflexivity
               | apply only_for_each; intros
               | progress only_steps ].

Section Client.

Variable lib : PyLib.

(** ** What each client method leaves in the log *)

(** A method that logs its name, posts, and logs how it went. *)
Lemma action_spec (op : operation) c path extra w :
  exists w' t,
    (log (EvCall op) ;;;
     result <- _post lib c path extra 3 ;;
     log (EvResult op (succeeded result)) ;;;
     ret (succeeded result)) w
    = (Ok (succeeded (first_ok (map (interpret lib) (peek 3 w)))), w', t)
    /\ marks t = [EvCall op;
                  EvResult op (succeeded (first_ok (map (interpret lib) (peek 3 w))))].
Proof.
  unfold bind, log, ret. rewrite post_run. cbn -[peek].
  eexists _, _. split; [ reflexivity | ].
  rewrite marks_cons, marks_app, (marks_requests _ (repeat_requests _ _ _)). reflexivity.
Qed.

Lemma add_history_spec c aid w :
  exists b w' t, add_history lib c aid w = (Ok b, w', t)
                 /\ marks t = [EvCall (OpAddHistory aid); EvResult (OpAddHistory aid) b].
Proof.
  edestruct (action_spec (OpAddHistory aid) c) as (w' & t & E & H).
  eexists _, _, _. split; [ exact E | exact H ].
Qed.

Lemma add_collection_spec c aid w :
  exists b w' t, add_collection lib c aid w = (Ok b, w', t)
                 /\ marks t = [EvCall (OpAddCollection aid); EvResult (OpAddCollection aid) b].
Proof.
  edestruct (action_spec (OpAddCollection aid) c) as (w' & t & E & H).
  eexists _, _, _. split; [ exact E | exact H ].
Qed.

Lemma del_collection_spec c aid w :
  exists b w' t, del_collection lib c aid w = (Ok b, w', t)
                 /\ marks t = [EvCall (OpDelCollection aid); EvResult (OpDelCollection aid) b].
Proof.
  edestruct (action_spec (OpDelCollection aid) c) as (w' & t & E & H).
  eexists _, _, _. split; [ exact E | exact H ].
Qed.

Lemma like_article_spec c aid w :
  exists b w' t, like_article lib c aid w = (Ok b, w', t)
                 /\ marks t = [EvCall (OpLike aid); EvResult (OpLike aid) b].
Proof.
  edestruct (action_spec (OpLike aid) c) as (w' & t & E & H).
  eexists _, _, _. split; [ exact E | exact H ].
Qed.

Lemma use_coin_spec c aid n w :
  exists b w' t, use_coin lib c aid n w = (Ok b, w', t)
                 /\ marks t = [EvCall (OpUseCoin aid n); EvResult (OpUseCoin aid n) b].
Proof.
  edestruct (action_spec (OpUseCoin aid n) c) as (w' & t & E & H).
  eexists _, _, _. split; [ exact E | exact H ].
Qed.

Lemma claim_reward_spec c id w r w' t :
  claim_reward lib c id w = (Ok r, w', t) ->
  marks t = [EvCall (OpClaim id);
             EvResult (OpClaim id) (match r with Some _ => true | None => false end)].
Proof.
  unfold claim_reward. intros H.
  inv_bind H. inv_bind H as result. marks_simpl.
  destruct result as [ d | ]; [ destruct (succeeded (Some d)) | ];
    try (inv_bind H; inv_prim H; reflexivity).
  do 3 inv_bind H. inv_prim H. reflexivity.
Qed.

Lemma claim_reward_calls c id w : calls (events_of (claim_reward lib c id w)) = [OpClaim id].
Proof. unfold claim_reward. apply op_calls. quiet_steps. Qed.

Lemma get_user_info_spec c w b c' w' t :
  get_user_info lib c w = (Ok (b, c'), w', t) ->
  marks t = [EvCall OpUserInfo; EvResult OpUserInfo b]
  /\ security_key c' = security_key c
  /\ (b = false -> c' = c).
Proof.
  unfold get_user_info. intros H.
  inv_bind H. inv_bind H as parts.
  destruct parts as [ | p0 [ | part parts ] ];
    try (inv_bind H; inv_prim H; repeat split; reflexivity).
  inv_bind H. inv_bind H as result.
  marks_simpl.
  destruct result as [ d | ]; [ destruct (succeeded (Some d)) | ];
    try (inv_bind H; inv_prim H; repeat split; reflexivity).
  do 8 inv_bind H. inv_prim H. repeat split; try reflexivity; discriminate.
Qed.

Lemma get_user_info_calls c w : calls (events_of (get_user_info lib c w)) = [OpUserInfo].
Proof. unfold get_user_info. apply op_calls. quiet_steps. Qed.

Lemma silent_events {A} (m : M A) w : only (fun _ => False) m -> events_of (m w) = [].
Proof.
  intros H. specialize (H w). destruct (events_of (m w)); [ reflexivity | inversion H; tauto ].
Qed.

Lemma describe_items_silent items :
  only (fun _ => False) (for_each items describe_item).
Proof. apply only_for_each. intros x. unfold describe_item. only_steps. Qed.

Lemma get_task_list_spec c w r w' t :
  get_task_list lib c w = (Ok r, w', t) ->
  marks t = [EvCall OpTaskList;
             EvResult OpTaskList (match r with Some _ => true | None => false end)].
Proof.
  unfold get_task_list. intros H.
  inv_bind H. inv_bind H as result. marks_simpl.
  destruct result as [ d | ]; [ destruct (succeeded (Some d)) | ];
    try (inv_bind H; inv_prim H; reflexivity).
  inv_bind H as data. inv_bind H. inv_bind H. inv_bind H as items. inv_bind H.
  inv_prim H.
  match goal with
  | E : for_each ?l _ ?w0 = _ |- _ =>
      pose proof (silent_events _ w0 (describe_items_silent l)) as S; rewrite E in S
  end.
  cbn in S. subst. reflexivity.
Qed.

End Client.

Section Tasks.

Variable lib : PyLib.

Lemma action_marks (op : operation) c path extra w b w' t :
  (log (EvCall op) ;;;
   result <- _post lib c path extra 3 ;;
   log (EvResult op (succeeded result)) ;;;
   ret (succeeded result)) w = (Ok b, w', t) ->
  marks t = lines op b.
Proof.
  intros H. inv_bind H. inv_bind H as result. inv_bind H. inv_prim H.
  marks_simpl. reflexivity.
Qed.

(** ** The tasks, one block at a time *)

Ltac inv_action E :=
  lazymatch type of E with
  | claim_reward _ _ _ _ = _ => apply claim_reward_spec in E
  | get_user_info _ _ _ = _ => apply get_user_info_spec in E
  | get_task_list _ _ _ = _ => apply get_task_list_spec in E
  | add_history _ _ _ _ = _ => apply action_marks in E
  | add_collection _ _ _ _ = _ => apply action_marks in E
  | del_collection _ _ _ _ = _ => apply action_marks in E
  | like_article _ _ _ _ = _ => apply action_marks in E
  | use_coin _ _ _ _ _ = _ => apply action_marks in E
  end.

Ltac inv_actions :=
  repeat match goal with
         | E : _ = (Ok _, _, _) |- _ => inv_action E
         end.

(** Closes a block: unfolds the expected log and entry, and rewrites
    with what the status tests and the methods gave. *)
Ltac close_block :=
  unfold steps, recorded, coin_steps, recorded_coin, all_steps, recorded_all, lines in *;
  repeat match goal with
         | H : lt_int _ _ = Ok _ |- _ => rewrite H
         | H : ge_int _ _ = Ok _ |- _ => rewrite H
         | H : eq_int _ _ = _ |- _ => rewrite H
         | H : overall_status _ = Ok _ |- _ => rewrite H
         end;
  rewrite ?marks_app;
  repeat match goal with M : marks _ = _ |- _ => rewrite M end;
  cbn [marks filter app granted];
  rewrite ?app_nil_r; auto.

Lemma task_read_spec c ts aid rs w rs' w' t :
  task_read lib c ts aid rs w = (Ok rs', w', t) ->
  exists did reward,
    marks t = steps (Some (OpAddHistory aid)) 1 (status_get 1 ts) did (granted reward)
    /\ rs' = rs ++ recorded 1 (status_get 1 ts) reward.
Proof.
  unfold task_read. intros H. inv_bind H as todo. destruct todo.
  - inv_bind H. inv_bind H as reward.
    destruct (eq_int (status_get 1 ts) 0) eqn:Z.
    + inv_bind E as did. inv_prim E. inv_actions.
      exists did, reward. destruct reward as [ [coin exp] | ]; inv_prim H; split; close_block.
    + inv_prim E. inv_actions.
      exists false, reward. destruct reward as [ [coin exp] | ]; inv_prim H; split; close_block.
  - inv_prim H. exists false, None. split; close_block.
Qed.

Lemma task_favorite_spec c ts aid rs w rs' collected w' t :
  task_favorite lib c ts aid rs w = (Ok (rs', collected), w', t) ->
  exists did reward,
    marks t = steps (Some (OpAddCollection aid)) 2 (status_get 2 ts) did (granted reward)
    /\ rs' = rs ++ recorded 2 (status_get 2 ts) reward
    /\ collected = match lt_int (status_get 2 ts) 2 with
                   | Ok true => eq_int (status_get 2 ts) 0 && did
                   | _ => false
                   end.
Proof.
  unfold task_favorite. intros H. inv_bind H as todo. destruct todo.
  - inv_bind H as did. inv_bind H as reward.
    destruct (eq_int (status_get 2 ts) 0) eqn:Z.
    + inv_actions.
      exists did, reward.
      destruct reward as [ [coin exp] | ]; inv_prim H; repeat split; close_block.
    + inv_prim E. inv_actions.
      exists false, reward.
      destruct reward as [ [coin exp] | ]; inv_prim H; repeat split; close_block.
  - inv_prim H. exists false, None. repeat split; close_block.
Qed.

Lemma task_like_spec c ts aid rs w rs' w' t :
  task_like lib c ts aid rs w = (Ok rs', w', t) ->
  exists did reward,
    marks t = steps (Some (OpLike aid)) 3 (status_get 3 ts) did (granted reward)
    /\ rs' = rs ++ recorded 3 (status_get 3 ts) reward.
Proof.
  unfold task_like. intros H. inv_bind H as todo. destruct todo.
  - inv_bind H. inv_bind H as reward.
    destruct (eq_int (status_get 3 ts) 0) eqn:Z.
    + inv_bind E as did. inv_prim E. inv_actions.
      exists did, reward. destruct reward as [ [coin exp] | ]; inv_prim H; split; close_block.
    + inv_prim E. inv_actions.
      exists false, reward. destruct reward as [ [coin exp] | ]; inv_prim H; split; close_block.
  - inv_prim H. exists false, None. split; close_block.
Qed.

Lemma task_share_spec c ts rs w rs' w' t :
  task_share lib c ts rs w = (Ok rs', w', t) ->
  exists reward,
    marks t = steps None 5 (status_get 5 ts) false (granted reward)
    /\ rs' = rs ++ recorded 5 (status_get 5 ts) reward.
Proof.
  unfold task_share. intros H. inv_bind H as todo. destruct todo.
  - inv_bind H as reward. inv_actions.
    exists reward. destruct reward as [ [coin exp] | ]; inv_prim H; split; close_block;
      destruct (eq_int (status_get 5 ts) 0); reflexivity.
  - inv_prim H. exists None. split; close_block.
Qed.

Lemma task_login_spec c rs w rs' w' t :
  task_login lib c rs w = (Ok rs', w', t) ->
  exists reward,
    marks t = lines (OpClaim 8) (granted reward)
    /\ rs' = rs ++ [match reward with
                    | Some (coin, exp) => (8, coin, exp, New)
                    | None => (8, zero, zero, Done)
                    end].
Proof.
  unfold task_login. intros H. inv_bind H as reward. inv_actions.
  exists reward. destruct reward as [ [coin exp] | ]; inv_prim H; split; close_block.
Qed.

Lemma task_coin_spec c ts aid rs w rs' c' w' t :
  task_coin lib c ts aid rs w = (Ok (rs', c'), w', t) ->
  exists fetched did reward,
    marks t = coin_steps aid (status_get 6 ts) fetched (coin c') did (granted reward)
    /\ rs' = rs ++ recorded_coin (status_get 6 ts) (coin c') reward
    /\ security_key c' = security_key c.
Proof.
  unfold task_coin. intros H. inv_bind H as todo. destruct todo.
  - inv_bind H as [fetched c1]. cbn [snd] in H. inv_bind H. inv_bind H as enough.
    apply get_user_info_spec in E. destruct E as (E & K & _).
    destruct enough.
    + inv_bind H. inv_bind H as reward.
      destruct (eq_int (status_get 6 ts) 0) eqn:Z.
      * inv_bind E0 as did. inv_prim E0. inv_actions.
        exists fetched, did, reward.
        destruct reward as [ [coin exp] | ]; inv_prim H; repeat split; close_block.
      * inv_prim E0. inv_actions.
        exists fetched, false, reward.
        destruct reward as [ [coin exp] | ]; inv_prim H; repeat split; close_block.
    + inv_prim H. exists fetched, false, None. repeat split; close_block.
  - inv_prim H. exists false, false, None. repeat split; close_block.
Qed.

Lemma task_all_spec c rs w rs' w' t :
  task_all lib c rs w = (Ok rs', w', t) ->
  exists fetched w1 t1 reward main_status todo,
    get_task_list lib c w = (Ok fetched, w1, t1)
    /\ overall_status fetched = Ok main_status
    /\ lt_int main_status 2 = Ok todo
    /\ marks t = all_steps fetched (granted reward)
    /\ rs' = rs ++ recorded_all fetched reward.
Proof.
  unfold task_all. intros H. inv_bind H as fetched. inv_bind H as main_status.
  inv_bind H as todo.
  match goal with
  | E : get_task_list _ _ _ = _ |- _ => pose proof (get_task_list_spec _ _ _ _ _ _ E) as M
  end.
  destruct todo.
  - inv_bind H as reward.
    match goal with C : claim_reward _ _ _ _ = _ |- _ => apply claim_reward_spec in C end.
    exists fetched. eexists _, _. exists reward, main_status, true.
    split; [ eassumption | ]. do 2 (split; [ assumption | ]).
    destruct reward as [ [coin exp] | ]; inv_prim H; split; close_block.
  - inv_prim H.
    exists fetched. eexists _, _. exists None, main_status, false.
    split; [ eassumption | ]. do 2 (split; [ assumption | ]).
    split; close_block.
Qed.

(** ** The tasks together *)

Lemma first_tasks_spec c ts aid w rs collected c' w' t :
  first_tasks lib c ts aid w = (Ok (rs, collected, c'), w', t) ->
  exists a,
    marks t = first_log aid ts a
    /\ rs = first_results ts a
    /\ collected = favorited ts a
    /\ balance a = coin c'
    /\ security_key c' = security_key c.
Proof.
  unfold first_tasks. intros H.
  inv_bind H as r8. apply task_login_spec in E. destruct E as (a8 & M8 & R8).
  inv_bind H as r1. apply task_read_spec in E. destruct E as (d1 & a1 & M1 & R1).
  inv_bind H as [r2 col]. apply task_favorite_spec in E.
  destruct E as (d2 & a2 & M2 & R2 & C2). cbn [fst snd] in H.
  inv_bind H as r3. apply task_like_spec in E. destruct E as (d3 & a3 & M3 & R3).
  inv_bind H as r5. apply task_share_spec in E. destruct E as (a5 & M5 & R5).
  inv_bind H as [r6 c6]. apply task_coin_spec in E.
  destruct E as (f6 & d6 & a6 & M6 & R6 & K6). cbn [fst snd] in H.
  inv_prim H.
  exists (mkAnswers a8 d1 a1 d2 a2 d3 a3 a5 f6 (coin c') d6 a6 None None).
  unfold first_log, first_results, favorited. cbn [login_reward read_done read_reward
    favorite_done favorite_reward like_done like_reward share_reward profile_fetched
    balance coin_done coin_reward].
  repeat split; try assumption.
  - rewrite !marks_app, M8, M1, M2, M3, M5, M6. cbn [marks filter]. rewrite app_nil_r.
    reflexivity.
  - rewrite <- !app_assoc. reflexivity.
Qed.

Lemma run_tasks_spec c ts aid w rs collected c' w' t :
  run_tasks lib c ts aid w = (Ok (rs, collected, c'), w', t) ->
  exists a six w6 t6 w7 t7 t8 main_status todo,
    first_tasks lib c ts aid w = (Ok six, w6, t6)
    /\ get_task_list lib (snd six) w6 = (Ok (list_again a), w7, t7)
    /\ overall_status (list_again a) = Ok main_status
    /\ lt_int main_status 2 = Ok todo
    /\ t = t6 ++ t8
    /\ marks t6 = first_log aid ts a
    /\ marks t8 = all_steps (list_again a) (granted (all_reward a))
    /\ rs = tasks_results ts a
    /\ collected = favorited ts a
    /\ balance a = coin c'
    /\ security_key c' = security_key c.
Proof.
  unfold run_tasks. intros H.
  inv_bind H as [[r6 col] c6]. cbn [fst snd] in H.
  pose proof E as F. apply first_tasks_spec in F.
  destruct F as (a & M6 & R6 & C6 & B6 & K6).
  inv_bind H as r7. apply task_all_spec in E0.
  destruct E0 as (fetched & w7 & t7 & a7 & ms & todo & G & O & L & M7 & R7).
  inv_prim H.
  exists (mkAnswers (login_reward a) (read_done a) (read_reward a) (favorite_done a)
            (favorite_reward a) (like_done a) (like_reward a) (share_reward a)
            (profile_fetched a) (balance a) (coin_done a) (coin_reward a) fetched a7).
  do 6 eexists. exists ms, todo. cbn [list_again all_reward].
  split; [ eassumption | ]. split; [ exact G | ].
  do 2 (split; [ assumption | ]).
  split; [ rewrite app_nil_r; reflexivity | ].
  repeat split; assumption.
Qed.

Lemma cleanup_spec c aid collected w r w' t :
  cleanup lib c aid collected w = (r, w', t) ->
  exists undone, marks t = cleanup_log aid collected undone.
Proof.
  unfold cleanup, cleanup_log. destruct collected; intros H.
  - destruct (action_spec lib (OpDelCollection aid) c "/api/history/del-collection"
                (Some [("fid", aid); ("class", JInt 1)]) w) as (w1 & t1 & E & M).
    unfold del_collection in H. rewrite (bind_ok _ _ _ _ _ _ E) in H.
    inversion H; subst. eexists. cbn. rewrite app_nil_r. exact M.
  - inversion H; subst. exists false. reflexivity.
Qed.

End Tasks.

(** ** Which operations of a task a log holds *)

Lemma ops_about_app id l1 l2 : ops_about id (l1 ++ l2) = ops_about id l1 ++ ops_about id l2.
Proof. unfold ops_about. rewrite calls_app. apply task_ops_app. Qed.

Lemma ops_about_marks id t : ops_about id (marks t) = ops_about id t.
Proof. unfold ops_about. rewrite calls_marks. reflexivity. Qed.

(** A block leaves nothing about another task. *)
Lemma steps_foreign id pre id' status did ok :
  (id' =? id) = false ->
  match pre with Some p => about id p = false | None => True end ->
  ops_about id (steps pre id' status did ok) = [].
Proof.
  intros Hid Hpre. unfold steps, ops_about, lines.
  destruct (lt_int status 2) as [ [ | ] | ]; try reflexivity.
  destruct (eq_int status 0), pre as [ p | ]; cbn [calls flat_map app task_ops filter about];
    rewrite ?Hpre, ?Hid; reflexivity.
Qed.

Lemma coin_steps_foreign id aid status fetched bal did ok :
  (6 =? id) = false ->
  ops_about id (coin_steps aid status fetched bal did ok) = [].
Proof.
  intros Hid. unfold coin_steps, ops_about, lines.
  destruct (lt_int status 2) as [ [ | ] | ]; try reflexivity.
  destruct (ge_int bal 10) as [ [ | ] | ]; try reflexivity.
  assert (H : (id =? 6) = false) by (rewrite Z.eqb_sym; exact Hid).
  destruct (eq_int status 0); cbn [calls flat_map app task_ops filter about];
    rewrite ?Hid, ?H; reflexivity.
Qed.

Lemma all_steps_foreign id fetched ok :
  (7 =? id) = false ->
  ops_about id (all_steps fetched ok) = [].
Proof.
  intros Hid. unfold all_steps, ops_about, lines.
  destruct (overall_status fetched) as [ s | ]; try reflexivity.
  destruct (lt_int s 2) as [ [ | ] | ]; try reflexivity.
  cbn [calls flat_map app task_ops filter about]. rewrite Hid. reflexivity.
Qed.

(** What a block leaves about its own task, by status. *)
Lemma steps_own pre id status did ok :
  match pre with Some p => about id p = true | None => True end ->
  ops_about id (steps pre id status did ok) =
  match lt_int status 2 with
  | Ok true =>
      (if eq_int status 0 then match pre with Some p => [p] | None => [] end else [])
      ++ [OpClaim id]
  | _ => []
  end.
Proof.
  intros Hpre. unfold steps, ops_about, lines.
  destruct (lt_int status 2) as [ [ | ] | ]; try reflexivity.
  destruct (eq_int status 0), pre as [ p | ]; cbn [calls flat_map app task_ops filter about];
    rewrite ?Hpre, ?Z.eqb_refl; reflexivity.
Qed.

(** The operations about each task in the log of the tasks. *)
Lemma tasks_log_about id aid ts a :
  ops_about id (tasks_log aid ts a) =
  (if id =? 8 then [OpClaim 8] else [])
  ++ ops_about id (steps (Some (OpAddHistory aid)) 1 (status_get 1 ts) (read_done a)
                     (granted (read_reward a)))
  ++ ops_about id (steps (Some (OpAddCollection aid)) 2 (status_get 2 ts) (favorite_done a)
                     (granted (favorite_reward a)))
  ++ ops_about id (steps (Some (OpLike aid)) 3 (status_get 3 ts) (like_done a)
                     (granted (like_reward a)))
  ++ ops_about id (steps None 5 (status_get 5 ts) false (granted (share_reward a)))
  ++ ops_about id (coin_steps aid (status_get 6 ts) (profile_fetched a) (balance a)
                     (coin_done a) (granted (coin_reward a)))
  ++ ops_about id (all_steps (list_again a) (granted (all_reward a))).
Proof.
  unfold tasks_log, first_log. rewrite !ops_about_app, <- !app_assoc. f_equal.
  unfold ops_about, lines. cbn [calls flat_map app task_ops filter about].
  rewrite (Z.eqb_sym 8 id). destruct (id =? 8); reflexivity.
Qed.

(** C1 (amended).  For the three tasks that have a prerequisite and no
    other gate (1 read, 2 favourite, 3 like), a run of the tasks is gated
    by the status of the snapshot exactly as the specification says:
    nothing when claimed, the prerequisite then the claim when
    incomplete, the claim alone when claimable.  The share task (5) has
    no prerequisite: one claim unless claimed.  The login task (8) is
    claimed once whatever the snapshot says.  The coin task (6) does
    nothing when claimed. *)
Theorem tasks_gated_by_snapshot lib c ts aid w rs collected c' w' t :
  run_tasks lib c ts aid w = (Ok (rs, collected, c'), w', t) ->
  (forall id, In id [1; 2; 3] ->
     (status_get id ts = claimed -> task_ops id (calls t) = [])
     /\ (status_get id ts = incomplete ->
         task_ops id (calls t) = [prerequisite id aid; OpClaim id])
     /\ (status_get id ts = claimable -> task_ops id (calls t) = [OpClaim id]))
  /\ (status_get 5 ts = claimed -> task_ops 5 (calls t) = [])
  /\ (status_get 5 ts = incomplete \/ status_get 5 ts = claimable ->
      task_ops 5 (calls t) = [OpClaim 5])
  /\ task_ops 8 (calls t) = [OpClaim 8]
  /\ (status_get 6 ts = claimed -> task_ops 6 (calls t) = []).
Proof.
  intros H. apply run_tasks_spec in H.
  destruct H as (a & six & w6 & t6 & w7 & t7 & t8 & ms & todo
                 & _ & _ & _ & _ & -> & M6 & M8 & _).
  assert (L : forall id, task_ops id (calls (t6 ++ t8)) = ops_about id (tasks_log aid ts a)).
  { intros id. fold (ops_about id (t6 ++ t8)).
    rewrite <- ops_about_marks, marks_app, M6, M8. reflexivity. }
  assert (F : forall id, (7 =? id) = false -> (6 =? id) = false \/ status_get 6 ts = claimed ->
              task_ops id (calls (t6 ++ t8)) =
              (if id =? 8 then [OpClaim 8] else [])
              ++ ops_about id (steps (Some (OpAddHistory aid)) 1 (status_get 1 ts)
                                 (read_done a) (granted (read_reward a)))
              ++ ops_about id (steps (Some (OpAddCollection aid)) 2 (status_get 2 ts)
                                 (favorite_done a) (granted (favorite_reward a)))
              ++ ops_about id (steps (Some (OpLike aid)) 3 (status_get 3 ts)
                                 (like_done a) (granted (like_reward a)))
              ++ ops_about id (steps None 5 (status_get 5 ts) false
                                 (granted (share_reward a)))).
  { intros id H7 H6. rewrite L, tasks_log_about, all_steps_foreign by exact H7.
    destruct H6 as [ H6 | H6 ].
    - rewrite coin_steps_foreign by exact H6. rewrite !app_nil_r. reflexivity.
    - unfold coin_steps. rewrite H6. cbn [lt_int as_int claimed Z.ltb Z.compare Pos.compare
        Pos.compare_cont]. rewrite !app_nil_r. reflexivity. }
  split; [ intros id [ <- | [ <- | [ <- | [ ] ] ] ]; repeat split; intros S | ].
  1-9: rewrite F by (reflexivity || (left; reflexivity));
       rewrite steps_own by reflexivity; rewrite S;
       rewrite ?steps_foreign by (reflexivity || exact I); reflexivity.
  repeat split.
  - intros S. rewrite F by (reflexivity || (left; reflexivity)).
    rewrite (steps_own None 5 _ _ _ I), S.
    rewrite ?steps_foreign by (reflexivity || exact I). reflexivity.
  - intros S. rewrite F by (reflexivity || (left; reflexivity)).
    rewrite (steps_own None 5 _ _ _ I).
    rewrite ?steps_foreign by (reflexivity || exact I).
    destruct S as [ S | S ]; rewrite S; reflexivity.
  - rewrite F by (reflexivity || (left; reflexivity)).
    rewrite ?steps_foreign by (reflexivity || exact I). reflexivity.
  - intros S. rewrite F by (reflexivity || (right; exact S)).
    rewrite ?steps_foreign by (reflexivity || exact I). reflexivity.
Qed.

Lemma tasks_gated_by_snapshot_witness :
  task_ops 1 (calls (events_of (run_tasks Ref.lib Sample.client Sample.snapshot
                                  Sample.article Sample.obliging)))
  = [OpAddHistory Sample.article; OpClaim 1]
  /\ task_ops 3 (calls (events_of (run_tasks Ref.lib Sample.client Sample.snapshot
                                     Sample.article Sample.obliging)))
     = [OpClaim 3].
Proof.
  destruct (tasks_gated_by_snapshot Ref.lib Sample.client Sample.snapshot Sample.article
              Sample.obliging _ _ _ _
              (events_of (run_tasks Ref.lib Sample.client Sample.snapshot
                            Sample.article Sample.obliging))
              ltac:(vm_compute; reflexivity)) as (H & _).
  split.
  - apply (H 1); [ simpl; auto | reflexivity ].
  - apply (H 3); [ simpl; auto | reflexivity ].
Defined.

(** C1, as stated, fails for the login task: the snapshot says task 8 is
    claimed, and the run still makes the claim call for it. *)
Lemma login_task_ignores_snapshot :
  status_get 8 Sample.snapshot = claimed
  /\ ~ gated_by_status (status_get 8 Sample.snapshot) 8
        (calls (events_of (run_tasks Ref.lib Sample.client Sample.snapshot
                             Sample.article Sample.remote))).
Proof.
  split; [ reflexivity | ].
  intros (H & _). specialize (H eq_refl). vm_compute in H. discriminate H.
Qed.

(** C2.  On the sample remote the read task is incomplete, its
    prerequisite is performed and goes through, the claim is refused, and
    the results hold no entry for the task, where the claim expects one
    tagged as failed. *)
Theorem refused_claim_leaves_no_entry :
  let run := run_tasks Ref.lib Sample.client Sample.snapshot Sample.article Sample.remote in
  status_get 1 Sample.snapshot = incomplete
  /\ In (EvResult (OpAddHistory Sample.article) true) (events_of run)
  /\ In (EvResult (OpClaim 1) false) (events_of run)
  /\ exists rs collected c,
       result_of run = Ok (rs, collected, c) /\ entry_of 1 rs = None.
Proof.
  cbv zeta. split; [ reflexivity | ].
  split; [ vm_compute; tauto | ].
  split; [ vm_compute; tauto | ].
  eexists _, _, _. split; vm_compute; reflexivity.
Qed.

(** The same for every run: a task gated by its status alone whose claim
    is refused appends nothing, and one whose claim is granted appends the
    returned amounts tagged as new. *)
Lemma recorded_by_claim id status :
  lt_int status 2 = Ok true ->
  recorded id status None = []
  /\ forall coin exp, recorded id status (Some (coin, exp)) = [(id, coin, exp, New)].
Proof. intros H. unfold recorded. rewrite H. split; reflexivity. Qed.

(** ** The coin task *)

Lemma bind_lift_ok {A B} (a : A) (k : A -> M B) w : bind (lift (Ok a)) k w = k a w.
Proof. unfold bind, lift. destruct (k a w) as [[r w2] t2]. reflexivity. Qed.

Lemma bind_log_run {B} e (k : unit -> M B) w :
  bind (log e) k w = (result_of (k tt w), world_of (k tt w), e :: events_of (k tt w)).
Proof. unfold bind, log. destruct (k tt w) as [[r w2] t2]. reflexivity. Qed.

Lemma use_coin_calls lib c aid n w :
  exists w' t b, use_coin lib c aid n w = (Ok b, w', t) /\ calls t = [OpUseCoin aid n].
Proof.
  destruct (use_coin_spec lib c aid n w) as (b & w' & t & E & M).
  exists w', t, b. split; [ exact E | ].
  rewrite <- calls_marks, M. reflexivity.
Qed.

(** C3.  For the coin task with status incomplete or claimable, the block
    opens with the profile fetch; when that fetch succeeds and returns the
    balance b, the block logs b and then: for b below 10 it records the
    task as skipped and makes no further call (no spend, no claim); for b
    of 10 or more it spends (only when the status is incomplete) and then
    claims. *)
Theorem coin_task_gated_by_fresh_balance lib c ts aid rs w c1 w1 t1 b :
  status_get 6 ts = incomplete \/ status_get 6 ts = claimable ->
  get_user_info lib c w = (Ok (true, c1), w1, t1) ->
  coin c1 = JInt b ->
  (exists rest,
     events_of (task_coin lib c ts aid rs w) = t1 ++ EvBalance (JInt b) :: rest
     /\ calls t1 = [OpUserInfo])
  /\ (b < 10 ->
      task_coin lib c ts aid rs w
      = (Ok (rs ++ [(6, zero, zero, Skip)], c1), w1, t1 ++ [EvBalance (JInt b)])
      /\ calls (events_of (task_coin lib c ts aid rs w)) = [OpUserInfo])
  /\ (10 <= b ->
      calls (events_of (task_coin lib c ts aid rs w))
      = [OpUserInfo]
        ++ (if eq_int (status_get 6 ts) 0 then [OpUseCoin aid 10] else [])
        ++ [OpClaim 6]).
Proof.
  intros S G B.
  assert (C1 : calls t1 = [OpUserInfo]).
  { pose proof (get_user_info_calls lib c w) as H. rewrite G in H. exact H. }
  assert (L : lt_int (status_get 6 ts) 2 = Ok true) by (destruct S as [ -> | -> ]; reflexivity).
  set (K := bind (lift (ge_int (JInt b) 10))
              (fun enough =>
                 if enough then
                   (if eq_int (status_get 6 ts) 0
                    then use_coin lib c1 aid 10 ;;; ret tt else ret tt) ;;;
                   reward <- claim_reward lib c1 6 ;;
                   match reward with
                   | Some (coin, exp) => ret (rs ++ [(6, coin, exp, New)], c1)
                   | None => ret (rs ++ [(6, zero, zero, Fail)], c1)
                   end
                 else ret (rs ++ [(6, zero, zero, Skip)], c1))).
  assert (U : task_coin lib c ts aid rs w
              = (result_of (K w1), world_of (K w1),
                 t1 ++ EvBalance (JInt b) :: events_of (K w1))).
  { unfold task_coin. rewrite L, bind_lift_ok, (bind_ok _ _ _ _ _ _ G).
    cbv beta zeta. cbn [snd]. rewrite bind_log_run, B. reflexivity. }
  split; [ | split ].
  - eexists. split; [ | exact C1 ]. rewrite U. reflexivity.
  - intros Hb. assert (E : ge_int (JInt b) 10 = Ok false).
    { unfold ge_int. cbn [as_int]. f_equal. apply Z.leb_gt. exact Hb. }
    assert (V : task_coin lib c ts aid rs w
                = (Ok (rs ++ [(6, zero, zero, Skip)], c1), w1, t1 ++ [EvBalance (JInt b)])).
    { rewrite U. unfold K. rewrite E, bind_lift_ok. reflexivity. }
    split; [ exact V | ]. rewrite V. cbn [events_of snd].
    rewrite calls_app, C1. reflexivity.
  - intros Hb. assert (E : ge_int (JInt b) 10 = Ok true).
    { unfold ge_int. cbn [as_int]. f_equal. apply Z.leb_le. exact Hb. }
    rewrite U. cbn [events_of snd]. unfold K. rewrite E, bind_lift_ok.
    rewrite calls_app, C1. f_equal. cbn [calls flat_map app].
    rewrite events_bind, calls_app.
    destruct (eq_int (status_get 6 ts) 0).
    + destruct (use_coin_calls lib c1 aid 10 w1) as (w2 & t2 & ok & E2 & C2).
      rewrite (bind_ok _ _ _ _ _ _ E2). cbn [ret result_of world_of events_of fst snd].
      rewrite app_nil_r, C2. cbn [app]. f_equal.
      rewrite events_bind, calls_app, claim_reward_calls.
      destruct (result_of (claim_reward lib c1 6 w2)) as [ [ [coin exp] | ] | ]; reflexivity.
    + cbn [ret result_of world_of events_of fst snd calls flat_map app].
      rewrite events_bind, calls_app, claim_reward_calls.
      destruct (result_of (claim_reward lib c1 6 w1)) as [ [ [coin exp] | ] | ]; reflexivity.
Qed.

Lemma coin_task_gated_by_fresh_balance_witness :
  task_coin Ref.lib Sample.client Sample.snapshot Sample.article [] Sample.poor
  = (Ok ([(6, zero, zero, Skip)],
         mkClient Sample.key (JInt 123) (JStr "reader") (JInt 9) (JInt 7)),
     mkWorld [] None true,
     events_of (get_user_info Ref.lib Sample.client Sample.poor) ++ [EvBalance (JInt 9)])
  /\ calls (events_of (task_coin Ref.lib Sample.client Sample.snapshot Sample.article []
                         Sample.rich))
     = [OpUserInfo; OpUseCoin Sample.article 10; OpClaim 6].
Proof.
  split.
  - refine (proj1 (proj1 (proj2 (coin_task_gated_by_fresh_balance Ref.lib Sample.client
              Sample.snapshot Sample.article [] Sample.poor _ _ _ 9 _ _ _)) _)).
    + left. reflexivity.
    + vm_compute. reflexivity.
    + reflexivity.
    + reflexivity.
  - refine (proj2 (proj2 (coin_task_gated_by_fresh_balance Ref.lib Sample.client
              Sample.snapshot Sample.article [] Sample.rich _ _ _ 10 _ _ _)) _).
    + left. reflexivity.
    + vm_compute. reflexivity.
    + reflexivity.
    + discriminate.
Defined.

(** When the profile fetch of the coin task fails, the balance the block
    tests is the one the client already held. *)
Lemma coin_task_after_failed_fetch lib c ts aid rs w c1 w1 t1 :
  status_get 6 ts = incomplete \/ status_get 6 ts = claimable ->
  get_user_info lib c w = (Ok (false, c1), w1, t1) ->
  exists rest, events_of (task_coin lib c ts aid rs w) = t1 ++ EvBalance (coin c) :: rest.
Proof.
  intros S G.
  assert (L : lt_int (status_get 6 ts) 2 = Ok true) by (destruct S as [ -> | -> ]; reflexivity).
  destruct (get_user_info_spec lib _ _ _ _ _ _ G) as (_ & _ & K). rewrite (K eq_refl) in G.
  unfold task_coin. rewrite L, bind_lift_ok, (bind_ok _ _ _ _ _ _ G).
  cbn [snd]. rewrite bind_log_run. cbn [events_of snd]. eexists. reflexivity.
Qed.

(** ** The last task and the clean-up *)





Lemma filter_marks (f : event -> bool) t :
  (forall e, f e = true -> is_request e = false) -> filter f (marks t) = filter f t.
Proof.
  intros H. induction t as [ | e t IH ]; [ reflexivity | ].
  rewrite marks_cons. destruct (is_request e) eqn:R; cbn [app filter].
  - destruct (f e) eqn:F; [ apply H in F; congruence | exact IH ].
  - rewrite IH. reflexivity.
Qed.

Lemma filter_steps f pre id status did ok :
  filter f (steps pre id status did ok) =
  match lt_int status 2 with
  | Ok true =>
      (if eq_int status 0
       then match pre with Some p => filter f (lines p did) | None => [] end
       else [])
      ++ filter f (lines (OpClaim id) ok)
  | _ => []
  end.
Proof.
  unfold steps. destruct (lt_int status 2) as [ [ | ] | ]; try reflexivity.
  rewrite filter_app. destruct (eq_int status 0), pre; reflexivity.
Qed.

(** The favourite is reported as done only by the favourite task, when
    its status is 0 and the call went through. *)
Lemma tasks_log_favorite_success aid ts a :
  filter is_favorite_success (tasks_log aid ts a) =
  if favorited ts a then [EvResult (OpAddCollection aid) true] else [].
Proof.
  unfold tasks_log, first_log, favorited. rewrite !filter_app, !filter_steps.
  assert (C : filter is_favorite_success
                (coin_steps aid (status_get 6 ts) (profile_fetched a) (balance a)
                   (coin_done a) (granted (coin_reward a))) = []).
  { unfold coin_steps. destruct (lt_int (status_get 6 ts) 2) as [ [ | ] | ]; try reflexivity.
    destruct (ge_int (balance a) 10) as [ [ | ] | ]; try reflexivity.
    destruct (eq_int (status_get 6 ts) 0); reflexivity. }
  assert (A : filter is_favorite_success
                (all_steps (list_again a) (granted (all_reward a))) = []).
  { unfold all_steps. destruct (overall_status (list_again a)) as [ s | ];
      try reflexivity.
    destruct (lt_int s 2) as [ [ | ] | ]; reflexivity. }
  rewrite C, A. cbn [lines filter is_favorite_success app].
  repeat match goal with
         | |- context [match lt_int ?s 2 with _ => _ end] =>
             destruct (lt_int s 2) as [ [ | ] | ]
         end;
    repeat match goal with
           | |- context [if eq_int ?s 0 then _ else _] => destruct (eq_int s 0)
           end;
    cbn [app andb]; try reflexivity; destruct (favorite_done a); reflexivity.
Qed.

(** The favourite is entered only by the favourite task, when its status is 0. *)
Lemma tasks_log_favorite aid ts a :
  filter is_favorite (tasks_log aid ts a) =
  if eq_int (status_get 2 ts) 0 then [EvCall (OpAddCollection aid)] else [].
Proof.
  unfold tasks_log, first_log. rewrite !filter_app, !filter_steps.
  assert (C : filter is_favorite
                (coin_steps aid (status_get 6 ts) (profile_fetched a) (balance a)
                   (coin_done a) (granted (coin_reward a))) = []).
  { unfold coin_steps. destruct (lt_int (status_get 6 ts) 2) as [ [ | ] | ]; try reflexivity.
    destruct (ge_int (balance a) 10) as [ [ | ] | ]; try reflexivity.
    destruct (eq_int (status_get 6 ts) 0); reflexivity. }
  assert (A : filter is_favorite (all_steps (list_again a) (granted (all_reward a))) = []).
  { unfold all_steps. destruct (overall_status (list_again a)) as [ s | ];
      try reflexivity.
    destruct (lt_int s 2) as [ [ | ] | ]; reflexivity. }
  rewrite C, A. cbn [lines filter is_favorite app].
  assert (Z : eq_int (status_get 2 ts) 0 = true -> lt_int (status_get 2 ts) 2 = Ok true).
  { unfold eq_int, lt_int. destruct (as_int (status_get 2 ts)) as [ z | ]; [ | discriminate ].
    intros E. apply Z.eqb_eq in E. subst. reflexivity. }
  destruct (eq_int (status_get 2 ts) 0) eqn:E2.
  - rewrite (Z eq_refl).
    repeat match goal with
           | |- context [match lt_int ?s 2 with _ => _ end] =>
               destruct (lt_int s 2) as [ [ | ] | ]
           end;
      repeat match goal with
             | |- context [if eq_int ?s 0 then _ else _] => destruct (eq_int s 0)
             end;
      reflexivity.
  - repeat match goal with
           | |- context [match lt_int ?s 2 with _ => _ end] =>
               destruct (lt_int s 2) as [ [ | ] | ]
           end;
      repeat match goal with
             | |- context [if eq_int ?s 0 then _ else _] => destruct (eq_int s 0)
             end;
      reflexivity.
Qed.

(** No task removes a favourite. *)
Lemma tasks_log_no_unfavorite aid ts a : filter is_unfavorite (tasks_log aid ts a) = [].
Proof.
  unfold tasks_log, first_log. rewrite !filter_app, !filter_steps.
  assert (C : filter is_unfavorite
                (coin_steps aid (status_get 6 ts) (profile_fetched a) (balance a)
                   (coin_done a) (granted (coin_reward a))) = []).
  { unfold coin_steps. destruct (lt_int (status_get 6 ts) 2) as [ [ | ] | ]; try reflexivity.
    destruct (ge_int (balance a) 10) as [ [ | ] | ]; try reflexivity.
    destruct (eq_int (status_get 6 ts) 0); reflexivity. }
  assert (A : filter is_unfavorite (all_steps (list_again a) (granted (all_reward a))) = []).
  { unfold all_steps. destruct (overall_status (list_again a)) as [ s | ];
      try reflexivity.
    destruct (lt_int s 2) as [ [ | ] | ]; reflexivity. }
  rewrite C, A. cbn [lines filter is_unfavorite app].
  repeat match goal with
         | |- context [match lt_int ?s 2 with _ => _ end] =>
             destruct (lt_int s 2) as [ [ | ] | ]
         end;
    repeat match goal with
           | |- context [if eq_int ?s 0 then _ else _] => destruct (eq_int s 0)
           end;
    reflexivity.
Qed.

Lemma in_filter_of (f : event -> bool) e t : f e = true -> (In e t <-> In e (filter f t)).
Proof.
  intros F. rewrite filter_In. tauto.
Qed.

(** C5 (amended).  In a run whose tasks are through and whose clean-up
    follows, the favourite is removed if and only if this run's favourite
    call reported success; that call is made if and only if the status of
    the favourite task is 0.  The removal comes after every claim: the
    trace of the tasks holds none, and the clean-up makes no other call. *)
Theorem cleanup_iff_favorite_succeeded lib c ts aid w rs collected c' w1 t1 r w2 t2 :
  run_tasks lib c ts aid w = (Ok (rs, collected, c'), w1, t1) ->
  cleanup lib c' aid collected w1 = (r, w2, t2) ->
  (In (EvCall (OpDelCollection aid)) (t1 ++ t2)
   <-> In (EvResult (OpAddCollection aid) true) (t1 ++ t2))
  /\ (In (EvCall (OpAddCollection aid)) (t1 ++ t2) <-> eq_int (status_get 2 ts) 0 = true)
  /\ ~ In (EvCall (OpDelCollection aid)) t1
  /\ calls t2 = (if collected then [OpDelCollection aid] else []).
Proof.
  intros H K. apply run_tasks_spec in H.
  destruct H as (a & six & w6 & t6 & w7 & t7 & t8 & ms & todo
                 & _ & _ & _ & _ & -> & M6 & M8 & _ & C & _).
  apply cleanup_spec in K. destruct K as (undone & K).
  assert (M : marks (t6 ++ t8) = tasks_log aid ts a).
  { rewrite marks_app, M6, M8. reflexivity. }
  assert (F1 : forall f, (forall e, f e = true -> is_request e = false) ->
                         filter f (t6 ++ t8) = filter f (tasks_log aid ts a)).
  { intros f Hf. rewrite <- (filter_marks f _ Hf), M. reflexivity. }
  assert (F2 : forall f, (forall e, f e = true -> is_request e = false) ->
                         filter f t2 = filter f (cleanup_log aid collected undone)).
  { intros f Hf. rewrite <- (filter_marks f _ Hf), K. reflexivity. }
  assert (R1 : forall e, is_unfavorite e = true -> is_request e = false)
    by (intros [ ]; simpl; congruence).
  assert (R2 : forall e, is_favorite_success e = true -> is_request e = false)
    by (intros [ ]; simpl; congruence).
  assert (R3 : forall e, is_favorite e = true -> is_request e = false)
    by (intros [ ]; simpl; congruence).
  assert (N : ~ In (EvCall (OpDelCollection aid)) (t6 ++ t8)).
  { rewrite (in_filter_of is_unfavorite) by reflexivity.
    rewrite (F1 _ R1), tasks_log_no_unfavorite. exact (fun x => x). }
  split; [ | split; [ | split ] ].
  - rewrite (in_filter_of is_unfavorite (EvCall (OpDelCollection aid)) _ eq_refl).
    rewrite (in_filter_of is_favorite_success (EvResult (OpAddCollection aid) true) _ eq_refl).
    rewrite (filter_app is_unfavorite (t6 ++ t8) t2).
    rewrite (filter_app is_favorite_success (t6 ++ t8) t2).
    rewrite (F1 _ R1), (F1 _ R2), (F2 _ R1), (F2 _ R2).
    rewrite tasks_log_no_unfavorite, tasks_log_favorite_success, <- C.
    unfold cleanup_log, lines. destruct collected; cbn; tauto.
  - rewrite (in_filter_of is_favorite (EvCall (OpAddCollection aid)) _ eq_refl).
    rewrite (filter_app is_favorite (t6 ++ t8) t2).
    rewrite (F1 _ R3), (F2 _ R3), tasks_log_favorite.
    unfold cleanup_log, lines.
    destruct collected, (eq_int (status_get 2 ts) 0); cbn; intuition congruence.
  - exact N.
  - rewrite <- calls_marks, K. unfold cleanup_log. destruct collected; reflexivity.
Qed.

Lemma cleanup_iff_favorite_succeeded_witness :
  In (EvCall (OpDelCollection Sample.article))
     (events_of (run_tasks Ref.lib Sample.client Sample.snapshot Sample.article
                   Sample.obliging)
      ++ events_of (cleanup Ref.lib Sample.client Sample.article true
                      (world_of (run_tasks Ref.lib Sample.client Sample.snapshot
                                   Sample.article Sample.obliging)))).
Proof.
  apply (proj1 (cleanup_iff_favorite_succeeded Ref.lib Sample.client Sample.snapshot
                  Sample.article Sample.obliging _ true Sample.client _ _ _ _ _
                  ltac:(vm_compute; reflexivity) (triple_eta _))).
  vm_compute. tauto.
Defined.

(** C5, as stated, fails when the favourite call is refused: the task is
    incomplete in the snapshot and the run favourites the article, the
    run reaches its end, and it never removes the favourite. *)
Lemma refused_favorite_is_not_undone :
  result_of (do_checkin Ref.lib Sample.config Sample.day)
  = Ok (true,
        SuccessMessage (JStr "reader")
          [(8, zero, zero, Done); (2, JInt 1, JInt 2, New); (3, JInt 3, JInt 4, New);
           (5, JInt 5, JInt 6, New); (6, JInt 7, JInt 8, New); (7, JInt 9, JInt 10, New)]
          25 30 (JInt 40) (JInt 7))
  /\ In (EvCall (OpAddCollection Sample.article))
        (events_of (do_checkin Ref.lib Sample.config Sample.day))
  /\ ~ In (EvCall (OpDelCollection Sample.article))
         (events_of (do_checkin Ref.lib Sample.config Sample.day)).
Proof.
  split; [ vm_compute; reflexivity | ].
  split; [ vm_compute; tauto | ].
  vm_compute. intuition discriminate.
Qed.

(** ** The transport, attempt by attempt *)

Lemma used_pos l : l <> [] -> (1 <= used l)%nat.
Proof. destruct l as [ | [ f | d ] l ]; simpl; intros H; [ congruence | lia | lia ]. Qed.

Lemma all_failed l : forallb failed l = true -> first_ok l = None /\ used l = List.length l.
Proof.
  induction l as [ | [ f | d ] l IH ]; simpl; intros H; [ auto | | discriminate ].
  destruct (IH H) as [ -> -> ]. auto.
Qed.

(** C7 (amended).  [_post] with its bound of 3 never raises and sends
    between one and three requests.  It returns the first response it can
    decode to a dict, whatever the code in it, without a further request.
    An attempt that fails for any reason (the request raised, the status
    was an error, the body could not be decoded) is followed by another
    one while attempts remain; when all three fail the result is [None]. *)
Theorem post_retries_every_failure lib c path extra w :
  (exists r, result_of (_post lib c path extra 3 w) = Ok r)
  /\ (1 <= requests (events_of (_post lib c path extra 3 w)) <= 3)%nat
  /\ (forall d, interpret lib (next_outcome w) = inr d ->
        result_of (_post lib c path extra 3 w) = Ok (Some d)
        /\ requests (events_of (_post lib c path extra 3 w)) = 1%nat)
  /\ (forall f, interpret lib (next_outcome w) = inl f ->
        (2 <= requests (events_of (_post lib c path extra 3 w)))%nat)
  /\ (forallb failed (map (interpret lib) (peek 3 w)) = true ->
        result_of (_post lib c path extra 3 w) = Ok None
        /\ requests (events_of (_post lib c path extra 3 w)) = 3%nat).
Proof.
  rewrite post_run. cbn [result_of events_of fst snd]. rewrite requests_repeat.
  split; [ eexists; reflexivity | ].
  split.
  { split.
    - apply used_pos. discriminate.
    - pose proof (used_le (map (interpret lib) (peek 3 w))) as H.
      rewrite length_map, peek_length in H. exact H. }
  split; [ | split ].
  - intros d H. cbn [peek map]. rewrite H. split; reflexivity.
  - intros f H. cbn [peek map]. rewrite H. cbn [used].
    destruct (interpret lib (next_outcome (advance w))); cbn [used]; lia.
  - intros H. destruct (all_failed _ H) as [ -> -> ].
    rewrite length_map, peek_length. split; reflexivity.
Qed.

Lemma post_retries_every_failure_witness :
  (result_of (_post Ref.lib Sample.client "/api/task/complete" (Some [("id", JInt 1)]) 3
                (mkWorld [Sample.refused] None true))
   = Ok (Some [("code", JInt 1); ("data", JNull)])
   /\ requests (events_of (_post Ref.lib Sample.client "/api/task/complete"
                             (Some [("id", JInt 1)]) 3
                             (mkWorld [Sample.refused] None true))) = 1%nat)
  /\ (result_of (_post Ref.lib Sample.client "/api/task/list" None 3 Sample.broken) = Ok None
      /\ requests (events_of (_post Ref.lib Sample.client "/api/task/list" None 3
                                Sample.broken)) = 3%nat).
Proof.
  split.
  - apply (proj1 (proj2 (proj2 (post_retries_every_failure Ref.lib Sample.client
             "/api/task/complete" (Some [("id", JInt 1)])
             (mkWorld [Sample.refused] None true))))).
    vm_compute. reflexivity.
  - apply (proj2 (proj2 (proj2 (proj2 (post_retries_every_failure Ref.lib Sample.client
             "/api/task/list" None Sample.broken))))).
    vm_compute. reflexivity.
Defined.

(** C7, as stated, fails: the first response arrives (status 200) with a
    body that is no envelope and no JSON, and the request is sent again. *)
Lemma undecodable_body_is_retried :
  next_outcome Sample.busy = Response 200 "<html>busy</html>"
  /\ requests (events_of (_post Ref.lib Sample.client "/api/task/list" None 3 Sample.busy))
     = 2%nat
  /\ ~ retries_only_on_network_failure Ref.lib Sample.client "/api/task/list" None
         Sample.busy.
Proof.
  split; [ reflexivity | ]. split; [ vm_compute; reflexivity | ].
  intros H. assert (E : next_outcome Sample.busy = NetFailure).
  { apply H. vm_compute. lia. }
  discriminate E.
Qed.

(** ** The profile fetch and the key *)



(** ** After authentication: no login, no access to the cache *)

Section Quiet.

Variable lib : PyLib.

Ltac quiet_proof := unfold quiet; intros; quiet_steps.

Lemma get_user_info_quiet c : quiet (get_user_info lib c).
Proof. unfold get_user_info. quiet_proof. Qed.

Lemma get_task_list_quiet c : quiet (get_task_list lib c).
Proof.
  unfold get_task_list. quiet_proof.
Qed.

Lemma get_article_list_quiet c page : quiet (get_article_list lib c page).
Proof. unfold get_article_list. quiet_proof. Qed.

Lemma get_article_detail_quiet c aid : quiet (get_article_detail lib c aid).
Proof. unfold get_article_detail. quiet_proof. Qed.

Lemma claim_reward_quiet c id : quiet (claim_reward lib c id).
Proof. unfold claim_reward. quiet_proof. Qed.

Lemma add_history_quiet c aid : quiet (add_history lib c aid).
Proof. unfold add_history. quiet_proof. Qed.

Lemma add_collection_quiet c aid : quiet (add_collection lib c aid).
Proof. unfold add_collection. quiet_proof. Qed.

Lemma del_collection_quiet c aid : quiet (del_collection lib c aid).
Proof. unfold del_collection. quiet_proof. Qed.

Lemma like_article_quiet c aid : quiet (like_article lib c aid).
Proof. unfold like_article. quiet_proof. Qed.

Lemma use_coin_quiet c aid n : quiet (use_coin lib c aid n).
Proof. unfold use_coin. quiet_proof. Qed.

Hint Resolve get_user_info_quiet get_task_list_quiet get_article_list_quiet
  get_article_detail_quiet claim_reward_quiet add_history_quiet add_collection_quiet
  del_collection_quiet like_article_quiet use_coin_quiet : only_db.

Ltac quiet_calls :=
  unfold quiet in *;
  repeat first [ solve [ auto with only_db ] | progress quiet_steps ].

Lemma collect_articles_quiet c pages : forall all, quiet (collect_articles lib c pages all).
Proof.
  induction pages as [ | page pages IH ]; intros all; cbn [collect_articles].
  - apply only_ret.
  - unfold quiet in *. apply only_bind; [ apply get_article_list_quiet | ].
    intros [ a | ]; [ destruct (truthy a) | ]; try apply IH.
    apply only_bind; [ apply only_lift | intros; apply IH ].
Qed.

Lemma probe_articles_quiet c articles : quiet (probe_articles lib c articles).
Proof.
  induction articles as [ | article rest IH ]; cbn [probe_articles].
  - apply only_ret.
  - unfold quiet in *. apply only_bind; [ apply only_lift | intros aid ].
    apply only_bind; [ apply get_article_detail_quiet | ].
    intros [ d | ]; [ destruct (truthy d) | ]; try apply IH.
    do 3 (apply only_bind; [ apply only_lift | intros ]).
    match goal with |- only _ (if ?b then _ else _) => destruct b end; [ | apply IH ].
    only_steps.
Qed.

Lemma find_valid_article_quiet c n : quiet (find_valid_article lib c n).
Proof.
  unfold find_valid_article, quiet. apply only_bind; [ apply collect_articles_quiet | ].
  intros [ | a all ]; [ apply only_ret | apply probe_articles_quiet ].
Qed.

Lemma run_tasks_quiet c ts aid : quiet (run_tasks lib c ts aid).
Proof.
  unfold run_tasks, first_tasks, task_login, task_read, task_favorite, task_like,
    task_share, task_coin, task_all.
  quiet_calls.
Qed.

Lemma cleanup_quiet c aid collected : quiet (cleanup lib c aid collected).
Proof. unfold cleanup. quiet_calls. Qed.

Lemma summary_quiet c rs : quiet (summary lib c rs).
Proof. unfold summary. quiet_calls. Qed.

Lemma checkin_with_quiet c : quiet (checkin_with lib c).
Proof.
  unfold checkin_with, quiet.
  apply only_bind; [ apply get_task_list_quiet | intros task_data ].
  destruct (found task_data); [ | apply only_ret ].
  do 3 (apply only_bind; [ apply only_lift | intros ]).
  apply only_bind; [ apply find_valid_article_quiet | ].
  intros [ aid | ]; [ destruct (truthy aid) | ]; try apply only_ret.
  apply only_bind; [ apply run_tasks_quiet | intros done ].
  apply only_bind; [ apply cleanup_quiet | intros _ ].
  apply summary_quiet.
Qed.

End Quiet.

(** ** Authentication *)

Lemma within_app n m t1 t2 : within n t1 -> within m t2 -> within (n + m) (t1 ++ t2).
Proof.
  unfold within. rewrite saves_app, login_successes_app, logins_app. lia.
Qed.

Lemma within_weaken n m t : (n <= m)%nat -> within n t -> within m t.
Proof. unfold within. lia. Qed.

Lemma within_quiet t : Forall (fun e => is_auth e = false) t -> within 0 t.
Proof.
  intros H. destruct (no_auth_counts t H) as (A & B & C). unfold within. lia.
Qed.

Lemma within_nil : within 0 [].
Proof. unfold within. cbn. lia. Qed.

Section Authentication.

Variable lib : PyLib.

Lemma login_run u p w :
  login lib u p w
  = (Ok (login_key lib (next_outcome w)), advance w,
     [EvCall (OpLogin u); EvRequest "/api/user/login" (login_body u p);
      EvResult (OpLogin u) (returned_key (login_key lib (next_outcome w)))]).
Proof. reflexivity. Qed.

Lemma load_cache_run w : exists cache, load_cache lib w = (Ok cache, w, [EvCacheLoad]).
Proof.
  unfold load_cache. destruct (cache_file w) as [ content | ]; [ | eauto ].
  destruct (json_loads lib content); eauto.
Qed.

Lemma get_cached_events u w : events_of (get_cached_security_key lib u w) = [EvCacheLoad].
Proof.
  unfold get_cached_security_key. destruct (load_cache_run w) as (cache & E).
  rewrite (bind_ok _ _ _ _ _ _ E). cbn [events_of snd].
  destruct (dict_get cache u (JDict [])) as [ entry | e ]; [ | reflexivity ].
  rewrite bind_lift_ok. reflexivity.
Qed.

Lemma get_cached_world u w : world_of (get_cached_security_key lib u w) = w.
Proof.
  unfold get_cached_security_key. destruct (load_cache_run w) as (cache & E).
  rewrite (bind_ok _ _ _ _ _ _ E). cbn [world_of fst snd].
  destruct (dict_get cache u (JDict [])) as [ entry | e ]; [ | reflexivity ].
  rewrite bind_lift_ok. reflexivity.
Qed.

Lemma lookup_store k v d : lookup k (store k v d) = Some v.
Proof.
  induction d as [ | [k' v'] d IH ]; cbn [store lookup].
  - rewrite String.eqb_refl. reflexivity.
  - destruct (String.eqb k k') eqn:E; cbn [lookup].
    + rewrite String.eqb_refl. reflexivity.
    + rewrite E. exact IH.
Qed.

(** Caching a key reads the file, and unless the cached value is no dict
    writes it once, with the key under the username. *)
Lemma cache_security_key_events u k w :
  (events_of (cache_security_key lib u k w) = [EvCacheLoad]
   /\ exists e, result_of (cache_security_key lib u k w) = Raise e)
  \/ exists cache,
       events_of (cache_security_key lib u k w) = [EvCacheLoad; EvCacheSave (JDict cache)]
       /\ result_of (cache_security_key lib u k w) = Ok tt
       /\ lookup u cache = Some (JDict [("security_key", k); ("cached_at", JStr (now_iso lib))]).
Proof.
  unfold cache_security_key. destruct (load_cache_run w) as (cache & E).
  rewrite (bind_ok _ _ _ _ _ _ E). cbn [events_of result_of fst snd].
  destruct cache as [ | | | | | d ]; cbn [set_item];
    try (left; split; [ reflexivity | eexists; reflexivity ]).
  rewrite bind_lift_ok. right. eexists.
  unfold bind, save_cache, ret.
  destruct (cache_writable w); (split; [ reflexivity | split; [ reflexivity | ] ]);
    apply lookup_store.
Qed.

(** The login of either phase, the caching of its key, and a quiet rest. *)
Lemma login_and_cache_within {A} u p (K : json -> M A) (R : M A) w :
  (forall k, quiet (K k)) -> quiet R ->
  within 1 (events_of
              ((key <- login lib u p ;;
                match key with
                | Some k => if truthy k then cache_security_key lib u k ;;; K k else R
                | None => R
                end) w)).
Proof.
  intros HK HR. rewrite (bind_ok _ _ _ _ _ _ (login_run u p w)). cbn [events_of snd].
  destruct (login_key lib (next_outcome w)) as [ k | ]; cbn [returned_key].
  - destruct (truthy k).
    + rewrite events_bind.
      assert (Q : forall w', within 0 (events_of (K k w'))) by (intros; apply within_quiet, HK).
      destruct (cache_security_key_events u k (advance w))
        as [ (E & e & O) | (cache & E & O & _) ].
      * rewrite E, O. unfold within. cbn. lia.
      * rewrite E, O.
        specialize (Q (world_of (cache_security_key lib u k (advance w)))).
        revert Q. unfold within.
        rewrite !saves_app, !login_successes_app, !logins_app. cbn. lia.
    + pose proof (within_quiet _ (HR (advance w))) as Q. revert Q. unfold within.
      rewrite !saves_app, !login_successes_app, !logins_app. cbn. lia.
  - pose proof (within_quiet _ (HR (advance w))) as Q. revert Q. unfold within.
    rewrite !saves_app, !login_successes_app, !logins_app. cbn. lia.
Qed.

Lemma resolve_key_within cfg w : within 1 (events_of (resolve_key lib cfg w)).
Proof.
  unfold resolve_key. destruct (nonempty (lk_security_key cfg)).
  { apply (within_weaken 0); [ lia | apply within_nil ]. }
  destruct (nonempty (lk_username cfg) && nonempty (lk_password cfg)).
  2: { apply (within_weaken 0); [ lia | apply within_nil ]. }
  rewrite events_bind, get_cached_events.
  destruct (result_of (get_cached_security_key lib (lk_username cfg) w)) as [ ck | e ].
  - destruct (truthy ck).
    + unfold within. cbn. lia.
    + apply (within_app 0 1 [EvCacheLoad]); [ unfold within; cbn; lia | ].
      apply login_and_cache_within; intros; apply only_ret.
  - unfold within. cbn. lia.
Qed.

Lemma validate_within cfg key w : within 1 (events_of (validate lib cfg key w)).
Proof.
  unfold validate. rewrite events_bind.
  apply (within_app 0 1); [ apply within_quiet, get_user_info_quiet | ].
  destruct (result_of (get_user_info lib (new_client key) w)) as [ checked | e ];
    [ | apply (within_weaken 0); [ lia | apply within_nil ] ].
  destruct (fst checked); [ apply (within_weaken 0); [ lia | apply within_nil ] | ].
  unfold relogin.
  destruct (nonempty (lk_username cfg) && nonempty (lk_password cfg));
    [ | apply (within_weaken 0); [ lia | apply within_nil ] ].
  apply login_and_cache_within.
  - intros k. unfold quiet. apply only_bind; [ apply get_user_info_quiet | ].
    intros checked'. destruct (fst checked'); apply only_ret.
  - apply only_ret.
Qed.

(** The events of a run: the resolution of the key, its validation, and
    a rest without login or cache access. *)
Lemma do_checkin_events cfg w :
  exists t0 t1 t2,
    events_of (do_checkin lib cfg w) = t0 ++ t1 ++ t2
    /\ t0 = events_of (resolve_key lib cfg w)
    /\ within 1 t1
    /\ Forall (fun e => is_auth e = false) t2.
Proof.
  unfold do_checkin. rewrite events_bind.
  exists (events_of (resolve_key lib cfg w)).
  destruct (result_of (resolve_key lib cfg w)) as [ [ why | key ] | e ].
  - exists [], []. repeat split; try constructor.
    apply (within_weaken 0); [ lia | apply within_nil ].
  - rewrite events_bind.
    exists (events_of (validate lib cfg key (world_of (resolve_key lib cfg w)))).
    eexists. split; [ reflexivity | ]. split; [ reflexivity | ].
    split; [ apply validate_within | ].
    destruct (result_of (validate lib cfg key _)) as [ [ why | client ] | e ];
      try constructor.
    apply checkin_with_quiet.
  - exists [], []. repeat split; try constructor.
    apply (within_weaken 0); [ lia | apply within_nil ].
Qed.

End Authentication.

(** C8 (amended).  In every run the cache file is written only after a
    login that returned a key, at most once per such login, and a run
    makes at most two logins (the one that resolves the key and the one
    that follows a failed profile check): so the file is written at most
    twice, and at most once when the key was resolved without a login,
    from the configuration or from the cache. *)
Theorem cache_written_once_per_login lib cfg w :
  (saves (events_of (do_checkin lib cfg w))
   <= login_successes (events_of (do_checkin lib cfg w)))%nat
  /\ (login_successes (events_of (do_checkin lib cfg w))
      <= logins (events_of (do_checkin lib cfg w)))%nat
  /\ (logins (events_of (do_checkin lib cfg w)) <= 2)%nat
  /\ (logins (events_of (resolve_key lib cfg w)) = 0%nat ->
      (saves (events_of (do_checkin lib cfg w)) <= 1)%nat).
Proof.
  destruct (do_checkin_events lib cfg w) as (t0 & t1 & t2 & -> & E0 & W1 & Q2).
  pose proof (resolve_key_within lib cfg w) as W0. rewrite <- E0 in *.
  apply within_quiet in Q2. revert W0 W1 Q2. unfold within.
  rewrite !saves_app, !login_successes_app, !logins_app. lia.
Qed.

Lemma cache_written_once_per_login_witness :
  (saves (events_of (do_checkin Ref.lib Sample.config Sample.day)) <= 1)%nat.
Proof.
  apply (proj2 (proj2 (proj2 (cache_written_once_per_login Ref.lib Sample.config
                                Sample.day)))).
  reflexivity.
Defined.

(** C8, as stated, fails: a run that resolves its key by a login, sees
    the profile check on it refused and logs in again writes the cache
    after each of the two logins. *)
Lemma cache_written_twice :
  saves (events_of (do_checkin Ref.lib Sample.account Sample.twice)) = 2%nat
  /\ ~ written_at_most_once Ref.lib Sample.account Sample.twice.
Proof.
  split; [ vm_compute; reflexivity | ].
  unfold written_at_most_once. vm_compute. lia.
Qed.

(** ** The re-login *)

Lemma profile_checks_of_calls t :
  profile_checks t
  = List.length (filter (fun op => match op with OpUserInfo => true | _ => false end)
                   (calls t)).
Proof.
  unfold profile_checks. induction t as [ | e t IH ]; [ reflexivity | ].
  destruct e as [ [ ] | | | | | ]; cbn in *; rewrite ?IH; reflexivity.
Qed.

Lemma get_user_info_checks lib c w : profile_checks (events_of (get_user_info lib c w)) = 1%nat.
Proof. rewrite profile_checks_of_calls, get_user_info_calls. reflexivity. Qed.

Lemma get_user_info_no_auth lib c w :
  saves (events_of (get_user_info lib c w)) = 0%nat
  /\ logins (events_of (get_user_info lib c w)) = 0%nat.
Proof.
  destruct (no_auth_counts _ (get_user_info_quiet lib c w)) as (A & _ & B). auto.
Qed.

(** C6.  When the profile check on the resolved key fails: without a
    username and a password the validation fails at once.  With them it
    logs in exactly once; if the login returns no usable key it fails
    without a second check; otherwise it caches the fresh key under the
    username, builds a client on that key and checks the profile once
    more, and it succeeds with that client or fails according to this
    second check.  Whenever the validation fails, so does the run; and
    when the key had been resolved without a login (from the
    configuration or the cache), this login is the only one of the run. *)
Theorem relogin_once_after_rejected_key lib cfg key w c0 w1 t1 :
  get_user_info lib (new_client key) w = (Ok (false, c0), w1, t1) ->
  (has_credentials cfg = false ->
     validate lib cfg key w = (Ok (inl UserInfoFailed), w1, t1))
  /\ (has_credentials cfg = true ->
      logins (events_of (validate lib cfg key w)) = 1%nat
      /\ (profile_checks (events_of (validate lib cfg key w)) <= 2)%nat)
  /\ (has_credentials cfg = true ->
      usable (login_key lib (next_outcome w1)) = false ->
      result_of (validate lib cfg key w) = Ok (inl ReloginFailed)
      /\ profile_checks (events_of (validate lib cfg key w)) = 1%nat
      /\ saves (events_of (validate lib cfg key w)) = 0%nat)
  /\ (has_credentials cfg = true ->
      forall k, login_key lib (next_outcome w1) = Some k -> truthy k = true ->
      forall w3 t3,
        cache_security_key lib (lk_username cfg) k (advance w1) = (Ok tt, w3, t3) ->
      forall ok c4 w4 t4,
        get_user_info lib (new_client k) w3 = (Ok (ok, c4), w4, t4) ->
        result_of (validate lib cfg key w)
        = Ok (if ok then inr c4 else inl UserInfoFailed)
        /\ security_key c4 = k
        /\ (exists cache,
              t3 = [EvCacheLoad; EvCacheSave (JDict cache)]
              /\ lookup (lk_username cfg) cache
                 = Some (JDict [("security_key", k); ("cached_at", JStr (now_iso lib))]))
        /\ profile_checks (events_of (validate lib cfg key w)) = 2%nat)
  /\ (forall w0 t0 why w' t',
        resolve_key lib cfg w0 = (Ok (inr key), w, t0) ->
        validate lib cfg key w = (Ok (inl why), w', t') ->
        do_checkin lib cfg w0 = (Ok (false, FailureMessage JNull why), w', t0 ++ t'))
  /\ (forall w0 t0,
        resolve_key lib cfg w0 = (Ok (inr key), w, t0) ->
        logins t0 = 0%nat ->
        has_credentials cfg = true ->
        logins (events_of (do_checkin lib cfg w0)) = 1%nat).
Proof.
  intros G. unfold has_credentials.
  assert (P1 : profile_checks t1 = 1%nat).
  { pose proof (get_user_info_checks lib (new_client key) w) as H. rewrite G in H. exact H. }
  assert (A1 : saves t1 = 0%nat /\ logins t1 = 0%nat).
  { pose proof (get_user_info_no_auth lib (new_client key) w) as H. rewrite G in H. exact H. }
  destruct A1 as [ S1 L1 ].
  assert (V : validate lib cfg key w
              = (result_of (relogin lib cfg w1), world_of (relogin lib cfg w1),
                 t1 ++ events_of (relogin lib cfg w1))).
  { unfold validate. rewrite (bind_ok _ _ _ _ _ _ G). reflexivity. }
  unfold relogin in V.
  assert (L : nonempty (lk_username cfg) && nonempty (lk_password cfg) = true ->
              logins (events_of (validate lib cfg key w)) = 1%nat
              /\ (profile_checks (events_of (validate lib cfg key w)) <= 2)%nat);
    [ | split; [ | split; [ exact L | split; [ | split; [ | split ] ] ] ] ].
  - intros C. rewrite V, C. cbn [events_of snd].
    rewrite (bind_ok _ _ _ _ _ _ (login_run lib _ _ w1)). cbn [events_of snd].
    rewrite logins_app, profile_checks_app, L1, P1.
    destruct (login_key lib (next_outcome w1)) as [ k | ]; [ destruct (truthy k) | ].
    + rewrite events_bind.
      destruct (cache_security_key_events lib (lk_username cfg) k (advance w1))
        as [ (E & e & O) | (cache & E & O & _) ]; rewrite E, O.
      * cbn. lia.
      * rewrite events_bind.
        pose proof (get_user_info_checks lib (new_client k)
                      (world_of (cache_security_key lib (lk_username cfg) k (advance w1))))
          as P2.
        pose proof (get_user_info_no_auth lib (new_client k)
                      (world_of (cache_security_key lib (lk_username cfg) k (advance w1))))
          as [ _ L2 ].
        rewrite !logins_app, !profile_checks_app.
        rewrite P2, L2.
        destruct (result_of (get_user_info lib (new_client k) _)) as [ [ ok c4 ] | e ];
          [ destruct ok | ]; cbn; lia.
    + cbn. lia.
    + cbn. lia.
  - intros C. rewrite V, C. cbn. rewrite app_nil_r. reflexivity.
  - intros C U. rewrite V, C. cbn [result_of events_of fst snd].
    rewrite (bind_ok _ _ _ _ _ _ (login_run lib _ _ w1)).
    cbn [result_of events_of fst snd].
    rewrite profile_checks_app, saves_app, P1, S1.
    destruct (login_key lib (next_outcome w1)) as [ k | ]; cbn [usable] in U;
      [ rewrite U | ]; cbn; auto.
  - intros C k K T w3 t3 E3 ok c4 w4 t4 E4.
    destruct (get_user_info_spec lib _ _ _ _ _ _ E4) as (_ & K4 & _).
    assert (X : exists cache,
                  t3 = [EvCacheLoad; EvCacheSave (JDict cache)]
                  /\ lookup (lk_username cfg) cache
                     = Some (JDict [("security_key", k); ("cached_at", JStr (now_iso lib))])).
    { destruct (cache_security_key_events lib (lk_username cfg) k (advance w1))
        as [ (_ & e & O) | (cache & E & _ & Lk) ]; rewrite E3 in *.
      - discriminate O.
      - exists cache. split; [ exact E | exact Lk ]. }
    assert (R : validate lib cfg key w
                = (Ok (if ok then inr c4 else inl UserInfoFailed), w4,
                   t1 ++ [EvCall (OpLogin (lk_username cfg));
                          EvRequest "/api/user/login"
                            (login_body (lk_username cfg) (lk_password cfg));
                          EvResult (OpLogin (lk_username cfg)) true] ++ t3 ++ t4 ++ [])).
    { rewrite V, C. rewrite (bind_ok _ _ _ _ _ _ (login_run lib _ _ w1)).
      rewrite K, T. cbn [returned_key]. rewrite (bind_ok _ _ _ _ _ _ E3).
      rewrite (bind_ok _ _ _ _ _ _ E4). cbn [fst snd result_of world_of events_of].
      destruct ok; reflexivity. }
    rewrite R. cbn [result_of events_of fst snd].
    split; [ reflexivity | ]. split; [ exact K4 | ]. split; [ exact X | ].
    pose proof (get_user_info_checks lib (new_client k) w3) as P4. rewrite E4 in P4.
    cbn [events_of snd] in P4. destruct X as (cache & -> & _).
    rewrite !profile_checks_app, P1, P4. reflexivity.
  - intros w0 t0 why w' t' R0 V0. unfold do_checkin.
    rewrite (bind_ok _ _ _ _ _ _ R0). rewrite (bind_ok _ _ _ _ _ _ V0).
    cbn. rewrite app_nil_r. reflexivity.
  - intros w0 t0 R0 L0 C. unfold do_checkin.
    rewrite (bind_ok _ _ _ _ _ _ R0). cbn [events_of snd].
    rewrite events_bind, !logins_app, L0, (proj1 (L C)).
    destruct (result_of (validate lib cfg key w)) as [ [ why | client ] | e ];
      try reflexivity.
    destruct (no_auth_counts _ (checkin_with_quiet lib client
                                  (world_of (validate lib cfg key w)))) as (_ & _ & Q).
    rewrite Q. reflexivity.
Qed.

Lemma relogin_once_after_rejected_key_witness :
  result_of (validate Ref.lib Sample.expired (JStr "stale:123:0") Sample.renewal)
  = Ok (inr (mkClient (JStr "fresh:123:0") (JInt 123) (JStr "reader") (JInt 20) (JInt 7)))
  /\ logins (events_of (validate Ref.lib Sample.expired (JStr "stale:123:0")
                          Sample.renewal)) = 1%nat.
Proof.
  pose proof (relogin_once_after_rejected_key Ref.lib Sample.expired (JStr "stale:123:0")
                Sample.renewal _ _ _ ltac:(vm_compute; reflexivity)) as (_ & L & _ & R & _ & _).
  split.
  - refine (proj1 (R eq_refl (JStr "fresh:123:0") _ eq_refl _ _ _ true _ _ _ _)).
    + vm_compute. reflexivity.
    + vm_compute. reflexivity.
    + vm_compute. reflexivity.
  - exact (proj1 (L eq_refl)).
Defined.

(** ** The reference libraries invert their encoders *)

Module RefLaws.

Import Ref.

Lemma sextet_alphabet i : (i < 64)%N -> sextet (alphabet i) = Some i.
Proof.
  intros H.
  assert (E : exists n : nat, (n < 64)%nat /\ i = N.of_nat n).
  { exists (N.to_nat i). split; [ lia | rewrite N2Nat.id; reflexivity ]. }
  destruct E as (n & Hn & ->). clear H.
  do 64 (destruct n as [ | n ]; [ reflexivity | ]). lia.
Qed.

Lemma alphabet_not_pad i : (i < 64)%N -> Ascii.eqb (alphabet i) pad = false.
Proof.
  intros H.
  assert (E : exists n : nat, (n < 64)%nat /\ i = N.of_nat n).
  { exists (N.to_nat i). split; [ lia | rewrite N2Nat.id; reflexivity ]. }
  destruct E as (n & Hn & ->). clear H.
  do 64 (destruct n as [ | n ]; [ reflexivity | ]). lia.
Qed.

Lemma byte_bound a : (N_of_ascii a < 256)%N.
Proof. apply N_ascii_bounded. Qed.

Lemma join_chars n :
  (n < 16777216)%N ->
  join (n / 262144) ((n / 4096) mod 64) ((n / 64) mod 64) (n mod 64) = n.
Proof. intros H. unfold join. zify. Z.to_euclidean_division_equations. lia. Qed.

Lemma pack_bytes a b c :
  (a < 256)%N -> (b < 256)%N -> (c < 256)%N ->
  (pack a b c / 65536 = a /\ (pack a b c / 256) mod 256 = b /\ pack a b c mod 256 = c
   /\ pack a b c < 16777216)%N.
Proof.
  intros Ha Hb Hc. unfold pack.
  repeat split; zify; Z.to_euclidean_division_equations; lia.
Qed.

Lemma small_sextets n :
  (n < 16777216)%N ->
  (n / 262144 < 64 /\ (n / 4096) mod 64 < 64 /\ (n / 64) mod 64 < 64 /\ n mod 64 < 64)%N.
Proof. intros H. repeat split; zify; Z.to_euclidean_division_equations; lia. Qed.

(** One group of three bytes, through its four characters and back. *)
Lemma group_roundtrip a b c :
  let n := pack (N_of_ascii a) (N_of_ascii b) (N_of_ascii c) in
  sextet (char1 n) = Some (n / 262144)%N
  /\ sextet (char2 n) = Some ((n / 4096) mod 64)%N
  /\ sextet (char3 n) = Some ((n / 64) mod 64)%N
  /\ sextet (char4 n) = Some (n mod 64)%N
  /\ Ascii.eqb (char3 n) pad = false
  /\ Ascii.eqb (char4 n) pad = false
  /\ join (n / 262144) ((n / 4096) mod 64) ((n / 64) mod 64) (n mod 64) = n
  /\ byte1 n = a /\ byte2 n = b /\ byte3 n = c.
Proof.
  intros n.
  destruct (pack_bytes _ _ _ (byte_bound a) (byte_bound b) (byte_bound c))
    as (E1 & E2 & E3 & B).
  fold n in E1, E2, E3, B.
  destruct (small_sextets n B) as (S1 & S2 & S3 & S4).
  unfold char1, char2, char3, char4, byte1, byte2, byte3.
  rewrite E1, E2, E3, !ascii_N_embedding.
  repeat split; auto using sextet_alphabet, alphabet_not_pad, join_chars.
Qed.

Lemma join_two n : (n mod 64 = 0)%N -> (n < 16777216)%N ->
  join (n / 262144) ((n / 4096) mod 64) ((n / 64) mod 64) 0 = n.
Proof.
  intros H B. unfold join. zify. Z.to_euclidean_division_equations. lia.
Qed.

Lemma join_one n : (n mod 4096 = 0)%N -> (n < 16777216)%N ->
  join (n / 262144) ((n / 4096) mod 64) 0 0 = n.
Proof.
  intros H B. unfold join. zify. Z.to_euclidean_division_equations. lia.
Qed.

Lemma encode_bytes_cons d l :
  exists p q r s t, encode_bytes (d :: l) = p :: q :: r :: s :: t.
Proof.
  destruct l as [ | e [ | f l ] ]; cbn [encode_bytes]; eauto 6.
Qed.

Lemma list_ind3 {A} (P : list A -> Prop) :
  P [] -> (forall a, P [a]) -> (forall a b, P [a; b]) ->
  (forall a b c l, P l -> P (a :: b :: c :: l)) ->
  forall l, P l.
Proof.
  intros H0 H1 H2 H3.
  assert (H : forall l, P l /\ (forall a, P (a :: l)) /\ (forall a b, P (a :: b :: l))).
  { induction l as [ | x l (IH0 & IH1 & IH2) ]; [ auto | ].
    split; [ apply IH1 | ]. split; [ intros a; apply IH2 | ].
    intros a b. apply H3. exact IH0. }
  intros l. apply H.
Qed.

Lemma decode_encode_bytes l :
  forall fuel, (List.length l < fuel)%nat -> decode_chars fuel (encode_bytes l) = Some l.
Proof.
  induction l as [ | a | a b | a b c l IH ] using list_ind3;
    intros [ | fuel ] Hf; try (cbn in Hf; lia).
  - reflexivity.
  - cbn [encode_bytes].
    destruct (group_roundtrip a "000"%char "000"%char) as (S1 & S2 & _ & _ & _ & _ & _ & B1 & _).
    change (N_of_ascii "000"%char) with 0%N in *. cbv zeta in *.
    set (n := pack (N_of_ascii a) 0 0) in *.
    cbn [decode_chars]. rewrite S1, S2. cbn [Ascii.eqb pad Bool.eqb].
    rewrite join_one; [ rewrite B1; reflexivity | | ].
    + unfold n, pack. zify. Z.to_euclidean_division_equations. lia.
    + pose proof (byte_bound a). unfold n, pack. lia.
  - cbn [encode_bytes].
    destruct (group_roundtrip a b "000"%char)
      as (S1 & S2 & S3 & _ & P3 & _ & _ & B1 & B2 & _).
    change (N_of_ascii "000"%char) with 0%N in *. cbv zeta in *.
    set (n := pack (N_of_ascii a) (N_of_ascii b) 0) in *.
    cbn [decode_chars]. rewrite S1, S2, P3, S3. cbn [Ascii.eqb pad Bool.eqb].
    rewrite join_two; [ rewrite B1, B2; reflexivity | | ].
    + unfold n, pack. zify. Z.to_euclidean_division_equations. lia.
    + pose proof (byte_bound a). pose proof (byte_bound b). unfold n, pack. lia.
  - cbn [encode_bytes].
    destruct (group_roundtrip a b c) as (S1 & S2 & S3 & S4 & P3 & P4 & J & B1 & B2 & B3).
    cbv zeta in *. set (n := pack (N_of_ascii a) (N_of_ascii b) (N_of_ascii c)) in *.
    assert (IH' : decode_chars fuel (encode_bytes l) = Some l).
    { apply IH. cbn in Hf. lia. }
    destruct l as [ | d l ].
    + cbn [encode_bytes decode_chars]. rewrite S1, S2, P4, S3, S4, J, B1, B2, B3.
      reflexivity.
    + destruct (encode_bytes_cons d l) as (p & q & r & s & t & E).
      rewrite E in *. cbn [decode_chars].
      rewrite S1, S2, S3, S4, IH', J, B1, B2, B3. reflexivity.
Qed.

Lemma string_length_of_list l : String.length (string_of_list_ascii l) = List.length l.
Proof. induction l; cbn; [ | rewrite IHl ]; reflexivity. Qed.

Lemma encode_bytes_length l : (List.length l <= List.length (encode_bytes l))%nat.
Proof.
  induction l as [ | a | a b | a b c l IH ] using list_ind3; cbn [encode_bytes List.length];
    lia.
Qed.

Theorem b64_roundtrip s : b64decode (b64encode s) = Some s.
Proof.
  unfold b64decode, b64encode.
  rewrite list_ascii_of_string_of_list_ascii, string_length_of_list.
  rewrite decode_encode_bytes.
  - cbn [option_map]. rewrite string_of_list_ascii_of_string. reflexivity.
  - pose proof (encode_bytes_length (list_ascii_of_string s)). lia.
Qed.

Theorem frame_roundtrip s : decompress (compress s) = Some s.
Proof. reflexivity. Qed.

Lemma read_write_bits p rest : read_bits (write_bits p ++ rest) = Some (p, rest).
Proof. induction p as [ p IH | p IH | ]; cbn; rewrite ?IH; reflexivity. Qed.

Lemma read_write_int z rest : read_int (write_int z ++ rest) = Some (z, rest).
Proof. destruct z; cbn; rewrite ?read_write_bits; reflexivity. Qed.

Lemma read_write_text s rest : read_text (write_text s ++ rest) = Some (s, rest).
Proof. induction s as [ | c s IH ]; cbn; rewrite ?IH; reflexivity. Qed.

(** A value is written with a tag in front, which is not a closing bracket. *)
Lemma write_tag v :
  exists c tl, write v = c :: tl
               /\ Ascii.eqb c "]"%char = false.
Proof. destruct v as [ | [ | ] | z | s | l | d ]; cbn; eauto. Qed.

Lemma write_text_tag s :
  exists c tl, write_text s = c :: tl /\ Ascii.eqb c "}"%char = false.
Proof. destruct s; cbn; eauto. Qed.

Lemma read_write_all n :
  (forall v rest, (List.length (write v) <= n)%nat ->
                  read n (write v ++ rest) = Some (v, rest))
  /\ (forall l rest, (List.length (flat_map write l) < n)%nat ->
                     read_items n (flat_map write l ++ "]"%char :: rest) = Some (l, rest))
  /\ (forall d rest, (List.length (flat_map write_field d) < n)%nat ->
                     read_fields n (flat_map write_field d ++ "}"%char :: rest)
                     = Some (d, rest)).
Proof.
  induction n as [ | n (IHv & IHl & IHd) ].
  - split; [ | split ]; intros; try lia.
    destruct (write_tag v) as (c & tl & E & _). rewrite E in *. cbn in *. lia.
  - split; [ | split ].
    + intros v rest H. destruct v as [ | [ | ] | z | s | l | d ]; try reflexivity.
      * cbn [write app read]. cbn [Ascii.eqb Bool.eqb andb].
        rewrite read_write_int. reflexivity.
      * cbn [write app read]. cbn [Ascii.eqb Bool.eqb andb].
        rewrite read_write_text. reflexivity.
      * cbn [write] in *. cbn [app read]. cbn [Ascii.eqb Bool.eqb andb].
        rewrite <- app_assoc. cbn [app]. rewrite IHl; [ reflexivity | ].
        cbn [List.length] in H. rewrite length_app in H. cbn in H. lia.
      * cbn [write] in *. cbn [app read]. cbn [Ascii.eqb Bool.eqb andb].
        rewrite <- app_assoc. cbn [app].
        change (fun kv : string * json => write_text (fst kv) ++ write (snd kv))
          with write_field in *.
        rewrite IHd; [ reflexivity | ].
        cbn [List.length] in H. rewrite length_app in H. cbn in H. lia.
    + intros l rest H. destruct l as [ | v l ]; [ reflexivity | ].
      cbn [flat_map] in *. rewrite length_app in H. rewrite <- app_assoc.
      destruct (write_tag v) as (c & tl & E & T).
      assert (L : (1 <= List.length (write v))%nat) by (rewrite E; cbn; lia).
      assert (U : forall r,
                 read_items (S n) (c :: r) =
                 match read n (c :: r) with
                 | Some (v, r1) =>
                     match read_items n r1 with
                     | Some (vs, r2) => Some (v :: vs, r2)
                     | None => None
                     end
                 | None => None
                 end).
      { intros r. cbn [read_items]. rewrite T. reflexivity. }
      remember (flat_map write l ++ "]"%char :: rest) as X eqn:EX.
      assert (G : read n (write v ++ X) = Some (v, X)) by (apply IHv; lia).
      rewrite E in *. cbn [app] in *. rewrite U, G. subst X.
      rewrite IHl by lia. reflexivity.
    + intros d rest H. destruct d as [ | [k v] d ]; [ reflexivity | ].
      cbn [flat_map] in *. unfold write_field at 1 in H. unfold write_field at 1.
      cbn [fst snd] in *. rewrite !length_app in H. rewrite <- !app_assoc.
      destruct (write_text_tag k) as (c & tl & E & T).
      destruct (write_tag v) as (c' & tl' & E' & _).
      assert (L : (1 <= List.length (write_text k))%nat) by (rewrite E; cbn; lia).
      assert (L' : (1 <= List.length (write v))%nat) by (rewrite E'; cbn; lia).
      assert (U : forall r,
                 read_fields (S n) (c :: r) =
                 match read_text (c :: r) with
                 | Some (k, r1) =>
                     match read n r1 with
                     | Some (v, r2) =>
                         match read_fields n r2 with
                         | Some (d, r3) => Some ((k, v) :: d, r3)
                         | None => None
                         end
                     | None => None
                     end
                 | None => None
                 end).
      { intros r. cbn [read_fields]. rewrite T. reflexivity. }
      remember (flat_map write_field d ++ "}"%char :: rest) as X eqn:EX.
      assert (G : read_text (write_text k ++ write v ++ X) = Some (k, write v ++ X))
        by apply read_write_text.
      assert (G' : read n (write v ++ X) = Some (v, X)) by (apply IHv; lia).
      rewrite E in G |- *. cbn [app] in G |- *. rewrite U, G, G'. subst X.
      rewrite IHd by lia. reflexivity.
Qed.

Theorem notation_roundtrip v : loads (dumps v) = Some v.
Proof.
  unfold loads, dumps.
  rewrite list_ascii_of_string_of_list_ascii, string_length_of_list.
  rewrite <- (app_nil_r (write v)) at 2.
  rewrite (proj1 (read_write_all _)); [ reflexivity | lia ].
Qed.

End RefLaws.

(** ** The envelope *)

(** C9.  With libraries whose decoders invert their encoders,
    [decode_response] applied to the envelope of a JSON value (base64 of
    zlib of its JSON text) returns that value. *)
Theorem envelope_roundtrip lib :
  (forall b, b64decode lib (b64encode lib b) = Some b) ->
  (forall b, zlib_decompress lib (zlib_compress lib b) = Some b) ->
  (forall v, json_loads lib (json_dumps lib v) = Some v) ->
  forall v, decode_response lib (JStr (encode_envelope lib v)) = v.
Proof.
  intros B Z J v. unfold decode_response, gz_decode, encode_envelope.
  rewrite B, Z, J. reflexivity.
Qed.

Lemma envelope_roundtrip_witness :
  decode_response Ref.lib (JStr (encode_envelope Ref.lib (Sample.profile 20)))
  = Sample.profile 20.
Proof.
  apply (envelope_roundtrip Ref.lib RefLaws.b64_roundtrip RefLaws.frame_roundtrip
           RefLaws.notation_roundtrip).
Defined.

(** The same envelope as a response body: [_post] takes the dict out of
    it at the first attempt. *)
Lemma envelope_understood lib d :
  (forall b, b64decode lib (b64encode lib b) = Some b) ->
  (forall b, zlib_decompress lib (zlib_compress lib b) = Some b) ->
  (forall v, json_loads lib (json_dumps lib v) = Some v) ->
  interpret lib (Response 200 (encode_envelope lib (JDict d))) = inr d.
Proof.
  intros B Z J. cbn [interpret is_http_error]. cbn.
  unfold decode_body, gz_decode, encode_envelope. rewrite B, Z, J. reflexivity.
Qed.

(** A string that is no envelope comes back unchanged, and so does a
    value that is not a string. *)
Lemma decode_response_passthrough lib data :
  match data with JStr s => gz_decode lib s = None | _ => True end ->
  decode_response lib data = data.
Proof.
  destruct data; cbn [decode_response]; intros H; try reflexivity.
  rewrite H. reflexivity.
Qed.

(** ** A successful run, phase by phase *)

Section Phases.

Variable lib : PyLib.

Let idle {A} (m : M A) : Prop := only (fun e => is_task_event e = false) m.

Lemma load_cache_idle : idle (load_cache lib).
Proof.
  intros w. destruct (load_cache_run lib w) as (cache & E). rewrite E.
  repeat constructor.
Qed.

Lemma save_cache_idle cache : idle (save_cache lib cache).
Proof.
  intros w. unfold save_cache. destruct (cache_writable w); repeat constructor.
Qed.

Lemma resolve_key_idle cfg : idle (resolve_key lib cfg).
Proof.
  unfold idle, resolve_key, get_cached_security_key, cache_security_key, login.
  repeat first [ apply load_cache_idle | apply save_cache_idle
               | apply only_bind; [ | intros ]
               | apply only_log; reflexivity
               | apply only_ret | apply only_lift
               | apply only_send; reflexivity
               | match goal with |- only _ (match ?x with _ => _ end) => destruct x end ].
Qed.

Lemma get_user_info_idle c : idle (get_user_info lib c).
Proof. unfold idle, get_user_info. quiet_steps. Qed.

Lemma validate_idle cfg key : idle (validate lib cfg key).
Proof.
  unfold idle, validate, relogin, cache_security_key, login.
  repeat first [ apply load_cache_idle | apply save_cache_idle | apply get_user_info_idle
               | apply only_bind; [ | intros ]
               | apply only_log; reflexivity
               | apply only_ret | apply only_lift
               | apply only_send; reflexivity
               | match goal with |- only _ (match ?x with _ => _ end) => destruct x end ].
Qed.

Lemma get_task_list_idle c : idle (get_task_list lib c).
Proof. unfold idle, get_task_list. quiet_steps. Qed.

Lemma find_valid_article_idle c n : idle (find_valid_article lib c n).
Proof.
  unfold idle, find_valid_article.
  assert (C : forall pages all, only (fun e => is_task_event e = false)
                                  (collect_articles lib c pages all)).
  { induction pages as [ | page pages IH ]; intros all; cbn [collect_articles].
    - apply only_ret.
    - apply only_bind; [ unfold get_article_list; quiet_steps | ].
      intros [ a | ]; [ destruct (truthy a) | ]; try apply IH.
      apply only_bind; [ apply only_lift | intros; apply IH ]. }
  assert (P : forall articles, only (fun e => is_task_event e = false)
                                 (probe_articles lib c articles)).
  { induction articles as [ | article rest IH ]; cbn [probe_articles].
    - apply only_ret.
    - apply only_bind; [ apply only_lift | intros aid ].
      apply only_bind; [ unfold get_article_detail; quiet_steps | ].
      intros [ d | ]; [ destruct (truthy d) | ]; try apply IH.
      do 3 (apply only_bind; [ apply only_lift | intros ]).
      match goal with |- only _ (if ?b then _ else _) => destruct b end; [ | apply IH ].
      only_steps. }
  apply only_bind; [ apply C | ].
  intros [ | a all ]; [ apply only_ret | apply P ].
Qed.

(** A run that ends well went through the authentication, the task list
    and the search of an article without any event of the tasks, then
    ran the tasks on the statuses read from that list, then the clean-up,
    and ended on the profile fetch of the summary. *)
Lemma successful_run cfg w msg w' t :
  do_checkin lib cfg w = (Ok (true, msg), w', t) ->
  exists client data items ts aid w0 t0 rs collected c' w1 t1 w2 t2 t3,
    dict_get data "items" (JList []) = Ok items
    /\ (exists l, py_iter items = Ok l /\ parse_statuses l [] = Ok ts)
    /\ run_tasks lib client ts aid w0 = (Ok (rs, collected, c'), w1, t1)
    /\ cleanup lib c' aid collected w1 = (Ok tt, w2, t2)
    /\ t = t0 ++ t1 ++ t2 ++ t3
    /\ Forall (fun e => is_task_event e = false) t0
    /\ Forall (fun e => is_task_event e = false) t3
    /\ exists wa wb ta, get_task_list lib client wa = (Ok (Some data), wb, ta).
Proof.
  unfold do_checkin. intros H.
  inv_bind H as [ why | key ]; [ inv_prim H | ].
  inv_bind H as [ why | client ]; [ inv_prim H | ].
  unfold checkin_with in H.
  inv_bind H as [ data | ]; cbn [found] in H; [ | inv_prim H ].
  destruct (truthy data); [ | inv_prim H ].
  inv_bind H as items. inv_bind H as l. inv_bind H as ts.
  inv_bind H as [ aid | ]; [ | inv_prim H ].
  destruct (truthy aid); [ | inv_prim H ].
  inv_bind H as [ [ rs collected ] c' ]. cbn [fst snd] in H.
  inv_bind H as [ ].
  match goal with
  | A : resolve_key _ _ _ = (_, _, ?tr), B : validate _ _ _ _ = (_, _, ?tv),
    C : get_task_list _ _ _ = (_, _, ?tl), D : find_valid_article _ _ _ _ = (_, ?w0, ?tf),
    T : run_tasks _ _ _ _ _ = (_, ?w1, ?t1), U : cleanup _ _ _ _ _ = (_, ?w2, ?t2),
    S : summary _ _ _ _ = (_, _, ?t3) |- _ =>
      exists client, data, items, ts, aid, w0, (tr ++ tv ++ tl ++ tf), rs, collected, c',
        w1, t1, w2, t2, t3;
      pose proof (only_events _ _ _ _ _ _ (resolve_key_idle cfg) A) as IA;
      pose proof (only_events _ _ _ _ _ _ (validate_idle cfg _) B) as IB;
      pose proof (only_events _ _ _ _ _ _ (get_task_list_idle _) C) as IC;
      pose proof (only_events _ _ _ _ _ _ (find_valid_article_idle _ _) D) as ID;
      pose proof (get_task_list_spec _ _ _ _ _ _ C) as MC;
      assert (I3 : Forall (fun e => is_task_event e = false) t3);
      [ | assert (J : exists wa wb ta, get_task_list lib client wa = (Ok (Some data), wb, ta))
            by (eexists _, _, _; exact C) ]
  end.
  { unfold summary in H. inv_bind H as [ ok c3 ]. inv_bind H. inv_bind H. inv_prim H.
    match goal with
    | E : get_user_info _ _ _ = _ |- _ =>
        apply (only_events _ _ _ _ _ _ (get_user_info_idle _)) in E;
        rewrite !app_nil_r; exact E
    end. }
  split; [ assumption | ]. split; [ eexists; split; eassumption | ].
  split; [ assumption | ]. split; [ assumption | ].
  split; [ cbn [app]; rewrite <- !app_assoc; reflexivity | ].
  split; [ | split; [ exact I3 | ] ].
  - repeat (apply Forall_app; split); assumption.
  - exact J.
Qed.

End Phases.

(** * Further properties of the script *)

(** ** Dicts *)

Lemma lookup_store_other k k' v d : k <> k' -> lookup k (store k' v d) = lookup k d.
Proof.
  intros N. induction d as [ | [k1 v1] d IH ]; cbn [store lookup].
  - destruct (String.eqb_spec k k'); [ contradiction | reflexivity ].
  - destruct (String.eqb_spec k' k1) as [ -> | N1 ]; cbn [lookup].
    + destruct (String.eqb_spec k k1); [ contradiction | reflexivity ].
    + destruct (String.eqb_spec k k1); [ reflexivity | exact IH ].
Qed.

Lemma lookup_absent k d : ~ In k (map fst d) -> lookup k d = None.
Proof.
  induction d as [ | [k1 v1] d IH ]; cbn [lookup map fst In]; intros N; [ reflexivity | ].
  destruct (String.eqb_spec k k1) as [ -> | _ ]; [ tauto | ].
  apply IH. tauto.
Qed.

(** [d.update(extra)] read back: the fields of [extra] win. *)
Lemma lookup_update k extra : forall d,
  NoDup (map fst extra) ->
  lookup k (update d extra)
  = match lookup k extra with Some v => Some v | None => lookup k d end.
Proof.
  unfold update. induction extra as [ | [k1 v1] extra IH ]; intros d N; [ reflexivity | ].
  cbn [fold_left fst snd lookup]. inversion N as [ | ? ? N1 N2 ]; subst.
  rewrite IH by exact N2.
  destruct (String.eqb_spec k k1) as [ -> | D ].
  - rewrite (lookup_absent _ _ N1). apply lookup_store.
  - rewrite (lookup_store_other _ _ _ _ D). reflexivity.
Qed.

(** ** The request body *)

(** X1.  The body of a request holds, under ["d"], every field of
    [extra_data] and the security key; a field of [extra_data] named
    ["security_key"] replaces the key.  The compression flag ["gz"] is
    always 1, and no [extra_data] is the same as an empty one. *)
Theorem request_body_carries_extra key extra :
  NoDup (map fst extra) ->
  exists d,
    subscript (build_request_body key (Some extra)) "d" = Ok (JDict d)
    /\ (forall k, lookup k d
                  = match lookup k extra with
                    | Some v => Some v
                    | None => if String.eqb k "security_key" then Some key else None
                    end)
    /\ subscript (build_request_body key (Some extra)) "gz" = Ok (JInt 1)
    /\ build_request_body key None = build_request_body key (Some []).
Proof.
  intros N. exists (update [("security_key", key)] extra).
  split; [ destruct extra; reflexivity | ].
  split; [ | split; reflexivity ].
  intros k. rewrite lookup_update by exact N. reflexivity.
Qed.

Lemma request_body_carries_extra_witness :
  exists d,
    subscript (build_request_body Sample.key (Some [("fid", JInt 101); ("class", JInt 1)])) "d"
    = Ok (JDict d)
    /\ lookup "fid" d = Some (JInt 101)
    /\ lookup "security_key" d = Some Sample.key.
Proof.
  destruct (request_body_carries_extra Sample.key [("fid", JInt 101); ("class", JInt 1)])
    as (d & E & L & _).
  - repeat constructor; simpl; intuition discriminate.
  - exists d. split; [ exact E | ]. split; rewrite L; reflexivity.
Defined.

(** ** The cache *)

Section Cache.

Variable lib : PyLib.

Lemma load_cache_content w :
  load_cache lib w = (Ok (cache_content lib (cache_file w)), w, [EvCacheLoad]).
Proof.
  unfold load_cache, cache_content. destruct (cache_file w) as [ content | ]; [ | reflexivity ].
  destruct (json_loads lib content); reflexivity.
Qed.

(** Reading a key depends on the cache file alone, and changes nothing. *)
Lemma get_cached_run u w :
  get_cached_security_key lib u w
  = (match dict_get (cache_content lib (cache_file w)) u (JDict []) with
     | Ok entry => dict_get entry "security_key" JNull
     | Raise e => Raise e
     end, w, [EvCacheLoad]).
Proof.
  unfold get_cached_security_key. rewrite (bind_ok _ _ _ _ _ _ (load_cache_content w)).
  destruct (dict_get (cache_content lib (cache_file w)) u (JDict [])) as [ entry | e ];
    [ rewrite bind_lift_ok | ]; reflexivity.
Qed.

Lemma cache_security_key_run u k w d :
  cache_content lib (cache_file w) = JDict d ->
  cache_security_key lib u k w
  = (Ok tt,
     if cache_writable w
     then mkWorld (net w) (Some (json_dumps lib (JDict (store u (cache_entry lib k) d)))) true
     else w,
     [EvCacheLoad; EvCacheSave (JDict (store u (cache_entry lib k) d))]).
Proof.
  intros C. unfold cache_security_key.
  rewrite (bind_ok _ _ _ _ _ _ (load_cache_content w)), C. cbn [set_item].
  rewrite bind_lift_ok. unfold bind, save_cache, ret.
  destruct (cache_writable w); reflexivity.
Qed.

End Cache.

(** X2.  With a writable cache file that is absent, unreadable or holds
    a dict, a key cached under a username is the key read back for that
    username afterwards; the keys cached under other usernames read back
    as before, and the remote is not contacted. *)
Theorem cached_key_round_trip lib u k w :
  (forall v, json_loads lib (json_dumps lib v) = Some v) ->
  cache_writable w = true ->
  is_dict (cache_content lib (cache_file w)) = true ->
  exists w1 cache,
    cache_security_key lib u k w = (Ok tt, w1, [EvCacheLoad; EvCacheSave cache])
    /\ net w1 = net w
    /\ get_cached_security_key lib u w1 = (Ok k, w1, [EvCacheLoad])
    /\ (forall u', u' <> u ->
          result_of (get_cached_security_key lib u' w1)
          = result_of (get_cached_security_key lib u' w)).
Proof.
  intros J W D. destruct (cache_content lib (cache_file w)) as [ | | | | | d ] eqn:C;
    try discriminate D.
  eexists _, _. split; [ rewrite (cache_security_key_run lib u k w d C), W; reflexivity | ].
  split; [ reflexivity | ].
  split.
  - rewrite get_cached_run. cbn [cache_file cache_content]. rewrite J.
    cbn [dict_get]. unfold get. rewrite lookup_store. reflexivity.
  - intros u' N. rewrite !get_cached_run. cbn [cache_file cache_content result_of fst].
    rewrite J, C. cbn [dict_get]. unfold get. rewrite (lookup_store_other _ _ _ _ N).
    reflexivity.
Qed.

Lemma cached_key_round_trip_witness :
  exists w1 cache,
    cache_security_key Ref.lib "reader" (JStr "fresh:123:0") Sample.renewal
    = (Ok tt, w1, [EvCacheLoad; EvCacheSave cache])
    /\ get_cached_security_key Ref.lib "reader" w1 = (Ok (JStr "fresh:123:0"), w1, [EvCacheLoad]).
Proof.
  destruct (cached_key_round_trip Ref.lib "reader" (JStr "fresh:123:0") Sample.renewal
              RefLaws.notation_roundtrip eq_refl eq_refl) as (w1 & cache & E & _ & G & _).
  exists w1, cache. split; [ exact E | exact G ].
Defined.

(** X3.  A cache file that parses to something other than a dict is not
    treated as empty: reading a key raises [AttributeError], caching one
    raises [TypeError] before anything is written, and a run that has to
    resolve its key from a username and a password raises at once,
    without a request. *)
Theorem corrupt_cache_raises lib cfg w :
  is_dict (cache_content lib (cache_file w)) = false ->
  (forall u, get_cached_security_key lib u w = (Raise AttributeError, w, [EvCacheLoad]))
  /\ (forall u k, cache_security_key lib u k w = (Raise TypeError, w, [EvCacheLoad]))
  /\ (lk_security_key cfg = "" -> has_credentials cfg = true ->
      do_checkin lib cfg w = (Raise AttributeError, w, [EvCacheLoad])).
Proof.
  intros D.
  assert (G : forall u, get_cached_security_key lib u w
                        = (Raise AttributeError, w, [EvCacheLoad])).
  { intros u. rewrite get_cached_run.
    destruct (cache_content lib (cache_file w)); try discriminate D; reflexivity. }
  split; [ exact G | ]. split.
  - intros u k. unfold cache_security_key.
    rewrite (bind_ok _ _ _ _ _ _ (load_cache_content lib w)).
    destruct (cache_content lib (cache_file w)); try discriminate D; reflexivity.
  - intros K C. unfold do_checkin. apply bind_raise.
    unfold resolve_key. unfold has_credentials in C. rewrite K, C.
    cbn [nonempty String.eqb negb]. apply bind_raise. apply G.
Qed.

Lemma corrupt_cache_raises_witness :
  do_checkin Ref.lib Sample.account (mkWorld [] (Some (Ref.dumps (JList []))) true)
  = (Raise AttributeError, mkWorld [] (Some (Ref.dumps (JList []))) true, [EvCacheLoad]).
Proof.
  apply (corrupt_cache_raises Ref.lib Sample.account
           (mkWorld [] (Some (Ref.dumps (JList []))) true));
    vm_compute; reflexivity.
Defined.



(** ** The key across runs, and the login *)

(** X5.  A run that resolved its key from a username and a password,
    with a writable cache, spares the next run its login: resolving the
    key again over the cache file it left returns the same key after a
    read of the cache alone, without a request. *)
Theorem cached_key_spares_next_login lib cfg w k w1 t1 :
  (forall v, json_loads lib (json_dumps lib v) = Some v) ->
  cache_writable w = true ->
  lk_security_key cfg = "" ->
  resolve_key lib cfg w = (Ok (inr k), w1, t1) ->
  forall w2, cache_file w2 = cache_file w1 ->
    resolve_key lib cfg w2 = (Ok (inr k), w2, [EvCacheLoad]).
Proof.
  intros J W K H w2 F. unfold resolve_key in *. rewrite K in *.
  cbn [nonempty String.eqb negb] in *.
  destruct (nonempty (lk_username cfg) && nonempty (lk_password cfg));
    [ | discriminate H ].
  pose proof (get_cached_run lib (lk_username cfg) w) as R.
  pose proof (get_cached_run lib (lk_username cfg) w2) as R2.
  destruct (cache_content lib (cache_file w)) as [ | | | | | d ] eqn:C;
    try (rewrite (bind_raise _ _ _ _ _ _ R) in H; discriminate H).
  cbn [dict_get] in R.
  destruct (dict_get (get d (lk_username cfg) (JDict [])) "security_key" JNull)
    as [ cached | e ] eqn:G;
    [ | rewrite (bind_raise _ _ _ _ _ _ R) in H; discriminate H ].
  rewrite (bind_ok _ _ _ _ _ _ R) in H.
  destruct (truthy cached) eqn:T.
  - unfold ret in H. cbn [world_of result_of events_of fst snd app] in H.
    inversion H; subst. rewrite F, C in R2. cbn [dict_get] in R2. rewrite G in R2.
    rewrite (bind_ok _ _ _ _ _ _ R2), T. reflexivity.
  - rewrite (bind_ok _ _ _ _ _ _ (login_run lib _ _ w)) in H.
    destruct (login_key lib (next_outcome w)) as [ k' | ]; [ | discriminate H ].
    destruct (truthy k') eqn:T'; [ | discriminate H ].
    rewrite (bind_ok _ _ _ _ _ _
               (cache_security_key_run lib (lk_username cfg) k' (advance w) d C)) in H.
    cbn [advance cache_writable] in H. rewrite W in H.
    unfold ret in H. cbn [world_of result_of events_of fst snd app] in H.
    inversion H; subst. cbn [cache_file] in F.
    rewrite F in R2. cbn [cache_content] in R2. rewrite J in R2.
    cbn [dict_get] in R2. unfold get in R2 at 1. rewrite lookup_store in R2.
    cbn in R2. rewrite (bind_ok _ _ _ _ _ _ R2), T'. reflexivity.
Qed.

Lemma cached_key_spares_next_login_witness :
  resolve_key Ref.lib Sample.account
    (mkWorld [] (cache_file (world_of (resolve_key Ref.lib Sample.account Sample.twice))) true)
  = (Ok (inr (JStr "stale:123:0")),
     mkWorld [] (cache_file (world_of (resolve_key Ref.lib Sample.account Sample.twice))) true,
     [EvCacheLoad]).
Proof.
  apply (cached_key_spares_next_login Ref.lib Sample.account Sample.twice
           (JStr "stale:123:0")
           (world_of (resolve_key Ref.lib Sample.account Sample.twice))
           (events_of (resolve_key Ref.lib Sample.account Sample.twice))
           RefLaws.notation_roundtrip eq_refl eq_refl).
  - vm_compute. reflexivity.
  - reflexivity.
Defined.

Section Decoding.

Variable lib : PyLib.

Hypothesis b64_law : forall b, b64decode lib (b64encode lib b) = Some b.
Hypothesis zlib_law : forall b, zlib_decompress lib (zlib_compress lib b) = Some b.
Hypothesis json_law : forall v, json_loads lib (json_dumps lib v) = Some v.

Lemma gz_decode_envelope v : gz_decode lib (encode_envelope lib v) = Some v.
Proof. unfold gz_decode, encode_envelope. rewrite b64_law, zlib_law. apply json_law. Qed.

End Decoding.

(** X6.  [login] sends exactly one request and never raises: a network
    failure or an HTTP error status gives [None], with no second
    attempt.  A reply that decodes to a dict with a dict under ["data"],
    sent as an envelope or as plain JSON, gives the key found under
    ["security_key"] (the empty string when there is none) if its code
    is 0 and [None] otherwise. *)
Theorem login_single_attempt lib u p w :
  requests (events_of (login lib u p w)) = 1%nat
  /\ world_of (login lib u p w) = advance w
  /\ (exists key, result_of (login lib u p w) = Ok key)
  /\ (next_outcome w = NetFailure -> result_of (login lib u p w) = Ok None)
  /\ (forall status content,
        next_outcome w = Response status content -> is_http_error status = true ->
        result_of (login lib u p w) = Ok None)
  /\ (forall status content r data,
        next_outcome w = Response status content -> is_http_error status = false ->
        lookup "data" r = Some (JDict data) ->
        ((forall b, b64decode lib (b64encode lib b) = Some b) /\
         (forall b, zlib_decompress lib (zlib_compress lib b) = Some b) /\
         (forall v, json_loads lib (json_dumps lib v) = Some v) /\
         content = encode_envelope lib (JDict r))
        \/ (gz_decode lib content = None /\ json_loads lib content = Some (JDict r)) ->
        result_of (login lib u p w)
        = Ok (if eq_int (get r "code" JNull) 0
              then Some (get data "security_key" (JStr ""))
              else None)).
Proof.
  rewrite login_run. cbn [result_of world_of events_of fst snd].
  split; [ reflexivity | ]. split; [ reflexivity | ]. split; [ eexists; reflexivity | ].
  split; [ intros ->; reflexivity | ].
  split; [ intros status content -> E; cbn [login_key]; rewrite E; reflexivity | ].
  intros status content r data -> E D G. cbn [login_key]. rewrite E.
  unfold login_result.
  destruct G as [ (B & Z & J & ->) | (G & L) ].
  - rewrite (gz_decode_envelope lib B Z J), D.
    destruct (eq_int (get r "code" JNull) 0); reflexivity.
  - rewrite G, L, D. destruct (eq_int (get r "code" JNull) 0); reflexivity.
Qed.

Lemma login_single_attempt_witness :
  result_of (login Ref.lib "reader" "password" Sample.twice) = Ok (Some (JStr "stale:123:0")).
Proof.
  refine (proj2 (proj2 (proj2 (proj2 (proj2
            (login_single_attempt Ref.lib "reader" "password" Sample.twice)))))
            200 _ [("code", JInt 0);
                   ("data", JDict [("security_key", JStr "stale:123:0"); ("uid", JInt 123)])]
            [("security_key", JStr "stale:123:0"); ("uid", JInt 123)]
            eq_refl eq_refl eq_refl _).
  left. split; [ exact RefLaws.b64_roundtrip | ].
  split; [ exact RefLaws.frame_roundtrip | ].
  split; [ exact RefLaws.notation_roundtrip | reflexivity ].
Defined.

(** ** The transport, for any bound *)

Lemma first_ok_none l : first_ok l = None -> used l = List.length l.
Proof.
  induction l as [ | [ f | d ] l IH ]; cbn [first_ok used List.length]; intros H;
    [ reflexivity | rewrite IH by exact H; reflexivity | discriminate H ].
Qed.

Lemma first_ok_some l d :
  first_ok l = Some d ->
  (1 <= used l)%nat
  /\ nth (used l - 1) l (inl RequestException) = inr d
  /\ forall i, (i < used l - 1)%nat -> failed (nth i l (inr d)) = true.
Proof.
  induction l as [ | [ f | d' ] l IH ]; cbn [first_ok used]; intros H.
  - discriminate H.
  - destruct (IH H) as (U & N & F). split; [ lia | ]. split.
    + replace (S (used l) - 1)%nat with (S (used l - 1)) by lia. exact N.
    + intros [ | i ] Hi; [ reflexivity | ]. cbn [nth]. apply F. lia.
  - inversion H; subst. split; [ lia | ]. split; [ reflexivity | ]. intros i Hi. lia.
Qed.

(** X7.  [_post] with any bound [retry]: it makes some number [n] of
    attempts, at most [retry], each sending the same body (that of the
    client's key and the extra data) to the same path, and consumes
    exactly [n] answers of the remote.  It gives up with [None] only
    after [retry] attempts (at once, without a request, when [retry] is
    0); a dict it returns is the decoded answer of the last attempt, all
    earlier attempts having failed. *)
Theorem post_attempts_within_retry lib c path extra retry w :
  exists n,
    (n <= retry)%nat
    /\ events_of (_post lib c path extra retry w)
       = repeat (EvRequest path (build_request_body (security_key c) extra)) n
    /\ world_of (_post lib c path extra retry w) = advance_by n w
    /\ (result_of (_post lib c path extra retry w) = Ok None -> n = retry)
    /\ (forall d, result_of (_post lib c path extra retry w) = Ok (Some d) ->
          (1 <= n)%nat
          /\ interpret lib (nth (n - 1) (peek retry w) NetFailure) = inr d
          /\ forall i, (i < n - 1)%nat ->
               failed (interpret lib (nth i (peek retry w) NetFailure)) = true)
    /\ (exists r, result_of (_post lib c path extra retry w) = Ok r).
Proof.
  pose proof (post_run lib c path extra retry w) as R. cbv zeta in R. rewrite R.
  cbn [result_of world_of events_of fst snd].
  exists (used (map (interpret lib) (peek retry w))).
  split.
  { pose proof (used_le (map (interpret lib) (peek retry w))) as H.
    rewrite length_map, peek_length in H. exact H. }
  split; [ reflexivity | ]. split; [ reflexivity | ].
  split.
  { intros H. inversion H as [ H' ]. apply first_ok_none in H'.
    rewrite H', length_map, peek_length. reflexivity. }
  split.
  - intros d H. inversion H as [ H' ]. destruct (first_ok_some _ _ H') as (U & N & F).
    split; [ exact U | ].
    change (inl RequestException) with (interpret lib NetFailure) in N.
    rewrite map_nth in N. split; [ exact N | ].
    intros i Hi. specialize (F i Hi).
    destruct (Nat.lt_ge_cases i (List.length (map (interpret lib) (peek retry w))))
      as [ L | L ].
    + rewrite (nth_indep _ _ (interpret lib NetFailure) L), map_nth in F. exact F.
    + rewrite length_map in L. rewrite (nth_overflow _ _ L). reflexivity.
  - eexists. reflexivity.
Qed.

Lemma post_attempts_within_retry_witness :
  exists n,
    events_of (_post Ref.lib Sample.client "/api/task/list" None 5 Sample.broken)
    = repeat (EvRequest "/api/task/list" (build_request_body Sample.key None)) n
    /\ interpret Ref.lib (nth (n - 1) (peek 5 Sample.broken) NetFailure) = inr [("code", JInt 0); ("data", JNull)].
Proof.
  destruct (post_attempts_within_retry Ref.lib Sample.client "/api/task/list" None 5
              Sample.broken) as (n & _ & E & _ & _ & S & _).
  exists n. split; [ exact E | ].
  apply (S [("code", JInt 0); ("data", JNull)]). vm_compute. reflexivity.
Defined.

(** X8.  A reply that is not an envelope but plain JSON holding a dict
    is accepted by [_post] at the first attempt.  Its fields come back
    as they are, except a string under ["data"], which is decoded on its
    own: an envelope there is replaced by the value it holds, and a
    string that is no envelope stays. *)
Theorem plain_json_reply_is_decoded lib c path extra w status content r :
  next_outcome w = Response status content ->
  is_http_error status = false ->
  gz_decode lib content = None ->
  json_loads lib content = Some (JDict r) ->
  exists r',
    _post lib c path extra 3 w
    = (Ok (Some r'), advance w, [EvRequest path (build_request_body (security_key c) extra)])
    /\ (forall k, k <> "data" -> lookup k r' = lookup k r)
    /\ (forall s, lookup "data" r = Some (JStr s) ->
          lookup "data" r' = Some (decode_response lib (JStr s)))
    /\ (forall s, lookup "data" r = Some (JStr s) -> gz_decode lib s = None ->
          lookup "data" r' = Some (JStr s))
    /\ ((forall b, b64decode lib (b64encode lib b) = Some b) ->
        (forall b, zlib_decompress lib (zlib_compress lib b) = Some b) ->
        (forall v, json_loads lib (json_dumps lib v) = Some v) ->
        forall v, lookup "data" r = Some (JStr (encode_envelope lib v)) ->
          lookup "data" r' = Some v)
    /\ (match lookup "data" r with Some (JStr _) => False | _ => True end -> r' = r).
Proof.
  intros O E G L.
  pose proof (post_run lib c path extra 3 w) as R. cbv zeta in R. rewrite R.
  cbn [peek map]. rewrite O. cbn [interpret]. rewrite E. unfold decode_body.
  rewrite G, L.
  assert (D : forall s, lookup "data" (store "data" (decode_response lib (JStr s)) r)
                        = Some (decode_response lib (JStr s))) by (intros; apply lookup_store).
  destruct (lookup "data" r) as [ [ | | | s | | ] | ] eqn:Ld; cbn [first_ok used advance_by repeat].
  4: { eexists. split; [ reflexivity | ].
       split; [ intros k N; apply lookup_store_other; exact N | ].
       split; [ intros s' H; inversion H; subst; apply D | ].
       split; [ intros s' H N; inversion H; subst; rewrite D; cbn [decode_response];
                rewrite N; reflexivity | ].
       split; [ | intros [ ] ].
       intros B Z J v H. inversion H; subst. rewrite D. cbn [decode_response].
       rewrite (gz_decode_envelope lib B Z J). reflexivity. }
  all: eexists; split; [ reflexivity | ];
    split; [ reflexivity | ]; split; [ discriminate | ]; split; [ discriminate | ];
    split; [ discriminate | reflexivity ].
Qed.

Lemma plain_json_reply_is_decoded_witness :
  exists r',
    result_of (_post Ref.lib Sample.client "/api/task/complete" (Some [("id", JInt 1)]) 3
                 (mkWorld [Response 200
                             (Ref.dumps (JDict [("code", JInt 0);
                                                ("data", JStr (Ref.envelope (Sample.reward 1 2)))]))]
                          None true))
    = Ok (Some r')
    /\ lookup "data" r' = Some (Sample.reward 1 2)
    /\ lookup "code" r' = Some (JInt 0).
Proof.
  destruct (plain_json_reply_is_decoded Ref.lib Sample.client "/api/task/complete"
              (Some [("id", JInt 1)])
              (mkWorld [Response 200
                          (Ref.dumps (JDict [("code", JInt 0);
                                             ("data", JStr (Ref.envelope (Sample.reward 1 2)))]))]
                       None true)
              200 _ [("code", JInt 0); ("data", JStr (Ref.envelope (Sample.reward 1 2)))]
              eq_refl eq_refl)
    as (r' & E & K & _ & _ & V & _).
  - vm_compute. reflexivity.
  - vm_compute. reflexivity.
  - exists r'. split; [ rewrite E; reflexivity | ]. split.
    + apply (V RefLaws.b64_roundtrip RefLaws.frame_roundtrip RefLaws.notation_roundtrip).
      reflexivity.
    + rewrite K by discriminate. reflexivity.
Defined.

(** ** The profile *)

(** X9.  For a key whose second colon-separated part reads as the
    integer [u], [get_user_info] posts [uid = u] with the key to
    [/api/user/info], one to three times, and sends nothing else.  On a
    first decodable reply with code 0 and a complete profile the client
    comes back with the uid, nickname, coin and exp of the reply and the
    same key; on a reply with another code the client is unchanged and
    the result is False; on a reply with code 0 whose profile lacks a
    field the method raises instead of returning False. *)
Theorem user_info_refreshes_client lib c s u w :
  security_key c = JStr s ->
  (2 <= List.length (split_on ":"%char s))%nat ->
  py_int (nth 1 (split_on ":"%char s) "") = Some u ->
  let body := build_request_body (JStr s) (Some [("uid", JInt u)]) in
  (exists n tail,
     (1 <= n <= 3)%nat
     /\ events_of (get_user_info lib c w)
        = EvCall OpUserInfo :: repeat (EvRequest "/api/user/info" body) n ++ tail
     /\ requests tail = 0%nat)
  /\ (forall r data v_uid v_nickname v_balance v_coin v_level v_exp,
        interpret lib (next_outcome w) = inr r ->
        eq_int (get r "code" JNull) 0 = true ->
        lookup "data" r = Some data ->
        subscript data "uid" = Ok v_uid ->
        subscript data "nickname" = Ok v_nickname ->
        subscript data "balance" = Ok v_balance ->
        subscript v_balance "coin" = Ok v_coin ->
        subscript data "level" = Ok v_level ->
        subscript v_level "exp" = Ok v_exp ->
        get_user_info lib c w
        = (Ok (true, mkClient (JStr s) v_uid v_nickname v_coin v_exp), advance w,
           [EvCall OpUserInfo; EvRequest "/api/user/info" body; EvResult OpUserInfo true]))
  /\ (forall r,
        interpret lib (next_outcome w) = inr r ->
        eq_int (get r "code" JNull) 0 = false ->
        get_user_info lib c w
        = (Ok (false, c), advance w,
           [EvCall OpUserInfo; EvRequest "/api/user/info" body; EvResult OpUserInfo false]))
  /\ (forall r,
        interpret lib (next_outcome w) = inr r ->
        eq_int (get r "code" JNull) 0 = true ->
        (lookup "data" r = None
         \/ exists d, lookup "data" r = Some (JDict d)
                      /\ (lookup "uid" d = None \/ lookup "nickname" d = None
                          \/ lookup "balance" d = None)) ->
        result_of (get_user_info lib c w) = Raise KeyError).
Proof.
  intros K L I body. unfold get_user_info. rewrite K. cbn [key_parts].
  rewrite bind_log_run, bind_lift_ok.
  destruct (split_on ":"%char s) as [ | p0 [ | part parts ] ];
    cbn [List.length] in L; try lia.
  cbn [nth] in I. unfold parse_uid. rewrite I, bind_lift_ok.
  pose proof (post_run lib c "/api/user/info" (Some [("uid", JInt u)]) 3 w) as R.
  cbv zeta in R. rewrite K in R. fold body in R.
  rewrite (bind_ok _ _ _ _ _ _ R). cbn [result_of world_of events_of fst snd].
  set (os := map (interpret lib) (peek 3 w)) in *.
  assert (U : (1 <= used os <= 3)%nat).
  { split; [ apply used_pos; discriminate | ].
    pose proof (used_le os) as H. unfold os in H. rewrite length_map, peek_length in H.
    exact H. }
  split.
  { exists (used os). 
    destruct (first_ok os) as [ r | ]; [ destruct (succeeded (Some r)) | ].
    2, 3: exists [EvResult OpUserInfo false]; split; [ exact U | ]; split; reflexivity.
    set (k := fun data : json => _).
    assert (T : forall o : res json, 
               exists tail, events_of (bind (lift o) k (advance_by (used os) w)) = tail
                            /\ requests tail = 0%nat).
    { intros o. eexists. split; [ reflexivity | ].
      destruct o as [ data | e ]; [ rewrite bind_lift_ok | reflexivity ].
      unfold k. 
      repeat match goal with
             | |- context [bind (lift ?x) _ _] =>
                 destruct x; [ rewrite bind_lift_ok | reflexivity ]
             end.
      reflexivity. }
    destruct (T (subscript (JDict r) "data")) as (tail & E & Q).
    exists tail. split; [ exact U | ]. split; [ rewrite E; reflexivity | exact Q ]. }
  assert (F : forall r, interpret lib (next_outcome w) = inr r ->
                        first_ok os = Some r /\ used os = 1%nat).
  { intros r H. unfold os. cbn [peek map]. rewrite H. split; reflexivity. }
  split; [ | split ].
  - intros r data v_uid v_nickname v_balance v_coin v_level v_exp H C D S1 S2 S3 S4 S5 S6.
    destruct (F r H) as [ -> -> ].
    assert (S : succeeded (Some r) = true).
    { destruct r; [ discriminate C | exact C ]. }
    rewrite S. cbn [subscript]. rewrite D, bind_lift_ok, S1, bind_lift_ok, S2, bind_lift_ok.
    rewrite S3, bind_lift_ok, S4, bind_lift_ok, S5, bind_lift_ok, S6, bind_lift_ok.
    reflexivity.
  - intros r H C. destruct (F r H) as [ -> -> ].
    assert (S : succeeded (Some r) = false).
    { destruct r; [ reflexivity | exact C ]. }
    rewrite S. reflexivity.
  - intros r H C D. destruct (F r H) as [ -> -> ].
    assert (S : succeeded (Some r) = true).
    { destruct r; [ discriminate C | exact C ]. }
    rewrite S. cbn [subscript].
    destruct D as [ -> | (d & -> & D) ]; [ reflexivity | ].
    rewrite bind_lift_ok. cbn [subscript].
    destruct (lookup "uid" d); [ rewrite bind_lift_ok | reflexivity ].
    destruct (lookup "nickname" d); [ rewrite bind_lift_ok | reflexivity ].
    destruct (lookup "balance" d) as [ b | ]; [ | reflexivity ].
    destruct D as [ D | [ D | D ] ]; discriminate D.
Qed.

Lemma user_info_refreshes_client_witness :
  get_user_info Ref.lib (new_client Sample.key) Sample.poor
  = (Ok (true, mkClient Sample.key (JInt 123) (JStr "reader") (JInt 9) (JInt 7)),
     advance Sample.poor,
     [EvCall OpUserInfo;
      EvRequest "/api/user/info" (build_request_body Sample.key (Some [("uid", JInt 123)]));
      EvResult OpUserInfo true]).
Proof.
  destruct (user_info_refreshes_client Ref.lib (new_client Sample.key) "secret:123:0" 123
              Sample.poor eq_refl) as (_ & H & _).
  - vm_compute. lia.
  - reflexivity.
  - eapply H; [ vm_compute; reflexivity | reflexivity .. ].
Defined.

(** ** The task list and the table of statuses *)

Lemma status_get_app k ts id st :
  status_get k (ts ++ [(id, st)]) = if eq_int id k then st else status_get k ts.
Proof. unfold status_get. rewrite fold_left_app. reflexivity. Qed.

Lemma parse_statuses_cons item rest acc ts :
  parse_statuses (item :: rest) acc = Ok ts ->
  exists id st,
    subscript item "id" = Ok id /\ subscript item "status" = Ok st
    /\ hashable id = true
    /\ parse_statuses rest (acc ++ [(id, st)]) = Ok ts.
Proof.
  cbn [parse_statuses]. destruct (subscript item "status") as [ st | ]; [ | discriminate ].
  destruct (subscript item "id") as [ id | ]; [ | discriminate ].
  destruct (hashable id) eqn:H; [ | discriminate ].
  intros E. exists id, st. auto.
Qed.

(** Items none of which is about task [k] leave its status as it was. *)
Lemma parse_statuses_skip k items : forall acc ts,
  parse_statuses items acc = Ok ts ->
  (forall item id, In item items -> subscript item "id" = Ok id -> eq_int id k = false) ->
  status_get k ts = status_get k acc.
Proof.
  induction items as [ | item rest IH ]; intros acc ts P N.
  - inversion P. reflexivity.
  - destruct (parse_statuses_cons _ _ _ _ P) as (id & st & I & _ & _ & P').
    rewrite (IH _ _ P') by (intros; eapply N; [ right | ]; eassumption).
    rewrite status_get_app, (N item id (or_introl eq_refl) I). reflexivity.
Qed.

(** X10.  The status [do_checkin] reads for a task is the one of the
    last item of the task list with that id, and 2 (claimed, so the task
    is left alone) when the list has no item with that id. *)
Theorem status_read_from_list items ts k :
  parse_statuses items [] = Ok ts ->
  ((forall item id, In item items -> subscript item "id" = Ok id -> eq_int id k = false) ->
   status_get k ts = JInt 2)
  /\ (forall before item after id st,
        items = before ++ item :: after ->
        subscript item "id" = Ok id -> eq_int id k = true ->
        subscript item "status" = Ok st ->
        (forall item' id', In item' after -> subscript item' "id" = Ok id' ->
                           eq_int id' k = false) ->
        status_get k ts = st).
Proof.
  intros P. split.
  - intros N. rewrite (parse_statuses_skip k items [] ts P N). reflexivity.
  - intros before item after id st -> I K S N. revert P. generalize (@nil (json * json)).
    induction before as [ | b before IH ]; intros acc P.
    + cbn [app] in P. destruct (parse_statuses_cons _ _ _ _ P) as (id' & st' & I' & S' & _ & P').
      rewrite I in I'. rewrite S in S'. inversion I'; inversion S'; subst.
      rewrite (parse_statuses_skip k after _ ts P' N), status_get_app, K. reflexivity.
    + cbn [app] in P. destruct (parse_statuses_cons _ _ _ _ P) as (? & ? & _ & _ & _ & P').
      exact (IH _ P').
Qed.

Lemma status_read_from_list_witness :
  status_get 3 [(JInt 8, JInt 2); (JInt 3, JInt 0); (JInt 3, JInt 1)] = JInt 1
  /\ status_get 5 [(JInt 8, JInt 2); (JInt 3, JInt 0); (JInt 3, JInt 1)] = JInt 2.
Proof.
  destruct (status_read_from_list
              [JDict [("id", JInt 8); ("status", JInt 2)];
               JDict [("id", JInt 3); ("status", JInt 0)];
               JDict [("id", JInt 3); ("status", JInt 1)]]
              [(JInt 8, JInt 2); (JInt 3, JInt 0); (JInt 3, JInt 1)] 3 eq_refl) as (_ & L).
  destruct (status_read_from_list
              [JDict [("id", JInt 8); ("status", JInt 2)];
               JDict [("id", JInt 3); ("status", JInt 0)];
               JDict [("id", JInt 3); ("status", JInt 1)]]
              [(JInt 8, JInt 2); (JInt 3, JInt 0); (JInt 3, JInt 1)] 5 eq_refl) as (D & _).
  split.
  - apply (L [JDict [("id", JInt 8); ("status", JInt 2)];
              JDict [("id", JInt 3); ("status", JInt 0)]]
             (JDict [("id", JInt 3); ("status", JInt 1)]) [] (JInt 3) (JInt 1));
      try reflexivity.
    intros ? ? [ ].
  - apply D. intros item id [ <- | [ <- | [ <- | [ ] ] ] ] E; inversion E; reflexivity.
Defined.

Section TaskList.

Variable lib : PyLib.

(** The logging loop of [get_task_list] has read every item the way the
    loop of [do_checkin] will. *)
Lemma described_items_parse items : forall w w' t acc,
  for_each items describe_item w = (Ok tt, w', t) ->
  exists ts, parse_statuses items acc = Ok ts.
Proof.
  induction items as [ | item rest IH ]; intros w w' t acc H.
  - eexists. reflexivity.
  - cbn [for_each] in H. inv_bind H as [ ]. 
    match goal with
    | E : describe_item _ _ = _ |- _ => unfold describe_item in E; rename E into D
    end.
    cbn [parse_statuses].
    destruct (subscript item "id") as [ id | ]; [ | discriminate D ].
    rewrite bind_lift_ok in D.
    destruct (subscript item "status") as [ st | ]; [ | discriminate D ].
    rewrite bind_lift_ok in D.
    destruct (hashable st); [ | discriminate D ].
    destruct (hashable id); [ | discriminate D ].
    eapply IH. exact H.
Qed.

End TaskList.

Lemma task_list_parses lib c w data w' t :
  get_task_list lib c w = (Ok (Some data), w', t) ->
  exists items l ts,
    dict_get data "items" (JList []) = Ok items
    /\ py_iter items = Ok l
    /\ parse_statuses l [] = Ok ts
    /\ Forall (fun item => exists id st, subscript item "id" = Ok id
                                         /\ subscript item "status" = Ok st) l.
Proof.
  unfold get_task_list. intros H.
  inv_bind H. inv_bind H as result.
  destruct result as [ r | ]; [ destruct (succeeded (Some r)) | ];
    try (inv_bind H; inv_prim H; fail).
  inv_bind H as data'. inv_bind H. inv_bind H as items. inv_bind H as l. inv_bind H as [ ].
  inv_prim H.
  match goal with
  | E : for_each _ _ _ = _ |- _ =>
      destruct (described_items_parse _ _ _ _ [] E) as (ts & P)
  end.
  exists items, l, ts. repeat split; try assumption.
  clear - P. revert P. generalize (@nil (json * json)).
  induction l as [ | item rest IH ]; intros acc P; constructor.
  - destruct (parse_statuses_cons _ _ _ _ P) as (id & st & I & S & _). eauto.
  - destruct (parse_statuses_cons _ _ _ _ P) as (id & st & _ & _ & _ & P'). eauto.
Qed.

(** X11.  Whenever [get_task_list] returns the task data, the loop by
    which [do_checkin] then reads the statuses out of it cannot fail:
    the data has a sequence under ["items"] (or none), and every item
    has an ["id"] and a ["status"]. *)
Theorem task_list_always_parses lib c w data w' t :
  get_task_list lib c w = (Ok (Some data), w', t) ->
  exists items l ts,
    dict_get data "items" (JList []) = Ok items
    /\ py_iter items = Ok l
    /\ parse_statuses l [] = Ok ts
    /\ Forall (fun item => exists id st, subscript item "id" = Ok id
                                         /\ subscript item "status" = Ok st) l.
Proof. apply task_list_parses. Qed.

Lemma task_list_always_parses_witness :
  exists items l ts,
    dict_get (Sample.task_list [(7, 0)] 0) "items" (JList []) = Ok items
    /\ py_iter items = Ok l
    /\ parse_statuses l [] = Ok ts
    /\ Forall (fun item => exists id st, subscript item "id" = Ok id
                                         /\ subscript item "status" = Ok st) l.
Proof.
  apply (task_list_always_parses Ref.lib Sample.client
           (mkWorld [Ref.reply 0 (Sample.task_list [(7, 0)] 0)] None true)
           (Sample.task_list [(7, 0)] 0) (mkWorld [] None true)
           [EvCall OpTaskList;
            EvRequest "/api/task/list" (build_request_body Sample.key None);
            EvResult OpTaskList true]).
  vm_compute. reflexivity.
Defined.

(** X25.  [do_checkin] tests what it got for truth, not for presence: a
    task list that came back empty is reported as a task list that could
    not be fetched, and an article the search returned under a falsy id
    (0, say) is reported as no article found; in both cases no task is
    started. *)
Theorem falsy_results_count_as_failures lib c w data w1 t1 :
  get_task_list lib c w = (Ok (Some data), w1, t1) ->
  (truthy data = false ->
     checkin_with lib c w = (Ok (false, FailureMessage (nickname c) TaskListFailed), w1, t1))
  /\ (truthy data = true ->
      forall a w2 t2,
        find_valid_article lib c 5 w1 = (Ok (Some a), w2, t2) -> truthy a = false ->
        checkin_with lib c w = (Ok (false, FailureMessage (nickname c) NoArticle), w2, t1 ++ t2)).
Proof.
  intros G. unfold checkin_with. rewrite (bind_ok _ _ _ _ _ _ G). cbn [found]. split.
  - intros T. rewrite T. cbn. rewrite app_nil_r. reflexivity.
  - intros T a w2 t2 F Ta. rewrite T.
    destruct (task_list_parses _ _ _ _ _ _ G) as (items & l & ts & I & L & P & _).
    rewrite I, bind_lift_ok, L, bind_lift_ok, P, bind_lift_ok.
    rewrite (bind_ok _ _ _ _ _ _ F), Ta. cbn. rewrite app_nil_r. reflexivity.
Qed.

Lemma falsy_results_count_as_failures_witness :
  checkin_with Ref.lib Sample.client (mkWorld [Ref.reply 0 (JDict [])] None true)
  = (Ok (false, FailureMessage (JStr "reader") TaskListFailed), mkWorld [] None true,
     events_of (get_task_list Ref.lib Sample.client
                  (mkWorld [Ref.reply 0 (JDict [])] None true))).
Proof.
  apply (proj1 (falsy_results_count_as_failures Ref.lib Sample.client
                  (mkWorld [Ref.reply 0 (JDict [])] None true) (JDict [])
                  (mkWorld [] None true)
                  (events_of (get_task_list Ref.lib Sample.client
                                (mkWorld [Ref.reply 0 (JDict [])] None true)))
                  ltac:(vm_compute; reflexivity))).
  reflexivity.
Defined.

(** ** The search of an article *)

Section Search.

Variable lib : PyLib.

Lemma get_article_list_calls c page w :
  calls (events_of (get_article_list lib c page w)) = [OpArticleList page].
Proof. unfold get_article_list. apply op_calls. quiet_steps. Qed.

Lemma get_article_detail_calls c aid w :
  calls (events_of (get_article_detail lib c aid w)) = [OpArticleDetail aid].
Proof. unfold get_article_detail. apply op_calls. quiet_steps. Qed.

(** A page that came back has left its line in the log. *)
Lemma get_article_list_some c page w a w' t :
  get_article_list lib c page w = (Ok (Some a), w', t) ->
  In (EvResult (OpArticleList page) true) t.
Proof.
  unfold get_article_list. intros H.
  inv_bind H. inv_bind H as result.
  destruct result as [ r | ]; [ destruct (succeeded (Some r)) | ];
    try (inv_bind H; inv_prim H; fail).
  do 4 inv_bind H. inv_prim H.
  rewrite !in_app_iff. cbn. tauto.
Qed.

Lemma collect_articles_spec c pages : forall acc w all w' t,
  collect_articles lib c pages acc w = (Ok all, w', t) ->
  calls t = map OpArticleList pages
  /\ ((forall p, ~ In (EvResult (OpArticleList p) true) t) -> all = acc).
Proof.
  induction pages as [ | page rest IH ]; intros acc w all w' t H; cbn [collect_articles] in H.
  - inv_prim H. split; reflexivity.
  - inv_bind H as articles.
    match goal with
    | E : get_article_list _ _ _ _ = _ |- _ =>
        pose proof (get_article_list_calls c page w) as C; rewrite E in C;
        cbn [events_of snd] in C; rename E into G
    end.
    rewrite calls_app, C. cbn [map app].
    destruct articles as [ a | ]; [ destruct (truthy a) | ].
    + inv_bind H as more. destruct (IH _ _ _ _ _ H) as (IC & IA).
      cbn [app]. rewrite IC. split; [ reflexivity | ].
      intros N. exfalso. apply (N page). apply in_or_app. left.
      exact (get_article_list_some _ _ _ _ _ _ G).
    + destruct (IH _ _ _ _ _ H) as (IC & IA). rewrite IC. split; [ reflexivity | ].
      intros N. exfalso. apply (N page). apply in_or_app. left.
      exact (get_article_list_some _ _ _ _ _ _ G).
    + destruct (IH _ _ _ _ _ H) as (IC & IA). rewrite IC. split; [ reflexivity | ].
      intros N. apply IA. intros p I. apply (N p). apply in_or_app. right. exact I.
Qed.

(** The article the loop returns is the last one it looked at, and its
    detail, fetched by the loop, has the three marks at 0. *)
Lemma probe_articles_spec c articles : forall w r w' t,
  probe_articles lib c articles w = (Ok r, w', t) ->
  exists probed,
    calls t = map OpArticleDetail probed
    /\ forall aid, r = Some aid ->
         (exists earlier, probed = earlier ++ [aid])
         /\ (exists article, In article articles /\ subscript article "aid" = Ok aid)
         /\ exists d w1 w2 t1,
              get_article_detail lib c aid w1 = (Ok (Some (JDict d)), w2, t1)
              /\ eq_int (get d "already_like" (JInt 1)) 0 = true
              /\ eq_int (get d "already_fav" (JInt 1)) 0 = true
              /\ eq_int (get d "already_coin" (JInt 1)) 0 = true.
Proof.
  induction articles as [ | article rest IH ]; intros w r w' t H; cbn [probe_articles] in H.
  - inv_prim H. exists []. split; [ reflexivity | discriminate ].
  - inv_bind H as aid. inv_bind H as detail.
    match goal with
    | E : get_article_detail _ _ _ ?w0 = _ |- _ =>
        pose proof (get_article_detail_calls c aid w0) as C; rewrite E in C;
        cbn [events_of snd] in C; rename E into G
    end.
    match type of G with _ = (_, _, ?td) => rename td into td0 end.
    assert (Next : forall w1 t1, probe_articles lib c rest w1 = (Ok r, w', t1) ->
              exists probed,
                calls ([] ++ td0 ++ t1) = map OpArticleDetail probed
                /\ forall aid0, r = Some aid0 ->
                     (exists earlier, probed = earlier ++ [aid0])
                     /\ (exists article0, In article0 (article :: rest)
                                          /\ subscript article0 "aid" = Ok aid0)
                     /\ exists d w1 w2 t1,
                          get_article_detail lib c aid0 w1 = (Ok (Some (JDict d)), w2, t1)
                          /\ eq_int (get d "already_like" (JInt 1)) 0 = true
                          /\ eq_int (get d "already_fav" (JInt 1)) 0 = true
                          /\ eq_int (get d "already_coin" (JInt 1)) 0 = true).
    { intros w1 t1 P. destruct (IH _ _ _ _ P) as (probed & IC & IR).
      exists (aid :: probed). cbn [app]. rewrite calls_app, C, IC. split; [ reflexivity | ].
      intros aid0 E. destruct (IR aid0 E) as ((earlier & ->) & (a0 & I0 & S0) & D).
      split; [ exists (aid :: earlier); reflexivity | ].
      split; [ exists a0; split; [ right; exact I0 | exact S0 ] | exact D ]. }
    destruct detail as [ d | ]; [ destruct (truthy d) | ]; try (exact (Next _ _ H)).
    inv_bind H as already_like. inv_bind H as already_fav. inv_bind H as already_coin.
    destruct (eq_int already_like 0 && eq_int already_fav 0 && eq_int already_coin 0) eqn:B.
    + inv_bind H as title. inv_bind H. inv_prim H.
      exists [aid]. rewrite !app_nil_r. cbn [app]. split; [ exact C | ].
      intros aid0 E. inversion E; subst.
      split; [ exists []; reflexivity | ].
      split; [ exists article; split; [ left; reflexivity | assumption ] | ].
      destruct d as [ | | | | | fields ];
        try match goal with E : dict_get _ _ _ = Ok _ |- _ => discriminate E end.
      repeat match goal with
             | E : dict_get (JDict _) _ _ = Ok _ |- _ => cbn [dict_get] in E; inversion E; clear E
             end.
      subst. apply andb_prop in B. destruct B as [ B B3 ]. apply andb_prop in B.
      destruct B as [ B1 B2 ].
      eexists _, _, _, _. split; [ exact G | auto ].
    + cbn [app]. exact (Next _ _ H).
Qed.

End Search.


(** X13.  A search that returns fetches every page from 1 to
    [max_pages], in order, before it looks at any article, whatever the
    first pages hold; when no page comes back it looks at no article and
    returns [None]. *)
Theorem search_fetches_all_pages_first lib c n w r w' t :
  find_valid_article lib c n w = (Ok r, w', t) ->
  exists probed,
    calls t = map (fun p => OpArticleList (Z.of_nat p)) (seq 1 n) ++ map OpArticleDetail probed
    /\ ((forall p, ~ In (EvResult (OpArticleList p) true) t) -> probed = [] /\ r = None).
Proof.
  unfold find_valid_article. intros H. inv_bind H as all.
  match goal with
  | E : collect_articles _ _ _ _ _ = _ |- _ =>
      destruct (collect_articles_spec lib _ _ _ _ _ _ _ E) as (C & A)
  end.
  rewrite map_map in C.
  destruct all as [ | a all ].
  - inv_prim H. exists []. rewrite calls_app, C. split; [ reflexivity | ].
    intros _. split; reflexivity.
  - destruct (probe_articles_spec lib c _ _ _ _ _ H) as (probed & P & _).
    exists probed. rewrite calls_app, C, P. split; [ reflexivity | ].
    intros N. exfalso. assert (X : a :: all = []); [ | discriminate X ].
    apply A. intros p I. apply (N p). apply in_or_app. left. exact I.
Qed.


Lemma search_fetches_all_pages_first_witness :
  exists probed,
    calls (events_of (find_valid_article Ref.lib Sample.client 5 Cases.silent))
    = map (fun p => OpArticleList (Z.of_nat p)) (seq 1 5) ++ map OpArticleDetail probed.
Proof.
  destruct (search_fetches_all_pages_first Ref.lib Sample.client 5 Cases.silent None
              (world_of (find_valid_article Ref.lib Sample.client 5 Cases.silent))
              (events_of (find_valid_article Ref.lib Sample.client 5 Cases.silent))
              ltac:(vm_compute; reflexivity)) as (probed & C & _).
  exists probed. exact C.
Defined.

(** ** Rewards *)

(** X14.  What [claim_reward] makes of the first decodable reply: with a
    code other than 0 the claim has failed ([None]); with code 0 the
    reward is the pair of ["coin"] and ["exp"] found under ["data"],
    each amount counting as 0 when it is missing, and (0, 0) when the
    reply has no ["data"] at all; with code 0 and a ["data"] that is not
    a dict (a null, say) the method raises [AttributeError] instead of
    reporting a failure. *)
Theorem claim_reward_amounts lib c id w r :
  interpret lib (next_outcome w) = inr r ->
  let sent := [EvCall (OpClaim id);
               EvRequest "/api/task/complete"
                 (build_request_body (security_key c) (Some [("id", JInt id)]))] in
  (eq_int (get r "code" JNull) 0 = false ->
     claim_reward lib c id w = (Ok None, advance w, sent ++ [EvResult (OpClaim id) false]))
  /\ (eq_int (get r "code" JNull) 0 = true ->
      (lookup "data" r = None ->
         claim_reward lib c id w
         = (Ok (Some (JInt 0, JInt 0)), advance w, sent ++ [EvResult (OpClaim id) true]))
      /\ (forall d, lookup "data" r = Some (JDict d) ->
            claim_reward lib c id w
            = (Ok (Some (get d "coin" (JInt 0), get d "exp" (JInt 0))), advance w,
               sent ++ [EvResult (OpClaim id) true]))
      /\ (forall v, lookup "data" r = Some v -> is_dict v = false ->
            claim_reward lib c id w = (Raise AttributeError, advance w, sent))).
Proof.
  intros I sent. unfold claim_reward. rewrite bind_log_run.
  pose proof (post_run lib c "/api/task/complete" (Some [("id", JInt id)]) 3 w) as R.
  cbv zeta in R. cbn [peek map] in R. rewrite I in R. cbn [first_ok used advance_by repeat] in R.
  rewrite (bind_ok _ _ _ _ _ _ R). cbn [result_of world_of events_of fst snd].
  split.
  - intros C. assert (S : succeeded (Some r) = false) by (destruct r; [ reflexivity | exact C ]).
    rewrite S. reflexivity.
  - intros C. assert (S : succeeded (Some r) = true) by (destruct r; [ discriminate C | exact C ]).
    rewrite S. split; [ | split ].
    + intros D. unfold get. rewrite D. reflexivity.
    + intros d D. unfold get. rewrite D. reflexivity.
    + intros v D N. unfold get. rewrite D. destruct v; try discriminate N; reflexivity.
Qed.

Lemma claim_reward_amounts_witness :
  claim_reward Ref.lib Sample.client 1 (mkWorld [Ref.reply 0 (JDict [("coin", JInt 5)])] None true)
  = (Ok (Some (JInt 5, JInt 0)), mkWorld [] None true,
     [EvCall (OpClaim 1);
      EvRequest "/api/task/complete" (build_request_body Sample.key (Some [("id", JInt 1)]));
      EvResult (OpClaim 1) true]).
Proof.
  destruct (claim_reward_amounts Ref.lib Sample.client 1
              (mkWorld [Ref.reply 0 (JDict [("coin", JInt 5)])] None true)
              [("code", JInt 0); ("data", JDict [("coin", JInt 5)])]) as (_ & H).
  - vm_compute. reflexivity.
  - destruct (H eq_refl) as (_ & D & _). exact (D [("coin", JInt 5)] eq_refl).
Defined.

(** ** The coin task on a balance that could not be refreshed *)

Lemma coin_block_run lib c ts aid rs w ok c1 w1 t1 b :
  status_get 6 ts = incomplete \/ status_get 6 ts = claimable ->
  get_user_info lib c w = (Ok (ok, c1), w1, t1) ->
  coin c1 = JInt b ->
  (b < 10 ->
     task_coin lib c ts aid rs w
     = (Ok (rs ++ [(6, zero, zero, Skip)], c1), w1, t1 ++ [EvBalance (JInt b)]))
  /\ (10 <= b ->
      calls (events_of (task_coin lib c ts aid rs w))
      = [OpUserInfo]
        ++ (if eq_int (status_get 6 ts) 0 then [OpUseCoin aid 10] else [])
        ++ [OpClaim 6]).
Proof.
  intros S G B.
  assert (C1 : calls t1 = [OpUserInfo]).
  { pose proof (get_user_info_calls lib c w) as H. rewrite G in H. exact H. }
  assert (L : lt_int (status_get 6 ts) 2 = Ok true) by (destruct S as [ -> | -> ]; reflexivity).
  unfold task_coin. rewrite L, bind_lift_ok, (bind_ok _ _ _ _ _ _ G).
  cbv beta zeta. cbn [snd]. rewrite bind_log_run, B.
  cbn [result_of world_of events_of fst snd]. unfold ge_int. cbn [as_int].
  rewrite bind_lift_ok. split; intros Hb.
  - apply Z.leb_gt in Hb. rewrite Hb. reflexivity.
  - apply Z.leb_le in Hb. rewrite Hb. rewrite calls_app, C1. f_equal.
    cbn [calls flat_map app]. rewrite events_bind, calls_app.
    destruct (eq_int (status_get 6 ts) 0).
    + destruct (use_coin_calls lib c1 aid 10 w1) as (w2 & t2 & done & E2 & C2).
      rewrite (bind_ok _ _ _ _ _ _ E2). cbn [ret result_of world_of events_of fst snd].
      rewrite app_nil_r, C2. cbn [app]. f_equal.
      rewrite events_bind, calls_app, claim_reward_calls.
      destruct (result_of (claim_reward lib c1 6 w2)) as [ [ [coin exp] | ] | ]; reflexivity.
    + cbn [ret result_of world_of events_of fst snd calls flat_map app].
      rewrite events_bind, calls_app, claim_reward_calls.
      destruct (result_of (claim_reward lib c1 6 w1)) as [ [ [coin exp] | ] | ]; reflexivity.
Qed.

(** X15.  The coin task does not look at whether its refresh of the
    profile went through.  When the refresh fails, the balance it logs
    and tests is the one the client already held: below 10 the task is
    skipped, from 10 on the coins are spent (when the status is 0) and
    the reward claimed, as if that balance were fresh. *)
Theorem coin_task_on_stale_balance lib c ts aid rs w c1 w1 t1 b :
  status_get 6 ts = incomplete \/ status_get 6 ts = claimable ->
  get_user_info lib c w = (Ok (false, c1), w1, t1) ->
  coin c = JInt b ->
  In (EvResult OpUserInfo false) t1
  /\ (b < 10 ->
      task_coin lib c ts aid rs w
      = (Ok (rs ++ [(6, zero, zero, Skip)], c), w1, t1 ++ [EvBalance (JInt b)]))
  /\ (10 <= b ->
      calls (events_of (task_coin lib c ts aid rs w))
      = [OpUserInfo]
        ++ (if eq_int (status_get 6 ts) 0 then [OpUseCoin aid 10] else [])
        ++ [OpClaim 6]).
Proof.
  intros S G B.
  destruct (get_user_info_spec lib _ _ _ _ _ _ G) as (M & _ & K).
  rewrite (K eq_refl) in G.
  split; [ | exact (coin_block_run lib c ts aid rs w false c w1 t1 b S G B) ].
  assert (I : In (EvResult OpUserInfo false) (marks t1)) by (rewrite M; cbn; auto).
  unfold marks in I. apply filter_In in I. tauto.
Qed.

Lemma coin_task_on_stale_balance_witness :
  calls (events_of (task_coin Ref.lib Sample.client Sample.snapshot Sample.article []
                      (mkWorld [Sample.refused; Sample.accepted;
                                Ref.reply 0 (Sample.reward 7 8)] None true)))
  = [OpUserInfo; OpUseCoin Sample.article 10; OpClaim 6].
Proof.
  refine (proj2 (proj2 (coin_task_on_stale_balance Ref.lib Sample.client Sample.snapshot
            Sample.article []
            (mkWorld [Sample.refused; Sample.accepted; Ref.reply 0 (Sample.reward 7 8)]
                     None true) _ _ _ 20 _ _ _)) _).
  - left. reflexivity.
  - vm_compute. reflexivity.
  - reflexivity.
  - discriminate.
Defined.

(** ** The results of a run and the message built from them *)

Lemma recorded_slot id status reward : slot id (recorded id status reward).
Proof.
  unfold recorded, slot.
  destruct (lt_int status 2) as [ [ | ] | ]; [ destruct reward as [ [coin exp] | ] | | ]; eauto.
Qed.

Lemma recorded_plain id status reward : Forall plain (recorded id status reward).
Proof.
  unfold recorded.
  destruct (lt_int status 2) as [ [ | ] | ]; [ destruct reward as [ [coin exp] | ] | | ];
    repeat (apply Forall_cons || apply Forall_nil); unfold plain; cbn; auto.
Qed.

(** The results of the tasks, slot by slot. *)
Lemma results_by_slot lib c ts aid w rs collected c' w' t :
  run_tasks lib c ts aid w = (Ok (rs, collected, c'), w', t) ->
  exists c8 e8 s8 l1 l2 l3 l5 c6 e6 s6 c7 e7 s7,
    rs = [(8, c8, e8, s8)] ++ l1 ++ l2 ++ l3 ++ l5 ++ [(6, c6, e6, s6); (7, c7, e7, s7)]
    /\ slot 1 l1 /\ slot 2 l2 /\ slot 3 l3 /\ slot 5 l5
    /\ Forall plain rs.
Proof.
  intros H. apply run_tasks_spec in H.
  destruct H as (a & six & w6 & t6 & w7 & t7 & t8 & ms & todo
                 & _ & _ & O & L & _ & _ & _ & -> & _).
  unfold tasks_results, first_results.
  assert (S6 : exists c6 e6 s6,
             recorded_coin (status_get 6 ts) (balance a) (coin_reward a) = [(6, c6, e6, s6)]
             /\ plain (6, c6, e6, s6)).
  { unfold recorded_coin.
    destruct (lt_int (status_get 6 ts) 2) as [ [ | ] | ];
      [ destruct (ge_int (balance a) 10) as [ [ | ] | ];
        [ destruct (coin_reward a) as [ [coin exp] | ] | | ] | | ];
      eexists _, _, _; (split; [ reflexivity | unfold plain; cbn; auto ]). }
  assert (S7 : exists c7 e7 s7,
             recorded_all (list_again a) (all_reward a) = [(7, c7, e7, s7)]
             /\ plain (7, c7, e7, s7)).
  { unfold recorded_all. rewrite O, L.
    destruct todo; [ destruct (all_reward a) as [ [coin exp] | ] | ];
      eexists _, _, _; (split; [ reflexivity | unfold plain; cbn; auto ]). }
  assert (S8 : exists c8 e8 s8,
             match login_reward a with
             | Some (coin, exp) => (8, coin, exp, New)
             | None => (8, zero, zero, Done)
             end = (8, c8, e8, s8) /\ plain (8, c8, e8, s8)).
  { destruct (login_reward a) as [ [coin exp] | ];
      eexists _, _, _; (split; [ reflexivity | unfold plain; cbn; auto ]). }
  destruct S6 as (c6 & e6 & s6 & -> & P6). destruct S7 as (c7 & e7 & s7 & -> & P7).
  destruct S8 as (c8 & e8 & s8 & -> & P8).
  exists c8, e8, s8, (recorded 1 (status_get 1 ts) (read_reward a)),
    (recorded 2 (status_get 2 ts) (favorite_reward a)),
    (recorded 3 (status_get 3 ts) (like_reward a)),
    (recorded 5 (status_get 5 ts) (share_reward a)), c6, e6, s6, c7, e7, s7.
  split; [ rewrite <- !app_assoc; reflexivity | ].
  do 4 (split; [ apply recorded_slot | ]).
  repeat (apply Forall_app; split); try apply recorded_plain;
    repeat (apply Forall_cons || apply Forall_nil); assumption.
Qed.

Ltac by_slots H :=
  destruct (results_by_slot _ _ _ _ _ _ _ _ _ _ H)
    as (c8 & e8 & s8 & l1 & l2 & l3 & l5 & c6 & e6 & s6 & c7 & e7 & s7
        & -> & [ -> | (? & ? & ? & ->) ] & [ -> | (? & ? & ? & ->) ]
        & [ -> | (? & ? & ? & ->) ] & [ -> | (? & ? & ? & ->) ] & P).

(** X16.  The results of a run of the tasks hold at most one entry per
    task, in the order 8, 1, 2, 3, 5, 6, 7; the login task, the coin
    task and the last task always have theirs; and an entry that is not
    new carries the amounts 0 and 0. *)
Theorem results_follow_task_order lib c ts aid w rs collected c' w' t :
  run_tasks lib c ts aid w = (Ok (rs, collected, c'), w', t) ->
  map id_of rs = filter (fun id => has_entry id rs) task_order
  /\ has_entry 8 rs = true /\ has_entry 6 rs = true /\ has_entry 7 rs = true
  /\ Forall plain rs.
Proof.
  intros H. by_slots H; (split; [ reflexivity | ]); repeat split; try reflexivity; exact P.
Qed.

Lemma results_follow_task_order_witness :
  map id_of (fst (fst (match result_of (run_tasks Ref.lib Sample.client Sample.snapshot
                                          Sample.article Sample.remote) with
                       | Ok r => r
                       | Raise _ => ([], false, Sample.client)
                       end)))
  = [8; 2; 3; 5; 6; 7].
Proof.
  destruct (results_follow_task_order Ref.lib Sample.client Sample.snapshot Sample.article
              Sample.remote _ _ _ _ _ ltac:(vm_compute; reflexivity)) as (H & _).
  exact H.
Defined.

(** ** The lines of the message *)

Lemma task_dict_app rs r id :
  task_dict (rs ++ [r]) id = if id_of r =? id then Some r else task_dict rs id.
Proof. unfold task_dict. rewrite fold_left_app. reflexivity. Qed.

Lemma task_dict_absent id after : forall found,
  has_entry id after = false ->
  fold_left (fun found r => if id_of r =? id then Some r else found) after found = found.
Proof.
  induction after as [ | r after IH ]; intros found H; [ reflexivity | ].
  cbn [has_entry existsb] in H. apply orb_false_elim in H. destruct H as [ E H ].
  cbn [fold_left]. rewrite E. apply IH. exact H.
Qed.

Lemma task_dict_last before r after :
  has_entry (id_of r) after = false ->
  task_dict (before ++ r :: after) (id_of r) = Some r.
Proof.
  intros H. unfold task_dict. rewrite fold_left_app. cbn [fold_left].
  rewrite Z.eqb_refl. apply task_dict_absent. exact H.
Qed.

Lemma task_dict_none rs id : has_entry id rs = false -> task_dict rs id = None.
Proof. intros H. unfold task_dict. apply task_dict_absent. exact H. Qed.

Lemma task_dict_some rs id r : task_dict rs id = Some r -> In r rs /\ id_of r = id.
Proof.
  induction rs as [ | x rs IH ] using rev_ind; [ discriminate | ].
  rewrite task_dict_app. destruct (Z.eqb_spec (id_of x) id) as [ E | _ ].
  - intros H. inversion H; subst. split; [ apply in_or_app; right; left | ]; reflexivity.
  - intros H. destruct (IH H) as [ I E ]. split; [ apply in_or_app; left | ]; assumption.
Qed.

(** X17.  The lines of the success message, for any list of results:
    there is at most one line per task of the fixed order 8, 1, 2, 3, 5,
    6, 7 and none for any other id; a task has a line exactly when the
    results hold an entry for it, and the line shows the last such
    entry. *)
Theorem message_lines_follow_task_order rs :
  (exists shown,
     task_lines rs = map line_of shown
     /\ map id_of shown = filter (fun id => has_entry id rs) task_order
     /\ incl shown rs)
  /\ (forall before r after,
        rs = before ++ r :: after -> In (id_of r) task_order ->
        has_entry (id_of r) after = false ->
        In (line_of r) (task_lines rs))
  /\ (List.length (task_lines rs) <= 7)%nat.
Proof.
  unfold task_lines. split; [ | split ].
  - induction task_order as [ | id order IH ].
    + exists []. repeat split. intros x [ ].
    + destruct IH as (shown & L & I & S). cbn [flat_map filter].
      destruct (task_dict rs id) as [ r | ] eqn:D.
      * destruct (task_dict_some _ _ _ D) as [ Ir Er ].
        assert (Hr : has_entry id rs = true).
        { apply existsb_exists. exists r. split; [ exact Ir | apply Z.eqb_eq; exact Er ]. }
        rewrite Hr. exists (r :: shown). cbn [map app]. rewrite L, I.
        split; [ unfold line_of at 2; rewrite Er; reflexivity | ].
        split; [ rewrite Er; reflexivity | ].
        intros x [ <- | Hx ]; [ exact Ir | apply S; exact Hx ].
      * assert (Hr : has_entry id rs = false).
        { destruct (has_entry id rs) eqn:Hr; [ | reflexivity ].
          apply existsb_exists in Hr. destruct Hr as (r & Ir & Er). apply Z.eqb_eq in Er.
          apply in_split in Ir. destruct Ir as (before & after & ->).
          exfalso. revert D. clear - Er. revert before.
          induction after as [ | x after IH ] using rev_ind; intros before.
          - rewrite task_dict_app. apply Z.eqb_eq in Er. rewrite Er. discriminate.
          - rewrite app_comm_cons, app_assoc, task_dict_app.
            destruct (id_of x =? id); [ discriminate | apply IH ]. }
        rewrite Hr. exists shown. auto.
  - intros before r after -> I H. apply in_flat_map. exists (id_of r).
    split; [ exact I | ]. rewrite (task_dict_last _ _ _ H). left. reflexivity.
  - cbn [task_order flat_map].
    repeat match goal with
           | |- context [task_dict rs ?id] => destruct (task_dict rs id)
           end; cbn; lia.
Qed.

(** ** The totals *)

Lemma gained_cons column x rs :
  gained column (x :: rs)
  = (if is_new x then amount column x else 0) + gained column rs.
Proof. unfold gained. cbn [filter]. destruct (is_new x); reflexivity. Qed.

Lemma py_sum_run column rs : forall acc,
  (forall n, py_sum column rs acc = Ok n -> n = acc + gained column rs)
  /\ (Forall (fun r => is_new r = true -> as_int (column r) <> None) rs ->
      py_sum column rs acc = Ok (acc + gained column rs))
  /\ (forall r, In r rs -> is_new r = true -> as_int (column r) = None ->
        py_sum column rs acc = Raise TypeError).
Proof.
  induction rs as [ | x rs IH ]; intros acc.
  - cbn. split; [ intros n H; inversion H; lia | ]. split; [ intros _; f_equal; lia | ].
    intros r [ ].
  - rewrite gained_cons. cbn [py_sum].
    assert (N : is_new x = match snd x with New => true | _ => false end) by reflexivity.
    destruct (snd x); rewrite N.
    2-4: destruct (IH acc) as (A & B & C); split; [ exact A | ]; split;
         [ intros F; inversion F; subst; auto | ];
         intros r [ <- | I ] Nr E; [ congruence | eauto ].
    unfold amount. destruct (as_int (column x)) as [ n | ] eqn:Ax.
    + destruct (IH (acc + n)) as (A & B & C).
      split; [ intros m H; rewrite (A m H); lia | ].
      split; [ intros F; inversion F; subst; rewrite B by assumption; f_equal; lia | ].
      intros r [ <- | I ] Nr E; [ congruence | eauto ].
    + split; [ discriminate | ]. split; [ | reflexivity ].
      intros F. inversion F as [ | ? ? Fx ]; subst. exfalso. apply Fx; [ exact N | exact Ax ].
Qed.

(** X18.  The totals of the message add up the amounts of the entries
    claimed in this run and nothing else: entries that are done, skipped
    or failed do not count.  A claimed entry whose amount is not a
    number makes the sum raise [TypeError]. *)
Theorem totals_count_new_rewards column rs :
  (forall n, py_sum column rs 0 = Ok n -> n = gained column rs)
  /\ (Forall (fun r => is_new r = true -> as_int (column r) <> None) rs ->
      py_sum column rs 0 = Ok (gained column rs))
  /\ (forall r, In r rs -> is_new r = true -> as_int (column r) = None ->
        py_sum column rs 0 = Raise TypeError).
Proof.
  destruct (py_sum_run column rs 0) as (A & B & C).
  split; [ intros n H; rewrite (A n H); reflexivity | ].
  split; [ intros F; rewrite (B F); reflexivity | exact C ].
Qed.

(** ** The message of a successful run *)

Section Message.

Variable lib : PyLib.


End Message.



(** ** Runs that fail, and runs on a configured key *)

Lemma in_marks e t : In e (marks t) -> In e t.
Proof. unfold marks. intros H. apply filter_In in H. tauto. Qed.

Lemma get_user_info_true lib c w c' w' t :
  get_user_info lib c w = (Ok (true, c'), w', t) -> In (EvResult OpUserInfo true) t.
Proof.
  intros G. destruct (get_user_info_spec lib _ _ _ _ _ _ G) as (M & _).
  apply in_marks. rewrite M. cbn. auto.
Qed.

(** A client that came out of the validation has had its profile fetched. *)
Lemma validate_checked lib cfg key w client w' t :
  validate lib cfg key w = (Ok (inr client), w', t) -> In (EvResult OpUserInfo true) t.
Proof.
  unfold validate, relogin. intros V. inv_bind V as [ ok c1 ]. cbn [fst snd] in V.
  destruct ok.
  - inv_prim V. apply in_or_app. left. eapply get_user_info_true. eassumption.
  - apply in_or_app. right.
    destruct (nonempty (lk_username cfg) && nonempty (lk_password cfg)); [ | inv_prim V ].
    inv_bind V as [ k | ]; [ | inv_prim V ].
    destruct (truthy k); [ | inv_prim V ].
    inv_bind V. inv_bind V as [ ok2 c2 ]. cbn [fst snd] in V.
    destruct ok2; inv_prim V.
    rewrite !in_app_iff. right. right. left. eapply get_user_info_true. eassumption.
Qed.

Ltac failure_case :=
  split;
  [ repeat (apply Forall_app; split); try assumption; try apply Forall_nil
  | eexists _, _; split; [ reflexivity | ];
    split; [ intros [ X | [ X | [ X | [ X | [ ] ] ] ] ]; discriminate X
           | intros _; rewrite !in_app_iff; tauto ] ].

(** X20.  [do_checkin] reports a failure only before the tasks start:
    a run that returns False has made no claim, performed no
    prerequisite and removed no favourite; once the tasks have started
    the run ends with True or with an exception.  The failures of the
    authentication are reported without a nickname. *)
Theorem failure_reported_before_tasks lib cfg w msg w' t :
  do_checkin lib cfg w = (Ok (false, msg), w', t) ->
  Forall (fun e => is_task_event e = false) t
  /\ exists nick why,
       msg = FailureMessage nick why
       /\ (In why [LoginFailed; NoCredentials; UserInfoFailed; ReloginFailed] ->
           message_of msg = inl (JStr "未知", why))
       /\ (In why [TaskListFailed; NoArticle] -> In (EvResult OpUserInfo true) t).
Proof.
  unfold do_checkin. intros H.
  inv_bind H as [ why | key ].
  { inv_prim H. rewrite app_nil_r. split.
    - eapply only_events; [ apply resolve_key_idle | eassumption ].
    - exists JNull, why. split; [ reflexivity | ]. split; [ reflexivity | ].
      match goal with
      | E : resolve_key _ _ _ = _ |- _ => unfold resolve_key in E; rename E into R
      end.
      intros [ <- | [ <- | [ ] ] ]; exfalso;
        repeat match type of R with
               | (if ?b then _ else _) _ = _ => destruct b
               | ret _ _ = _ => inv_prim R
               | bind _ _ _ = _ => inv_bind R
               | match ?x with _ => _ end _ = _ => destruct x
               end. }
  match goal with
  | E : resolve_key _ _ _ = _ |- _ =>
      pose proof (only_events _ _ _ _ _ _ (resolve_key_idle lib cfg) E) as IR
  end.
  inv_bind H as [ why | client ].
  { match goal with
    | E : validate _ _ _ _ = _ |- _ =>
        pose proof (only_events _ _ _ _ _ _ (validate_idle lib cfg _) E) as IV;
        rename E into V
    end.
    inv_prim H. rewrite app_nil_r. split; [ apply Forall_app; split; assumption | ].
    exists JNull, why. split; [ reflexivity | ]. split; [ reflexivity | ].
    unfold validate, relogin in V. 
    intros [ <- | [ <- | [ ] ] ]; exfalso;
      repeat match type of V with
             | (if ?b then _ else _) _ = _ => destruct b
             | ret _ _ = _ => inv_prim V
             | bind _ _ _ = _ => inv_bind V
             | match ?x with _ => _ end _ = _ => destruct x
             end. }
  match goal with
  | E : validate _ _ _ _ = _ |- _ =>
      pose proof (only_events _ _ _ _ _ _ (validate_idle lib cfg _) E) as IV;
      rename E into V
  end.
  pose proof (validate_checked _ _ _ _ _ _ _ V) as C.
  unfold checkin_with in H.
  inv_bind H as task_data.
  match goal with
  | E : get_task_list _ _ _ = _ |- _ =>
      pose proof (only_events _ _ _ _ _ _ (get_task_list_idle lib _) E) as IL
  end.
  destruct (found task_data); [ | inv_prim H; failure_case ].
  inv_bind H as items. inv_bind H as l. inv_bind H as ts. inv_bind H as aid.
  match goal with
  | E : find_valid_article _ _ _ _ = _ |- _ =>
      pose proof (only_events _ _ _ _ _ _ (find_valid_article_idle lib _ _) E) as IF
  end.
  destruct aid as [ a | ]; [ destruct (truthy a) | ]; try (inv_prim H; failure_case).
  inv_bind H as done. inv_bind H. unfold summary in H.
  inv_bind H. inv_bind H. inv_bind H. inv_prim H.
Qed.

Lemma failure_reported_before_tasks_witness :
  Forall (fun e => is_task_event e = false)
         (events_of (do_checkin Ref.lib Sample.account Sample.twice))
  /\ exists nick why,
       FailureMessage (JStr "reader") TaskListFailed = FailureMessage nick why
       /\ (In why [LoginFailed; NoCredentials; UserInfoFailed; ReloginFailed] ->
           message_of (FailureMessage (JStr "reader") TaskListFailed) = inl (JStr "未知", why))
       /\ (In why [TaskListFailed; NoArticle] ->
           In (EvResult OpUserInfo true)
              (events_of (do_checkin Ref.lib Sample.account Sample.twice))).
Proof.
  apply (failure_reported_before_tasks Ref.lib Sample.account Sample.twice
           (FailureMessage (JStr "reader") TaskListFailed)
           (world_of (do_checkin Ref.lib Sample.account Sample.twice))).
  vm_compute. reflexivity.
Defined.

Lemma bind_ret_run {A B} (a : A) (k : A -> M B) w : bind (ret a) k w = k a w.
Proof. unfold bind, ret. destruct (k a w) as [[r w2] t2]. reflexivity. Qed.

(** X21.  A key given in the configuration is used as it is, before
    the cache and before any login, whatever else is configured.  A run
    on such a key never logs in and never reads or writes the cache
    file, as long as the key passes the profile check or no username and
    password are there to fall back on. *)
Theorem configured_key_needs_no_login lib cfg w :
  lk_security_key cfg <> "" ->
  has_credentials cfg = false
  \/ (exists c', result_of (get_user_info lib (new_client (JStr (lk_security_key cfg))) w)
                 = Ok (true, c')) ->
  resolve_key lib cfg w = (Ok (inr (JStr (lk_security_key cfg))), w, [])
  /\ Forall (fun e => is_auth e = false) (events_of (do_checkin lib cfg w))
  /\ logins (events_of (do_checkin lib cfg w)) = 0%nat
  /\ saves (events_of (do_checkin lib cfg w)) = 0%nat.
Proof.
  intros K H.
  assert (N : nonempty (lk_security_key cfg) = true).
  { unfold nonempty. destruct (String.eqb_spec (lk_security_key cfg) "");
      [ contradiction | reflexivity ]. }
  split; [ unfold resolve_key; rewrite N; reflexivity | ].
  assert (Q : Forall (fun e => is_auth e = false) (events_of (do_checkin lib cfg w))).
  { unfold do_checkin, resolve_key.
    rewrite N, bind_ret_run, events_bind. apply Forall_app. split.
    - unfold validate. rewrite events_bind. apply Forall_app.
      split; [ apply get_user_info_quiet | ].
      destruct H as [ C | (c' & P) ].
      + unfold relogin. unfold has_credentials in C. rewrite C.
        destruct (result_of (get_user_info lib _ w)) as [ [ [ | ] c1 ] | ]; constructor.
      + rewrite P. constructor.
    - destruct (result_of (validate lib cfg _ w)) as [ [ why | client ] | ];
        try constructor.
      apply checkin_with_quiet. }
  split; [ exact Q | ].
  destruct (no_auth_counts _ Q) as (S & _ & L). split; assumption.
Qed.

Lemma configured_key_needs_no_login_witness :
  logins (events_of (do_checkin Ref.lib Sample.config Sample.day)) = 0%nat
  /\ saves (events_of (do_checkin Ref.lib Sample.config Sample.day)) = 0%nat.
Proof.
  apply (configured_key_needs_no_login Ref.lib Sample.config Sample.day).
  - discriminate.
  - left. reflexivity.
Defined.

(** ** Invariants of the trace *)

Section Invariant.

Variable I : list event -> Prop.
Hypothesis I_nil : I [].
Hypothesis I_app : forall t1 t2, I t1 -> I t2 -> I (t1 ++ t2).

Lemma holds_ret {A} (a : A) (Q : A -> Prop) : Q a -> holds I (ret a) Q.
Proof. intros H w. split; [ exact I_nil | ]. intros b E. inversion E; subst. exact H. Qed.

Lemma holds_lift {A} (r : res A) (Q : A -> Prop) :
  (forall a, r = Ok a -> Q a) -> holds I (lift r) Q.
Proof. intros H w. split; [ exact I_nil | ]. intros b E. apply H. exact E. Qed.

Lemma holds_raise {A} e (Q : A -> Prop) : holds I (@raise A e) Q.
Proof. intros w. split; [ exact I_nil | ]. intros b E. discriminate E. Qed.

Lemma holds_log e (Q : unit -> Prop) : I [e] -> Q tt -> holds I (log e) Q.
Proof. intros H T w. split; [ exact H | ]. intros [ ] _. exact T. Qed.

Lemma holds_bind {A B} (m : M A) (k : A -> M B) (P : A -> Prop) (Q : B -> Prop) :
  holds I m P -> (forall a, P a -> holds I (k a) Q) -> holds I (bind m k) Q.
Proof.
  intros Hm Hk w. destruct (Hm w) as [ Im Pm ].
  rewrite events_bind. unfold bind, result_of in *.
  destruct (m w) as [[[a | e] w1] t1]; cbn [fst snd] in *.
  - destruct (Hk a (Pm a eq_refl) w1) as [ Ik Qk ].
    unfold world_of, events_of in *. cbn [fst snd] in *.
    destruct (k a w1) as [[r w2] t2]. cbn [fst snd] in *.
    split; [ apply I_app; assumption | exact Qk ].
  - split; [ rewrite app_nil_r; exact Im | discriminate ].
Qed.

Lemma holds_weaken {A} (m : M A) (P Q : A -> Prop) :
  holds I m P -> (forall a, P a -> Q a) -> holds I m Q.
Proof. intros H W w. destruct (H w) as [ Hi Hp ]. split; [ exact Hi | auto ]. Qed.

Lemma holds_for_each {A} (xs : list A) (body : A -> M unit) :
  (forall x, holds I (body x) (fun _ => True)) ->
  holds I (for_each xs body) (fun _ => True).
Proof.
  intros H. induction xs as [ | x xs IH ]; cbn [for_each].
  - apply holds_ret. exact Logic.I.
  - apply holds_bind with (P := fun _ => True); [ apply H | intros _ _; exact IH ].
Qed.

Lemma holds_events {A} (m : M A) (Q : A -> Prop) w : holds I m Q -> I (events_of (m w)).
Proof. intros H. apply H. Qed.

End Invariant.

(** ** The key on every request *)

Lemma keyed_nil k : Forall (keyed k) [].
Proof. constructor. Qed.

Lemma keyed_app k t1 t2 :
  Forall (keyed k) t1 -> Forall (keyed k) t2 -> Forall (keyed k) (t1 ++ t2).
Proof. intros H1 H2. apply Forall_app. split; assumption. Qed.

Lemma keyed_mark k e : is_request e = false -> Forall (keyed k) [e].
Proof. intros H. constructor; [ | constructor ]. destruct e; try exact I. discriminate H. Qed.

Create HintDb holds_db.

(** Breaks a computation down to its binds and case distinctions; the
    three arguments establish the invariant on the empty trace, on a
    concatenation and on a single log line. *)
Ltac holds_steps nil_t app_t mark_t :=
  repeat first
    [ apply holds_ret; [ nil_t | ]
    | apply holds_lift; [ nil_t | intros ]
    | apply holds_raise; nil_t
    | apply holds_log; [ mark_t | ]
    | apply holds_for_each; [ nil_t | app_t | intros ]
    | match goal with |- holds _ _ _ => solve [ eauto with holds_db ] end
    | match goal with
      | |- holds _ (bind _ _) _ =>
          first [ eapply holds_bind;
                  [ app_t | solve [ eauto with holds_db ] | cbv beta; intros ]
                | apply holds_bind with (P := fun _ => True); [ app_t | | intros ] ]
      end
    | match goal with
      | |- holds _ (match ?x with _ => _ end) _ => destruct x
      | |- holds _ (let _ := _ in _) _ => cbv zeta
      | |- True => exact I
      end ].

Ltac keyed_steps :=
  holds_steps ltac:(apply keyed_nil) ltac:(apply keyed_app)
              ltac:(apply keyed_mark; reflexivity).

Section Keyed.

Variable lib : PyLib.
Variable k : json.

Lemma post_keyed c path extra :
  security_key c = k -> no_key extra = true ->
  holds (Forall (keyed k)) (_post lib c path extra 3) (fun _ => True).
Proof.
  intros <- N w. rewrite post_run. cbn [events_of snd]. split; [ | intros; exact I ].
  generalize (used (map (interpret lib) (peek 3 w))). intros n.
  induction n; constructor; [ cbn; eauto | assumption ].
Qed.

Hint Resolve post_keyed : holds_db.

Lemma get_user_info_keyed c :
  security_key c = k ->
  holds (Forall (keyed k)) (get_user_info lib c) (fun r => security_key (snd r) = k).
Proof. intros E. unfold get_user_info. keyed_steps; cbn; exact E. Qed.

Lemma get_task_list_keyed c :
  security_key c = k -> holds (Forall (keyed k)) (get_task_list lib c) (fun _ => True).
Proof. intros E. unfold get_task_list, describe_item. keyed_steps. Qed.

Lemma get_article_list_keyed c page :
  security_key c = k -> holds (Forall (keyed k)) (get_article_list lib c page) (fun _ => True).
Proof. intros E. unfold get_article_list. keyed_steps. Qed.

Lemma get_article_detail_keyed c aid :
  security_key c = k -> holds (Forall (keyed k)) (get_article_detail lib c aid) (fun _ => True).
Proof. intros E. unfold get_article_detail. keyed_steps. Qed.

Lemma add_history_keyed c aid :
  security_key c = k -> holds (Forall (keyed k)) (add_history lib c aid) (fun _ => True).
Proof. intros E. unfold add_history. keyed_steps. Qed.

Lemma add_collection_keyed c aid :
  security_key c = k -> holds (Forall (keyed k)) (add_collection lib c aid) (fun _ => True).
Proof. intros E. unfold add_collection. keyed_steps. Qed.

Lemma del_collection_keyed c aid :
  security_key c = k -> holds (Forall (keyed k)) (del_collection lib c aid) (fun _ => True).
Proof. intros E. unfold del_collection. keyed_steps. Qed.

Lemma like_article_keyed c aid :
  security_key c = k -> holds (Forall (keyed k)) (like_article lib c aid) (fun _ => True).
Proof. intros E. unfold like_article. keyed_steps. Qed.

Lemma use_coin_keyed c aid n :
  security_key c = k -> holds (Forall (keyed k)) (use_coin lib c aid n) (fun _ => True).
Proof. intros E. unfold use_coin. keyed_steps. Qed.

Lemma claim_reward_keyed c id :
  security_key c = k -> holds (Forall (keyed k)) (claim_reward lib c id) (fun _ => True).
Proof. intros E. unfold claim_reward. keyed_steps. Qed.

Hint Resolve get_user_info_keyed get_task_list_keyed get_article_list_keyed
  get_article_detail_keyed add_history_keyed add_collection_keyed del_collection_keyed
  like_article_keyed use_coin_keyed claim_reward_keyed : holds_db.

Lemma find_valid_article_keyed c n :
  security_key c = k -> holds (Forall (keyed k)) (find_valid_article lib c n) (fun _ => True).
Proof.
  intros E. unfold find_valid_article.
  assert (C : forall pages all,
            holds (Forall (keyed k)) (collect_articles lib c pages all) (fun _ => True)).
  { induction pages as [ | page pages IH ]; intros all; cbn [collect_articles];
      keyed_steps; apply IH. }
  assert (P : forall articles,
            holds (Forall (keyed k)) (probe_articles lib c articles) (fun _ => True)).
  { induction articles as [ | article rest IH ]; cbn [probe_articles];
      keyed_steps; apply IH. }
  apply holds_bind with (P := fun _ => True); [ apply keyed_app | apply C | ].
  intros [ | a all ] _; [ keyed_steps | apply P ].
Qed.

Lemma task_coin_keyed c ts aid rs :
  security_key c = k ->
  holds (Forall (keyed k)) (task_coin lib c ts aid rs) (fun r => security_key (snd r) = k).
Proof. intros E. unfold task_coin. keyed_steps; cbn; assumption. Qed.

Lemma first_tasks_keyed c ts aid :
  security_key c = k ->
  holds (Forall (keyed k)) (first_tasks lib c ts aid) (fun r => security_key (snd r) = k).
Proof.
  intros E. pose proof (fun rs => task_coin_keyed c ts aid rs E) as T.
  unfold first_tasks, task_login, task_read, task_favorite, task_like, task_share.
  keyed_steps; cbn; assumption.
Qed.

Lemma run_tasks_keyed c ts aid :
  security_key c = k ->
  holds (Forall (keyed k)) (run_tasks lib c ts aid) (fun r => security_key (snd r) = k).
Proof.
  intros E. pose proof (first_tasks_keyed c ts aid E) as F.
  unfold run_tasks, task_all. keyed_steps; cbn; assumption.
Qed.

Lemma checkin_with_keyed c :
  security_key c = k -> holds (Forall (keyed k)) (checkin_with lib c) (fun _ => True).
Proof.
  intros E. unfold checkin_with, cleanup, summary.
  pose proof (find_valid_article_keyed c 5 E) as F.
  pose proof (run_tasks_keyed c) as R.
  keyed_steps; cbn in *; eauto.
Qed.

End Keyed.

Lemma lookup_update_absent k extra : forall d,
  lookup k extra = None -> lookup k (update d extra) = lookup k d.
Proof.
  unfold update. induction extra as [ | [k1 v1] extra IH ]; intros d H; [ reflexivity | ].
  cbn [lookup] in H. cbn [fold_left fst snd].
  destruct (String.eqb_spec k k1) as [ | D ]; [ discriminate H | ].
  rewrite (IH _ H). apply lookup_store_other. exact D.
Qed.

(** X22.  Once the client is validated, every request of the run is made
    with that client's key, sent under ["d"]: the key is never replaced
    or dropped while the task list is fetched, the article searched, the
    tasks run, the favourite removed and the profile refreshed. *)
Theorem requests_carry_validated_key lib c w :
  forall path body,
    In (EvRequest path body) (events_of (checkin_with lib c w)) ->
    exists d, subscript body "d" = Ok (JDict d)
              /\ lookup "security_key" d = Some (security_key c).
Proof.
  pose proof (holds_events _ _ _ w (checkin_with_keyed lib (security_key c) c eq_refl)) as H.
  intros path body I. rewrite Forall_forall in H. specialize (H _ I). cbn in H.
  destruct H as (extra & -> & N).
  destruct extra as [ [ | kv extra ] | ]; try (eexists; split; reflexivity).
  eexists. split; [ reflexivity | ].
  cbn [no_key] in N. rewrite lookup_update_absent; [ reflexivity | ].
  destruct (lookup "security_key" (kv :: extra)); [ discriminate N | reflexivity ].
Qed.

Lemma requests_carry_validated_key_witness :
  exists d,
    subscript (build_request_body Sample.key (Some [("id", JInt 8)])) "d" = Ok (JDict d)
    /\ lookup "security_key" d = Some Sample.key.
Proof.
  apply (requests_carry_validated_key Ref.lib Sample.client
           (world_of (validate Ref.lib Sample.config Sample.key Sample.day))
           "/api/task/complete").
  vm_compute. tauto.
Defined.

(** ** How many requests a run sends *)

Lemma requests_nil_of_quiet e : is_request e = false -> requests [e] = 0%nat.
Proof. unfold requests. cbn. intros ->. reflexivity. Qed.

Lemma at_most_ret {A} n (a : A) : at_most n (ret a).
Proof. intros w. cbn. lia. Qed.

Lemma at_most_lift {A} n (r : res A) : at_most n (lift r).
Proof. intros w. cbn. lia. Qed.

Lemma at_most_raise {A} n e : at_most n (@raise A e).
Proof. intros w. cbn. lia. Qed.

Lemma at_most_log n e : is_request e = false -> at_most n (log e).
Proof. intros H w. cbn [log events_of snd]. rewrite (requests_nil_of_quiet _ H). lia. Qed.

Lemma at_most_send n path body : (1 <= n)%nat -> at_most n (send path body).
Proof. intros H w. cbn. exact H. Qed.

Lemma at_most_weaken {A} a n (m : M A) : at_most a m -> (a <= n)%nat -> at_most n m.
Proof. intros H L w. specialize (H w). lia. Qed.

Lemma at_most_post lib n c path extra : (3 <= n)%nat -> at_most n (_post lib c path extra 3).
Proof.
  intros H w. rewrite post_run. cbn [events_of snd]. rewrite requests_repeat.
  pose proof (used_le (map (interpret lib) (peek 3 w))) as U.
  rewrite length_map, peek_length in U. lia.
Qed.

Lemma at_most_bind_sub {A B} a n (m : M A) (k : A -> M B) :
  at_most a m -> (a <= n)%nat -> (forall x, at_most (n - a) (k x)) -> at_most n (bind m k).
Proof.
  intros Hm L Hk w. rewrite events_bind, requests_app. specialize (Hm w).
  destruct (result_of (m w)) as [ x | e ].
  - specialize (Hk x (world_of (m w))). lia.
  - cbn. lia.
Qed.

Lemma at_most_for_each {A} n (xs : list A) (body : A -> M unit) :
  (forall x, at_most 0 (body x)) -> at_most n (for_each xs body).
Proof.
  intros H. apply (at_most_weaken 0); [ | lia ].
  induction xs as [ | x xs IH ]; cbn [for_each].
  - apply at_most_ret.
  - apply (at_most_bind_sub 0 0); [ apply H | lia | intros _; exact IH ].
Qed.

Create HintDb budget_db.

Ltac spent :=
  match goal with
  | |- at_most ?e _ => let v := eval compute in e in change e with v
  end.

Ltac budget :=
  lazymatch goal with
  | |- at_most _ (ret _) => apply at_most_ret
  | |- at_most _ (lift _) => apply at_most_lift
  | |- at_most _ (raise _) => apply at_most_raise
  | |- at_most _ (log _) => apply at_most_log; reflexivity
  | |- at_most _ (send _ _) => apply at_most_send; lia
  | |- at_most _ (for_each _ _) => apply at_most_for_each; intros; budget
  | |- at_most _ (_post _ _ _ _ 3) => apply at_most_post; lia
  | |- at_most ?n (bind ?m _) =>
      first
        [ apply (at_most_bind_sub 0 n); [ solve [ budget ] | lia | intros; spent; budget ]
        | eapply (at_most_bind_sub _ n);
          [ solve [ eauto with budget_db ] | lia | intros; spent; budget ]
        | apply (at_most_bind_sub 1 n); [ solve [ budget ] | lia | intros; spent; budget ]
        | apply (at_most_bind_sub 3 n); [ solve [ budget ] | lia | intros; spent; budget ] ]
  | |- at_most _ (match ?x with _ => _ end) => destruct x; budget
  | |- at_most _ (let _ := _ in _) => cbv zeta; budget
  | |- at_most _ _ => eapply at_most_weaken; [ solve [ eauto with budget_db ] | lia ]
  end.

Section Budget.

Variable lib : PyLib.

Lemma login_budget u p : at_most 1 (login lib u p).
Proof. unfold login. budget. Qed.

Lemma get_user_info_budget c : at_most 3 (get_user_info lib c).
Proof. unfold get_user_info. budget. Qed.

Lemma get_task_list_budget c : at_most 3 (get_task_list lib c).
Proof. unfold get_task_list, describe_item. budget. Qed.

Lemma get_article_list_budget c page : at_most 3 (get_article_list lib c page).
Proof. unfold get_article_list. budget. Qed.

Lemma get_article_detail_budget c aid : at_most 3 (get_article_detail lib c aid).
Proof. unfold get_article_detail. budget. Qed.

Lemma add_history_budget c aid : at_most 3 (add_history lib c aid).
Proof. unfold add_history. budget. Qed.

Lemma add_collection_budget c aid : at_most 3 (add_collection lib c aid).
Proof. unfold add_collection. budget. Qed.

Lemma del_collection_budget c aid : at_most 3 (del_collection lib c aid).
Proof. unfold del_collection. budget. Qed.

Lemma like_article_budget c aid : at_most 3 (like_article lib c aid).
Proof. unfold like_article. budget. Qed.

Lemma use_coin_budget c aid n : at_most 3 (use_coin lib c aid n).
Proof. unfold use_coin. budget. Qed.

Lemma claim_reward_budget c id : at_most 3 (claim_reward lib c id).
Proof. unfold claim_reward. budget. Qed.

End Budget.

#[local] Hint Resolve login_budget get_user_info_budget get_task_list_budget
  get_article_list_budget get_article_detail_budget add_history_budget add_collection_budget
  del_collection_budget like_article_budget use_coin_budget claim_reward_budget : budget_db.

Section Budgets.

Variable lib : PyLib.

Lemma task_login_budget c rs : at_most 3 (task_login lib c rs).
Proof. unfold task_login. budget. Qed.

Lemma task_read_budget c ts aid rs : at_most 6 (task_read lib c ts aid rs).
Proof. unfold task_read. budget. Qed.

Lemma task_favorite_budget c ts aid rs : at_most 6 (task_favorite lib c ts aid rs).
Proof. unfold task_favorite. budget. Qed.

Lemma task_like_budget c ts aid rs : at_most 6 (task_like lib c ts aid rs).
Proof. unfold task_like. budget. Qed.

Lemma task_share_budget c ts rs : at_most 3 (task_share lib c ts rs).
Proof. unfold task_share. budget. Qed.

Lemma task_coin_budget c ts aid rs : at_most 9 (task_coin lib c ts aid rs).
Proof. unfold task_coin. budget. Qed.

Lemma task_all_budget c rs : at_most 6 (task_all lib c rs).
Proof. unfold task_all. budget. Qed.

End Budgets.

#[local] Hint Resolve task_login_budget task_read_budget task_favorite_budget task_like_budget
  task_share_budget task_coin_budget task_all_budget : budget_db.

Section Phases_budget.

Variable lib : PyLib.

Lemma load_cache_budget : at_most 0 (load_cache lib).
Proof.
  intros w. destruct (load_cache_run lib w) as (cache & E). rewrite E. cbn. lia.
Qed.

Lemma save_cache_budget cache : at_most 0 (save_cache lib cache).
Proof. intros w. unfold save_cache. destruct (cache_writable w); cbn; lia. Qed.

Hint Resolve load_cache_budget save_cache_budget : budget_db.

Lemma get_cached_budget u : at_most 0 (get_cached_security_key lib u).
Proof. unfold get_cached_security_key. budget. Qed.

Lemma cache_security_key_budget u k : at_most 0 (cache_security_key lib u k).
Proof. unfold cache_security_key. budget. Qed.

Hint Resolve get_cached_budget cache_security_key_budget : budget_db.

Lemma resolve_key_budget cfg : at_most 1 (resolve_key lib cfg).
Proof. unfold resolve_key. budget. Qed.

Lemma relogin_budget cfg : at_most 4 (relogin lib cfg).
Proof. unfold relogin. budget. Qed.

Hint Resolve relogin_budget : budget_db.

Lemma validate_budget cfg key : at_most 7 (validate lib cfg key).
Proof. unfold validate. budget. Qed.

Lemma first_tasks_budget c ts aid : at_most 33 (first_tasks lib c ts aid).
Proof. unfold first_tasks. budget. Qed.

Hint Resolve first_tasks_budget : budget_db.

Lemma run_tasks_budget c ts aid : at_most 39 (run_tasks lib c ts aid).
Proof. unfold run_tasks. budget. Qed.

Lemma cleanup_budget c aid collected : at_most 3 (cleanup lib c aid collected).
Proof. unfold cleanup. budget. Qed.

Lemma summary_budget c rs : at_most 3 (summary lib c rs).
Proof. unfold summary. budget. Qed.

End Phases_budget.

(** X23.  Leaving the search of an article aside, each phase of a run
    sends a bounded number of requests, whatever the remote answers and
    whether or not the phase ends with an exception: at most 1 to
    resolve the key, 7 to validate it (two profile checks of up to three
    attempts and one login), 3 for the task list, 39 for the seven
    tasks, 3 for the removal of the favourite and 3 for the final
    profile. *)
Theorem requests_of_each_phase_bounded lib cfg c key ts aid collected rs w :
  (requests (events_of (resolve_key lib cfg w)) <= 1)%nat
  /\ (requests (events_of (validate lib cfg key w)) <= 7)%nat
  /\ (requests (events_of (get_task_list lib c w)) <= 3)%nat
  /\ (requests (events_of (run_tasks lib c ts aid w)) <= 39)%nat
  /\ (requests (events_of (cleanup lib c aid collected w)) <= 3)%nat
  /\ (requests (events_of (summary lib c rs w)) <= 3)%nat.
Proof.
  split; [ apply resolve_key_budget | ].
  split; [ apply validate_budget | ].
  split; [ apply get_task_list_budget | ].
  split; [ apply run_tasks_budget | ].
  split; [ apply cleanup_budget | apply summary_budget ].
Qed.

(** ** Three requests for each operation *)

Lemma thrifty_nil : thrifty [].
Proof. unfold thrifty. cbn. lia. Qed.

Lemma thrifty_app t1 t2 : thrifty t1 -> thrifty t2 -> thrifty (t1 ++ t2).
Proof. unfold thrifty. rewrite requests_app, calls_app, length_app. lia. Qed.

Lemma thrifty_mark e : is_request e = false -> thrifty [e].
Proof. intros H. unfold thrifty. rewrite (requests_nil_of_quiet _ H). lia. Qed.

(** A method that logs its name and then sends at most three requests
    without entering another method. *)
Lemma method_thrifty {A} op (m : M A) :
  only (fun e => is_call e = false) m -> at_most 3 m ->
  holds thrifty (log (EvCall op) ;;; m) (fun _ => True).
Proof.
  intros Q B w. split; [ | intros; exact I ].
  rewrite bind_log_run. cbn [events_of snd]. unfold thrifty.
  change (EvCall op :: events_of (m w)) with ([EvCall op] ++ events_of (m w)).
  rewrite requests_app, calls_app, length_app, (calls_none _ (Q w)).
  specialize (B w). cbn. lia.
Qed.

Ltac thrifty_steps :=
  holds_steps ltac:(apply thrifty_nil) ltac:(apply thrifty_app)
              ltac:(apply thrifty_mark; reflexivity).

Ltac thrifty_method := apply method_thrifty; [ quiet_steps | budget ].

Section Thrifty.

Variable lib : PyLib.

Lemma login_thrifty u p : holds thrifty (login lib u p) (fun _ => True).
Proof.
  unfold login. apply method_thrifty; [ | budget ].
  repeat first [ apply only_bind; [ | intros ] | apply only_send; reflexivity
               | apply only_log; reflexivity | apply only_ret ].
Qed.

Lemma get_user_info_thrifty c : holds thrifty (get_user_info lib c) (fun _ => True).
Proof. unfold get_user_info. thrifty_method. Qed.

Lemma get_task_list_thrifty c : holds thrifty (get_task_list lib c) (fun _ => True).
Proof. unfold get_task_list, describe_item. thrifty_method. Qed.

Lemma get_article_list_thrifty c page :
  holds thrifty (get_article_list lib c page) (fun _ => True).
Proof. unfold get_article_list. thrifty_method. Qed.

Lemma get_article_detail_thrifty c aid :
  holds thrifty (get_article_detail lib c aid) (fun _ => True).
Proof. unfold get_article_detail. thrifty_method. Qed.

Lemma add_history_thrifty c aid : holds thrifty (add_history lib c aid) (fun _ => True).
Proof. unfold add_history. thrifty_method. Qed.

Lemma add_collection_thrifty c aid : holds thrifty (add_collection lib c aid) (fun _ => True).
Proof. unfold add_collection. thrifty_method. Qed.

Lemma del_collection_thrifty c aid : holds thrifty (del_collection lib c aid) (fun _ => True).
Proof. unfold del_collection. thrifty_method. Qed.

Lemma like_article_thrifty c aid : holds thrifty (like_article lib c aid) (fun _ => True).
Proof. unfold like_article. thrifty_method. Qed.

Lemma use_coin_thrifty c aid n : holds thrifty (use_coin lib c aid n) (fun _ => True).
Proof. unfold use_coin. thrifty_method. Qed.

Lemma claim_reward_thrifty c id : holds thrifty (claim_reward lib c id) (fun _ => True).
Proof. unfold claim_reward. thrifty_method. Qed.

Lemma load_cache_thrifty : holds thrifty (load_cache lib) (fun _ => True).
Proof.
  intros w. split; [ | intros; exact I ].
  destruct (load_cache_run lib w) as (cache & E). rewrite E. apply thrifty_mark. reflexivity.
Qed.

Lemma save_cache_thrifty cache : holds thrifty (save_cache lib cache) (fun _ => True).
Proof.
  intros w. split; [ | intros; exact I ].
  unfold save_cache. destruct (cache_writable w); apply thrifty_mark; reflexivity.
Qed.

Hint Resolve login_thrifty get_user_info_thrifty get_task_list_thrifty
  get_article_list_thrifty get_article_detail_thrifty add_history_thrifty
  add_collection_thrifty del_collection_thrifty like_article_thrifty use_coin_thrifty
  claim_reward_thrifty load_cache_thrifty save_cache_thrifty : holds_db.

Lemma find_valid_article_thrifty c n :
  holds thrifty (find_valid_article lib c n) (fun _ => True).
Proof.
  unfold find_valid_article.
  assert (C : forall pages all,
            holds thrifty (collect_articles lib c pages all) (fun _ => True)).
  { induction pages as [ | page pages IH ]; intros all; cbn [collect_articles];
      thrifty_steps; apply IH. }
  assert (P : forall articles, holds thrifty (probe_articles lib c articles) (fun _ => True)).
  { induction articles as [ | article rest IH ]; cbn [probe_articles];
      thrifty_steps; apply IH. }
  apply holds_bind with (P := fun _ => True); [ apply thrifty_app | apply C | ].
  intros [ | a all ] _; [ thrifty_steps | apply P ].
Qed.

Hint Resolve find_valid_article_thrifty : holds_db.

Lemma do_checkin_thrifty cfg : holds thrifty (do_checkin lib cfg) (fun _ => True).
Proof.
  unfold do_checkin, resolve_key, validate, relogin, checkin_with, run_tasks, first_tasks,
    task_login, task_read, task_favorite, task_like, task_share, task_coin, task_all,
    cleanup, summary, get_cached_security_key, cache_security_key.
  thrifty_steps.
Qed.

End Thrifty.

(** X24.  In every run, finished or not, the requests sent are at most
    three times the operations entered: each operation of the client
    and each login announces itself in the log before it sends anything,
    and then makes at most three attempts (one for a login). *)
Theorem three_requests_per_operation lib cfg w :
  (requests (events_of (do_checkin lib cfg w))
   <= 3 * List.length (calls (events_of (do_checkin lib cfg w))))%nat.
Proof. exact (holds_events _ _ _ w (do_checkin_thrifty lib cfg)). Qed.

(** ** The five actions *)

Section Actions.

Variable lib : PyLib.

(** A method that logs its name, posts once and reports: it never
    raises, and all its requests are the same. *)
Lemma action_run (op : operation) c path extra w :
  exists b w' n,
    (1 <= n <= 3)%nat
    /\ (log (EvCall op) ;;;
        result <- _post lib c path extra 3 ;;
        log (EvResult op (succeeded result)) ;;;
        ret (succeeded result)) w
       = (Ok b, w',
          EvCall op :: repeat (EvRequest path (build_request_body (security_key c) extra)) n
          ++ [EvResult op b])
    /\ (forall r, interpret lib (next_outcome w) = inr r ->
          b = eq_int (get r "code" JNull) 0 /\ n = 1%nat).
Proof.
  rewrite bind_log_run.
  pose proof (post_run lib c path extra 3 w) as R. cbv zeta in R.
  rewrite (bind_ok _ _ _ _ _ _ R). cbn [result_of world_of events_of fst snd].
  rewrite bind_log_run. cbn [ret result_of world_of events_of fst snd].
  eexists _, _, _. split; [ | split; [ reflexivity | ] ].
  - split; [ apply used_pos; discriminate | ].
    pose proof (used_le (map (interpret lib) (peek 3 w))) as U.
    rewrite length_map, peek_length in U. exact U.
  - intros r H. cbn [peek map]. rewrite H. cbn [first_ok used]. split; [ | reflexivity ].
    destruct r; reflexivity.
Qed.

End Actions.

(** X26.  The five actions (reading, favouriting, removing the
    favourite, liking, spending coins) never raise, whatever the remote
    answers: each makes one to three attempts, all with the same body,
    and returns the truth of "the first decodable reply has code 0".
    Removing a favourite sends the very body that favouriting sent (the
    article under ["fid"], class 1), to its own path. *)
Theorem actions_never_raise lib c aid number w :
  let fav := build_request_body (security_key c) (Some [("fid", aid); ("class", JInt 1)]) in
  (exists b w' n, (1 <= n <= 3)%nat
     /\ add_history lib c aid w
        = (Ok b, w', EvCall (OpAddHistory aid)
                     :: repeat (EvRequest "/api/history/add-history" fav) n
                     ++ [EvResult (OpAddHistory aid) b])
     /\ (forall r, interpret lib (next_outcome w) = inr r ->
           b = eq_int (get r "code" JNull) 0 /\ n = 1%nat))
  /\ (exists b w' n, (1 <= n <= 3)%nat
        /\ add_collection lib c aid w
           = (Ok b, w', EvCall (OpAddCollection aid)
                        :: repeat (EvRequest "/api/history/add-collection" fav) n
                        ++ [EvResult (OpAddCollection aid) b])
        /\ (forall r, interpret lib (next_outcome w) = inr r ->
              b = eq_int (get r "code" JNull) 0 /\ n = 1%nat))
  /\ (exists b w' n, (1 <= n <= 3)%nat
        /\ del_collection lib c aid w
           = (Ok b, w', EvCall (OpDelCollection aid)
                        :: repeat (EvRequest "/api/history/del-collection" fav) n
                        ++ [EvResult (OpDelCollection aid) b])
        /\ (forall r, interpret lib (next_outcome w) = inr r ->
              b = eq_int (get r "code" JNull) 0 /\ n = 1%nat))
  /\ (exists b w' n, (1 <= n <= 3)%nat
        /\ like_article lib c aid w
           = (Ok b, w', EvCall (OpLike aid)
                        :: repeat (EvRequest "/api/article/like"
                                     (build_request_body (security_key c) (Some [("aid", aid)]))) n
                        ++ [EvResult (OpLike aid) b])
        /\ (forall r, interpret lib (next_outcome w) = inr r ->
              b = eq_int (get r "code" JNull) 0 /\ n = 1%nat))
  /\ (exists b w' n, (1 <= n <= 3)%nat
        /\ use_coin lib c aid number w
           = (Ok b, w', EvCall (OpUseCoin aid number)
                        :: repeat (EvRequest "/api/coin/use"
                                     (build_request_body (security_key c)
                                        (Some [("goods_id", JInt 2); ("params", aid);
                                               ("price", JInt 1); ("number", JInt number);
                                               ("total_price", JInt number)]))) n
                        ++ [EvResult (OpUseCoin aid number) b])
        /\ (forall r, interpret lib (next_outcome w) = inr r ->
              b = eq_int (get r "code" JNull) 0 /\ n = 1%nat)).
Proof.
  cbv zeta. repeat split; apply action_run.
Qed.

(** ** The order of a successful run *)

Lemma calls_forall (P : operation -> Prop) t :
  Forall (fun e => match e with EvCall op => P op | _ => True end) t -> Forall P (calls t).
Proof.
  induction 1 as [ | e t He _ IH ]; [ constructor | ].
  destruct e; cbn [calls flat_map app]; try exact IH. constructor; assumption.
Qed.

Lemma auth_call_nil : Forall auth_call [].
Proof. constructor. Qed.

Lemma auth_call_app t1 t2 :
  Forall auth_call t1 -> Forall auth_call t2 -> Forall auth_call (t1 ++ t2).
Proof. intros H1 H2. apply Forall_app. split; assumption. Qed.

Ltac auth_steps :=
  holds_steps ltac:(apply auth_call_nil) ltac:(apply auth_call_app)
              ltac:(constructor; [ exact I || reflexivity | constructor ]).

Section Order.

Variable lib : PyLib.

Lemma post_auth c path extra :
  holds (Forall auth_call) (_post lib c path extra 3) (fun _ => True).
Proof.
  intros w. rewrite post_run. cbn [events_of snd]. split; [ | intros; exact I ].
  generalize (used (map (interpret lib) (peek 3 w))). intros n.
  induction n; constructor; [ exact I | assumption ].
Qed.

Lemma send_auth path body : holds (Forall auth_call) (send path body) (fun _ => True).
Proof. intros w. split; [ repeat constructor | intros; exact I ]. Qed.

Lemma load_cache_auth : holds (Forall auth_call) (load_cache lib) (fun _ => True).
Proof.
  intros w. split; [ | intros; exact I ].
  destruct (load_cache_run lib w) as (cache & E). rewrite E. repeat constructor.
Qed.

Lemma save_cache_auth cache : holds (Forall auth_call) (save_cache lib cache) (fun _ => True).
Proof.
  intros w. split; [ | intros; exact I ].
  unfold save_cache. destruct (cache_writable w); repeat constructor.
Qed.

Hint Resolve post_auth send_auth load_cache_auth save_cache_auth : holds_db.

Lemma resolve_key_auth cfg : holds (Forall auth_call) (resolve_key lib cfg) (fun _ => True).
Proof.
  unfold resolve_key, get_cached_security_key, cache_security_key, login. auth_steps.
Qed.

Lemma validate_auth cfg key : holds (Forall auth_call) (validate lib cfg key) (fun _ => True).
Proof.
  unfold validate, relogin, cache_security_key, login, get_user_info. auth_steps.
Qed.

Lemma get_task_list_calls c w : calls (events_of (get_task_list lib c w)) = [OpTaskList].
Proof. unfold get_task_list. apply op_calls. quiet_steps. Qed.

Lemma find_valid_article_calls c n w r w' t :
  find_valid_article lib c n w = (Ok (Some r), w', t) ->
  exists probed,
    calls t = map (fun p => OpArticleList (Z.of_nat p)) (seq 1 n) ++ map OpArticleDetail probed
    /\ probed <> [].
Proof.
  unfold find_valid_article. intros H. inv_bind H as all.
  match goal with
  | E : collect_articles _ _ _ _ _ = _ |- _ =>
      destruct (collect_articles_spec lib _ _ _ _ _ _ _ E) as (C & _)
  end.
  rewrite map_map in C. destruct all as [ | a all ]; [ inv_prim H | ].
  destruct (probe_articles_spec lib c _ _ _ _ _ H) as (probed & P & R).
  exists probed. rewrite calls_app, C, P. split; [ reflexivity | ].
  destruct (R r eq_refl) as ((earlier & ->) & _). destruct earlier; discriminate.
Qed.

Lemma calls_lines op b : calls (lines op b) = [op].
Proof. reflexivity. Qed.

Lemma steps_after pre id status did ok :
  match pre with Some p => after_search p = true | None => True end ->
  Forall (fun op => after_search op = true) (calls (steps pre id status did ok)).
Proof.
  intros H. unfold steps.
  destruct (lt_int status 2) as [ [ | ] | ]; [ | constructor | constructor ].
  destruct (eq_int status 0), pre as [ p | ]; cbn; repeat constructor; assumption.
Qed.

Lemma coin_steps_after aid status fetched bal did ok :
  Forall (fun op => after_search op = true) (calls (coin_steps aid status fetched bal did ok)).
Proof.
  unfold coin_steps.
  destruct (lt_int status 2) as [ [ | ] | ]; [ | constructor | constructor ].
  destruct (ge_int bal 10) as [ [ | ] | ]; [ destruct (eq_int status 0) | | ];
    cbn; repeat constructor.
Qed.

Lemma all_steps_after fetched ok :
  Forall (fun op => after_search op = true) (calls (all_steps fetched ok)).
Proof.
  unfold all_steps.
  destruct (overall_status fetched) as [ s | ]; [ destruct (lt_int s 2) as [ [ | ] | ] | ];
    cbn; repeat constructor.
Qed.

(** The operations of the tasks: the claim of the login task first. *)
Lemma run_tasks_calls c ts aid w rs collected c' w' t :
  run_tasks lib c ts aid w = (Ok (rs, collected, c'), w', t) ->
  exists rest, calls t = OpClaim 8 :: rest /\ Forall (fun op => after_search op = true) rest.
Proof.
  intros H. apply run_tasks_spec in H.
  destruct H as (a & six & w6 & t6 & w7 & t7 & t8 & ms & todo
                 & _ & _ & _ & _ & -> & M6 & M8 & _).
  rewrite <- calls_marks, marks_app, M6, M8. unfold first_log.
  rewrite !calls_app, calls_lines. cbn [app]. eexists. split; [ reflexivity | ].
  apply Forall_app. split; [ | apply all_steps_after ].
  do 4 (apply Forall_app; split;
        [ apply steps_after; cbn; first [ exact I | reflexivity ] | ]).
  apply coin_steps_after.
Qed.

End Order.

(** X27.  The operations of a successful run come in this order: those
    of the authentication (logins and profile checks only); the task
    list; the article pages 1 to 5, all of them; the details of the
    articles looked at, at least one; the claim of the login task; the
    other operations of the tasks and of the clean-up, none of which is
    a login or a fetch of the search; and last the refresh of the
    profile for the message. *)
Theorem successful_run_order lib cfg w msg w' t :
  do_checkin lib cfg w = (Ok (true, msg), w', t) ->
  exists auth probed middle,
    calls t
    = auth ++ OpTaskList :: map (fun p => OpArticleList (Z.of_nat p)) (seq 1 5)
      ++ map OpArticleDetail probed ++ OpClaim 8 :: middle ++ [OpUserInfo]
    /\ Forall (fun op => is_auth_op op = true) auth
    /\ probed <> []
    /\ Forall (fun op => after_search op = true) middle.
Proof.
  unfold do_checkin. intros H.
  inv_bind H as [ why | key ]; [ inv_prim H | ].
  inv_bind H as [ why | client ]; [ inv_prim H | ].
  unfold checkin_with in H.
  inv_bind H as [ data | ]; cbn [found] in H; [ | inv_prim H ].
  destruct (truthy data); [ | inv_prim H ].
  inv_bind H as items. inv_bind H as l. inv_bind H as ts.
  inv_bind H as [ aid | ]; [ | inv_prim H ].
  destruct (truthy aid); [ | inv_prim H ].
  inv_bind H as [ [ rs collected ] c' ]. cbn [fst snd] in H.
  inv_bind H as [ ]. unfold summary in H.
  inv_bind H as [ ok last ]. inv_bind H as total_coin. inv_bind H as total_exp.
  inv_prim H.
  repeat match goal with
         | E : lift _ _ = _ |- _ => unfold lift in E; inversion E; clear E
         end.
  subst.
  match goal with
  | A : resolve_key _ _ _ = (_, _, ?tr), B : validate _ _ _ ?wv = (_, _, ?tv),
    C : get_task_list _ _ ?wl = (_, _, ?tl), D : find_valid_article _ _ _ _ = (_, _, ?tf),
    T : run_tasks _ _ _ _ _ = (_, _, ?t1), U : cleanup _ _ _ _ ?wc = (_, _, ?t2),
    S : get_user_info _ _ ?ws = (_, _, ?t3) |- _ =>
      pose proof (holds_events _ _ _ w (resolve_key_auth lib cfg)) as IA; rewrite A in IA;
      pose proof (holds_events _ _ _ wv (validate_auth lib cfg key)) as IB; rewrite B in IB;
      pose proof (get_task_list_calls lib client wl) as CL; rewrite C in CL;
      destruct (find_valid_article_calls _ _ _ _ _ _ _ D) as (probed & CF & NP);
      destruct (run_tasks_calls _ _ _ _ _ _ _ _ _ _ T) as (rest & CT & AT);
      pose proof (get_user_info_calls lib c' ws) as CS; rewrite S in CS;
      assert (CU : exists undo, calls t2 = undo
                                /\ Forall (fun op => after_search op = true) undo);
      [ | destruct CU as (undo & CU & AU);
          exists (calls (tr ++ tv)), probed, (rest ++ undo) ]
  end.
  { match goal with
    | U : cleanup _ _ _ _ _ = _ |- _ =>
        apply cleanup_spec in U; destruct U as (undone & MU)
    end.
    eexists. split; [ reflexivity | ]. rewrite <- calls_marks, MU. unfold cleanup_log.
    destruct collected; cbn; repeat constructor. }
  cbn [events_of snd] in *.
  split; [ | split; [ | split; [ exact NP | apply Forall_app; split; assumption ] ] ].
  - repeat rewrite calls_app. cbn [app calls flat_map]. rewrite CL, CF, CT, CU, CS.
    cbn [app]. rewrite <- !app_assoc. cbn [app]. rewrite <- ?app_assoc. reflexivity.
  - apply calls_forall. apply Forall_app. split; assumption.
Qed.

Lemma successful_run_order_witness :
  exists auth probed middle,
    calls (events_of (do_checkin Ref.lib Sample.config Sample.day))
    = auth ++ OpTaskList :: map (fun p => OpArticleList (Z.of_nat p)) (seq 1 5)
      ++ map OpArticleDetail probed ++ OpClaim 8 :: middle ++ [OpUserInfo]
    /\ Forall (fun op => is_auth_op op = true) auth
    /\ probed <> []
    /\ Forall (fun op => after_search op = true) middle.
Proof.
  apply (successful_run_order Ref.lib Sample.config Sample.day
           (SuccessMessage (JStr "reader")
              [(8, zero, zero, Done); (2, JInt 1, JInt 2, New); (3, JInt 3, JInt 4, New);
               (5, JInt 5, JInt 6, New); (6, JInt 7, JInt 8, New); (7, JInt 9, JInt 10, New)]
              25 30 (JInt 40) (JInt 7))
           (world_of (do_checkin Ref.lib Sample.config Sample.day))).
  vm_compute. reflexivity.
Defined.
